(** * lumedot-solana-demo: payment correlation and confirmation pipeline

    A shallow embedding of

    - [utils/price_check.py]   (session encoder: [create_sub_session],
      [create_title_session]),
    - [utils/helius_listener.py] (ledger watcher: [HeliusListener.heartbeat],
      [start], [_connect_and_listen], [handle_signature]),
    - [resolvers/*/mutation.py] (the two session-creation resolvers),
    - [utils/coingecko.py]     (price oracle client: [get_sol_price]),

    followed by the properties of the specification that concern them.

    Conventions.  A Python [str] is a [string]; a character [c : ascii] stands
    for the code point [N_of_ascii c] (0..255).  A Python [float] is an IEEE
    754 binary64 value, a [spec_float] at [prec = 53], [emax = 1024].  A Python
    [int] is a [Z].  A value decoded from JSON is a [json].  Python exceptions
    are values of [exn]; code that can raise returns a [result]. *)

From Stdlib Require Import ZArith List String Ascii Bool Lia.
From Stdlib Require Import SpecFloat.
Import ListNotations.

Local Open Scope string_scope.
Local Open Scope Z_scope.

(* ================================================================= *)
(** * Part I.  The model *)
(* ================================================================= *)

(** ** Python strings *)

Module PyStr.

(** [c.isspace()] on code points below 256: TAB, LF, VT, FF, CR, the four
    separators FS..US, SPACE, NEL and NBSP. *)
Definition isspace (c : ascii) : bool :=
  let n := N_of_ascii c in
  ((9 <=? n) && (n <=? 13) || (28 <=? n) && (n <=? 32)
   || (n =? 133) || (n =? 160))%N.

(** [c.lower()] on code points below 256: A..Z and the Latin-1 capitals
    (U+00C0..U+00DE without U+00D7) move up by 32. *)
Definition lower_char (c : ascii) : ascii :=
  let n := N_of_ascii c in
  if ((65 <=? n) && (n <=? 90)
      || (192 <=? n) && (n <=? 222) && negb (n =? 215))%N
  then ascii_of_N (n + 32) else c.

(** [s.lower()] *)
Fixpoint lower (s : string) : string :=
  match s with
  | EmptyString => EmptyString
  | String c r => String (lower_char c) (lower r)
  end.

(** [s.startswith(p)] *)
Definition startswith (s p : string) : bool := String.prefix p s.

(** [s.split()]: the maximal runs of non-whitespace characters, in order.
    [tok] is the run being read. *)
Fixpoint split_from (tok : string) (s : string) : list string :=
  match s with
  | EmptyString => if (String.length tok =? 0)%nat then [] else [tok]
  | String c r =>
      if isspace c
      then (if (String.length tok =? 0)%nat then split_from "" r
            else tok :: split_from "" r)
      else split_from (tok ++ String c "") r
  end.

Definition split (s : string) : list string := split_from "" s.

(** [s.split(sep, 1)]: cut at the first [sep], when there is one. *)
Fixpoint split1_from (sep : ascii) (pre : string) (s : string) : list string :=
  match s with
  | EmptyString => [pre]
  | String c r =>
      if Ascii.eqb c sep then [pre; r]
      else split1_from sep (pre ++ String c "") r
  end.

Definition split1 (sep : ascii) (s : string) : list string :=
  split1_from sep "" s.

(** The double quote character, code point 34. *)
Definition dquote : ascii := "034"%char.

(** The group of the first match in [s] of the regular expression that
    [handle_signature] searches for (a double quote, one or more characters
    other than a double quote, a double quote), as [re.search(...).group(1)]
    gives it: the first quote that is followed by a non-empty run of
    non-quote characters and a closing quote.
    [run] is [None] before an opening quote was seen and [Some r] while the
    run [r] after the last quote is being read. *)
Fixpoint search_quoted_from (run : option string) (s : string) : option string :=
  match s with
  | EmptyString => None
  | String c r =>
      if Ascii.eqb c dquote
      then match run with
           | Some t =>
               if (String.length t =? 0)%nat then search_quoted_from (Some "") r
               else Some t
           | None => search_quoted_from (Some "") r
           end
      else match run with
           | Some t => search_quoted_from (Some (t ++ String c "")) r
           | None => search_quoted_from None r
           end
  end.

Definition search_quoted (s : string) : option string :=
  search_quoted_from None s.

End PyStr.

(** ** Exceptions and results *)

Inductive exn : Type :=
| KeyError | IndexError | TypeError | AttributeError | ValueError
| ZeroDivisionError | OverflowError
| RuntimeError (msg : string)
| RequestException.

Inductive result (A : Type) : Type :=
| Ok (a : A)
| Raise (e : exn).
Arguments Ok {A} a.
Arguments Raise {A} e.

Definition rbind {A B} (r : result A) (k : A -> result B) : result B :=
  match r with
  | Ok a => k a
  | Raise e => Raise e
  end.

Declare Scope result_scope.
Delimit Scope result_scope with result.
Notation "x <- r ;; k" := (rbind r (fun x => k))
  (at level 61, r at next level, right associativity) : result_scope.
Notation "' pat <- r ;; k" := (rbind r (fun pat => k))
  (at level 61, pat pattern, r at next level, right associativity)
  : result_scope.

(** ** Python floats: IEEE 754 binary64 *)

Module Float64.

Definition prec : Z := 53.
Definition emax : Z := 1024.
Definition float : Type := spec_float.

Definition pzero : float := S754_zero false.

Definition is_zero (x : float) : bool :=
  match x with S754_zero _ => true | _ => false end.

Definition is_infinite (x : float) : bool :=
  match x with S754_infinity _ => true | _ => false end.

Definition sub : float -> float -> float := SFsub prec emax.
Definition div : float -> float -> float := SFdiv prec emax.
Definition abs : float -> float := SFabs.
Definition ltb : float -> float -> bool := SFltb.
Definition leb : float -> float -> bool := SFleb.

(** The double nearest to the integer [z] (ties to even); an infinity when
    [z] is out of range. *)
Definition of_Z (z : Z) : float := binary_normalize prec emax z 0 false.

(** The double nearest to the fraction [n / d] (ties to even): what a decimal
    literal or a JSON number with a fractional part parses to, and the value
    of an [int / int] true division. *)
Definition of_ratio (n : Z) (d : positive) : float :=
  match n with
  | Z0 => pzero
  | Zpos m => div (S754_finite false m 0) (S754_finite false d 0)
  | Zneg m => div (S754_finite true m 0) (S754_finite false d 0)
  end.

(** Round [n / d] to the nearest integer, ties to even ([n >= 0]). *)
Definition round_half_even (n : Z) (d : Z) : Z :=
  let q := n / d in
  let r := n mod d in
  match 2 * r ?= d with
  | Lt => q
  | Gt => q + 1
  | Eq => if Z.even q then q else q + 1
  end.

(** [round(x, 6)] for a float [x] ([float.__round__] with [ndigits = 6]):
    the exact value of [x] is rounded to six decimals, ties to even, and the
    decimal is converted back to the nearest double.  Zeros, infinities and
    NaN are returned as they are. *)
Definition round6 (x : float) : result float :=
  match x with
  | S754_finite s m e =>
      let scaled :=
        match e with
        | Zneg p => round_half_even (Zpos m * 1000000) (2 ^ Zpos p)
        | _ => Zpos m * 1000000 * 2 ^ e
        end in
      let r :=
        match scaled with
        | Z0 => S754_zero s
        | _ => of_ratio (if s then - scaled else scaled) 1000000
        end in
      if is_infinite r then Raise OverflowError else Ok r
  | _ => Ok x
  end.

End Float64.

(** ** Python numbers *)

Inductive pynum : Type :=
| PInt (z : Z)
| PFloat (f : Float64.float).

Module PyNum.
Import Float64.
Local Open Scope result_scope.

(** Conversion of an operand to [float]; an [int] too large raises. *)
Definition to_float (a : pynum) : result float :=
  match a with
  | PInt z =>
      let f := of_Z z in
      if is_infinite f then Raise OverflowError else Ok f
  | PFloat f => Ok f
  end.

(** [a - b] *)
Definition sub (a b : pynum) : result pynum :=
  match a, b with
  | PInt x, PInt y => Ok (PInt (x - y))
  | _, _ =>
      fa <- to_float a ;;
      fb <- to_float b ;;
      Ok (PFloat (Float64.sub fa fb))
  end.

(** [a / b] (true division) *)
Definition truediv (a b : pynum) : result float :=
  match a, b with
  | PInt x, PInt y =>
      match y with
      | Z0 => Raise ZeroDivisionError
      | Zpos d =>
          let f := of_ratio x d in
          if is_infinite f then Raise OverflowError else Ok f
      | Zneg d =>
          let f := match x with
                   | Z0 => S754_zero true
                   | _ => of_ratio (- x) d
                   end in
          if is_infinite f then Raise OverflowError else Ok f
      end
  | _, _ =>
      fa <- to_float a ;;
      fb <- to_float b ;;
      if is_zero fb then Raise ZeroDivisionError
      else Ok (Float64.div fa fb)
  end.

(** [a <= 0] *)
Definition le_zero (a : pynum) : bool :=
  match a with
  | PInt z => z <=? 0
  | PFloat f => Float64.leb f pzero
  end.

End PyNum.

(** ** Values decoded from JSON

    What [requests.Response.json()] returns.  An object is the dictionary
    after parsing, its keys in insertion order and pairwise distinct. *)

#[local] Set Warnings "-register-all".
Inductive json : Type :=
| JNull
| JBool (b : bool)
| JInt (z : Z)
| JFloat (f : Float64.float)
| JStr (s : string)
| JArr (items : list json)
| JObj (fields : list (string * json)).

Module Json.
Local Open Scope result_scope.

Fixpoint lookup (k : string) (fields : list (string * json)) : option json :=
  match fields with
  | [] => None
  | (k', v) :: rest => if String.eqb k' k then Some v else lookup k rest
  end.

(** [d.get(k, default)] *)
Definition get (d : json) (k : string) (default : json) : result json :=
  match d with
  | JObj fields =>
      match lookup k fields with Some v => Ok v | None => Ok default end
  | _ => Raise AttributeError
  end.

(** [d[k]] for a string [k] *)
Definition item (d : json) (k : string) : result json :=
  match d with
  | JObj fields =>
      match lookup k fields with Some v => Ok v | None => Raise KeyError end
  | _ => Raise TypeError
  end.

(** [d[i]] for an index [i >= 0] *)
Definition at_index (d : json) (i : nat) : result json :=
  match d with
  | JArr items =>
      match nth_error items i with Some v => Ok v | None => Raise IndexError end
  | JStr s =>
      match String.get i s with
      | Some c => Ok (JStr (String c ""))
      | None => Raise IndexError
      end
  | JObj _ => Raise KeyError
  | _ => Raise TypeError
  end.

(** [bool(v)] *)
Definition truthy (v : json) : bool :=
  match v with
  | JNull => false
  | JBool b => b
  | JInt z => negb (z =? 0)
  | JFloat f => negb (Float64.is_zero f)
  | JStr s => negb (String.length s =? 0)%nat
  | JArr items => match items with [] => false | _ => true end
  | JObj fields => match fields with [] => false | _ => true end
  end.

(** [isinstance(v, dict)] *)
Definition is_dict (v : json) : bool :=
  match v with JObj _ => true | _ => false end.

(** [v == s] for a string [s] *)
Definition eq_str (v : json) (s : string) : bool :=
  match v with JStr t => String.eqb t s | _ => false end.

(** The items [for x in v] goes through. *)
Definition iter (v : json) : result (list json) :=
  match v with
  | JArr items => Ok items
  | JObj fields => Ok (map (fun kv => JStr (fst kv)) fields)
  | JStr s => Ok (map (fun c => JStr (String c "")) (list_ascii_of_string s))
  | _ => Raise TypeError
  end.

(** The operand of an arithmetic operator; [bool] is a subclass of [int]. *)
Definition number (v : json) : result pynum :=
  match v with
  | JBool b => Ok (PInt (if b then 1 else 0))
  | JInt z => Ok (PInt z)
  | JFloat f => Ok (PFloat f)
  | _ => Raise TypeError
  end.

(** [a - b] *)
Definition sub (a b : json) : result pynum :=
  x <- number a ;; y <- number b ;; PyNum.sub x y.

(** [a / b] *)
Definition truediv (a b : json) : result Float64.float :=
  x <- number a ;; y <- number b ;; PyNum.truediv x y.

End Json.

(** ** Session encoder ([utils/price_check.py]) *)

Module PriceCheck.
Local Open Scope result_scope.

(** What a session creation reads from outside the process: the JSON body of
    the pricing query, the value [get_sol_price()] returns, and the string
    [_random_ref()] returns.  The first two can raise. *)
Record env : Type := {
  pricing_response : result json;
  sol_price : result json;
  random_ref : string
}.

(** The dictionary a session creation returns. *)
Record session : Type := {
  solanaPayUrl : string;
  recipient : string;
  amount : Float64.float;
  reference : string;
  label : string;
  message : string;
  memo : string
}.

(** The f-string [ud:{user_id} {memo_tag}] *)
Definition memo_of (user_id memo_tag : string) : string :=
  "ud:" ++ user_id ++ " " ++ memo_tag.

Section Sessions.

(** Module-level configuration, read from the process environment. *)
Variable MERCHANT : string.

(** Library functions the URL is built with: [str] on a float and
    [urllib.parse.quote] with no safe characters. *)
Variable float_str : Float64.float -> string.
Variable quote : string -> string.

(** [urlencode(params, quote_via=quote)] on string keys and values *)
Fixpoint urlencode (params : list (string * string)) : string :=
  match params with
  | [] => ""
  | [(k, v)] => quote k ++ "=" ++ quote v
  | (k, v) :: rest => quote k ++ "=" ++ quote v ++ "&" ++ urlencode rest
  end.

Definition create_sub_session (e : env) (user_id purchase_type : string)
  : result session :=
  if (String.length MERCHANT =? 0)%nat
  then Raise (RuntimeError "MERCHANT_WALLET not set")
  else
    resp <- pricing_response e ;;
    data <- Json.item resp "data" ;;
    subp <- Json.item data "getSubscriptionPricing" ;;
    '(usd, memo_tag) <-
      (if String.eqb (PyStr.lower purchase_type) "monthly"
       then (usd <- Json.item subp "monthlyPrice" ;; Ok (usd, "pl30"))
       else (usd <- Json.item subp "yearlyPrice" ;; Ok (usd, "pl365"))) ;;
    price <- sol_price e ;;
    ratio <- Json.truediv usd price ;;
    amount_sol <- Float64.round6 ratio ;;
    let memo := memo_of user_id memo_tag in
    let ref := random_ref e in
    let params :=
      [("amount", float_str amount_sol); ("reference", ref);
       ("label", "lumedot plus"); ("message", "Subscription");
       ("memo", memo)] in
    let query := urlencode params in
    Ok {| solanaPayUrl := "solana:" ++ MERCHANT ++ "?" ++ query;
          recipient := MERCHANT;
          amount := amount_sol;
          reference := ref;
          label := "lumedot plus";
          message := "Subscription";
          memo := memo |}.

Definition create_title_session (e : env) (user_id book_id purchase_type : string)
  : result session :=
  if (String.length MERCHANT =? 0)%nat
  then Raise (RuntimeError "MERCHANT_WALLET not set")
  else
    resp <- pricing_response e ;;
    data <- Json.item resp "data" ;;
    pr <- Json.item data "getTitlePricing" ;;
    '(usd, memo_tag, label_txt) <-
      (if String.eqb (PyStr.lower purchase_type) "ebook"
       then (usd <- Json.item pr "ebook_price" ;;
             Ok (usd, "eb:" ++ book_id, "eBook purchase"))
       else (usd <- Json.item pr "audiobook_price" ;;
             Ok (usd, "au:" ++ book_id, "Audiobook purchase"))) ;;
    price <- sol_price e ;;
    ratio <- Json.truediv usd price ;;
    amount_sol <- Float64.round6 ratio ;;
    let memo := memo_of user_id memo_tag in
    let ref := random_ref e in
    let params :=
      [("amount", float_str amount_sol); ("reference", ref);
       ("label", "lumedot title"); ("message", label_txt);
       ("memo", memo)] in
    let query := urlencode params in
    Ok {| solanaPayUrl := "solana:" ++ MERCHANT ++ "?" ++ query;
          recipient := MERCHANT;
          amount := amount_sol;
          reference := ref;
          label := "lumedot title";
          message := label_txt;
          memo := memo |}.

(** The resolvers of [createSubscriptionPurchaseSession] and
    [createTitlePurchaseSession] ([resolvers/*/mutation.py]) pass their
    arguments on unchanged. *)
Definition resolve_create_subscription_purchase_session
  (e : env) (userId purchaseType : string) : result session :=
  create_sub_session e userId purchaseType.

Definition resolve_create_title_purchase_session
  (e : env) (userId bookId purchaseType : string) : result session :=
  create_title_session e userId bookId purchaseType.

End Sessions.

End PriceCheck.

(** ** Ledger watcher: handling one signature
       ([HeliusListener.handle_signature], [utils/helius_listener.py]) *)

Module Handler.
Local Open Scope result_scope.

Inductive level : Type := DEBUG | INFO | WARNING | ERROR.

(** A value spliced into the text of a GraphQL mutation: between double
    quotes, as it is, or a float. *)
Inductive gql_value : Type :=
| GString (s : string)
| GRaw (s : string)
| GFloat (x : Float64.float).

(** The mutation the f-string of step 5 spells out: the field called and its
    arguments in order. *)
Record mutation : Type := {
  operation : string;
  arguments : list (string * gql_value)
}.

Fixpoint argument (name : string) (args : list (string * gql_value))
  : option gql_value :=
  match args with
  | [] => None
  | (n, v) :: rest => if String.eqb n name then Some v else argument name rest
  end.

(** What handling a signature does to the outside: a log record (level and
    format string), a [getTransaction] request, the POST of a mutation to the
    host API. *)
Inductive action : Type :=
| Log (lv : level) (fmt : string)
| GetTransaction (signature : string)
| Post (m : mutation).

(** What the outside answers while one signature is handled: the JSON bodies
    of the two [getTransaction] requests and the status code and text of the
    host's response.  Each request can raise. *)
Record env : Type := {
  tx_response : result json;
  balances_response : result json;
  host_response : result (Z * string)
}.

(** How a block of the handler ends: it falls through with a value, executes
    [return], or raises. *)
Inductive ctl (A : Type) : Type :=
| Next (a : A)
| Return
| Raised (e : exn).
Arguments Next {A} a.
Arguments Return {A}.
Arguments Raised {A} e.

(** A block of the handler: the actions it performed and how it ended. *)
Definition handler (A : Type) : Type := (list action * ctl A)%type.

Definition pure {A} (a : A) : handler A := ([], Next a).

Definition bind {A B} (m : handler A) (k : A -> handler B) : handler B :=
  match snd m with
  | Next a => ((fst m ++ fst (k a))%list, snd (k a))
  | Return => (fst m, Return)
  | Raised e => (fst m, Raised e)
  end.

Definition lift {A} (r : result A) : handler A :=
  match r with
  | Ok a => ([], Next a)
  | Raise e => ([], Raised e)
  end.

Definition log (lv : level) (fmt : string) : handler unit :=
  ([Log lv fmt], Next tt).

Definition act (a : action) : handler unit := ([a], Next tt).

Definition return_ {A} : handler A := ([], Return).

Declare Scope handler_scope.
Delimit Scope handler_scope with handler.
Notation "x <- m ;; k" := (bind m (fun x => k))
  (at level 61, m at next level, right associativity) : handler_scope.
Notation "' pat <- m ;; k" := (bind m (fun pat => k))
  (at level 61, pat pattern, m at next level, right associativity)
  : handler_scope.
Notation "m ;; k" := (bind m (fun _ => k))
  (at level 61, right associativity) : handler_scope.

(** The purchase a plan tag stands for. *)
Inductive purchase : Type :=
| Subscription (purchase_type : string)
| Title (ttype : string) (book_id : string).

Definition MEMO_PROGRAM_ID : string :=
  "MemoSq4gqABAXKb96qnH8TysNcWxMyWCqXgDLGmfcHr".

(** The literal [1e9] *)
Definition LAMPORTS_PER_SOL : Float64.float := Float64.of_Z 1000000000.

Section HandleSignature.

(** [str(self.merchant)] and the module-level [TOLERANCE]. *)
Variable merchant : string.
Variable TOLERANCE : Float64.float.

Local Open Scope handler_scope.

(** Step 1: the memo in the log lines.  Only the first line that starts with
    the marker is looked at. *)
Fixpoint memo_from_logs (logs_list : list string) : handler json :=
  match logs_list with
  | [] => pure JNull
  | line :: rest =>
      if PyStr.startswith line "Program log: Memo"
      then match PyStr.search_quoted line with
           | Some memo_text =>
               log DEBUG "Parsed memo from logs: %s" ;;
               pure (JStr memo_text)
           | None => pure JNull
           end
      else memo_from_logs rest
  end.

(** Step 2, the loop over the parsed instructions. *)
Fixpoint memo_from_instructions (instructions : list json) : result json :=
  match instructions with
  | [] => Ok JNull
  | ix :: rest =>
      (parsed <- Json.get ix "parsed" JNull ;;
       is_spl_memo <-
         (if Json.truthy parsed
          then (program <- Json.get ix "program" JNull ;;
                Ok (Json.eq_str program "spl-memo"))
          else Ok false) ;;
       if is_spl_memo
       then (p <- Json.item ix "parsed" ;;
             info <- Json.item p "info" ;;
             Json.item info "memo")
       else (program_id <- Json.get ix "programId" JNull ;;
             if Json.eq_str program_id MEMO_PROGRAM_ID
             then Json.get ix "data" JNull
             else memo_from_instructions rest))%result
  end.

(** Step 2: the memo in the resolved transaction. *)
Definition memo_from_chain (e : env) (signature : string) : handler json :=
  act (GetTransaction signature) ;;
  raw_tx <- lift (tx_response e) ;;
  memo_text <- lift (res <- Json.get raw_tx "result" (JObj []) ;;
                     tx <- Json.get res "transaction" (JObj []) ;;
                     msg <- Json.get tx "message" (JObj []) ;;
                     ixs <- Json.get msg "instructions" (JArr []) ;;
                     instructions <- Json.iter ixs ;;
                     memo_from_instructions instructions)%result ;;
  log DEBUG "Parsed memo from on-chain: %s" ;;
  pure memo_text.

(** Steps 1 and 2. *)
Definition find_memo (e : env) (signature : string) (logs_list : list string)
  : handler json :=
  memo_text <- memo_from_logs logs_list ;;
  memo_text <- (if negb (Json.truthy memo_text)
                then memo_from_chain e signature
                else pure memo_text) ;;
  if negb (Json.truthy memo_text)
  then (log WARNING "Could not find memo for %s, skipping" ;; return_)
  else pure memo_text.

(** The list comprehension over [accountKeys]. *)
Fixpoint account_keys (keys_data : list json) : result (list json) :=
  match keys_data with
  | [] => Ok []
  | k :: rest =>
      (key <- (if Json.is_dict k then Json.item k "pubkey" else Ok k) ;;
       keys <- account_keys rest ;;
       Ok (key :: keys))%result
  end.

(** [keys.index(s)]: the first position of [s], [None] for [ValueError]. *)
Fixpoint index_of (s : string) (keys : list json) : option nat :=
  match keys with
  | [] => None
  | k :: rest =>
      if Json.eq_str k s then Some 0%nat
      else match index_of s rest with
           | Some i => Some (S i)
           | None => None
           end
  end.

(** Step 3, [raw_bal.get("result", {}).get("meta", {})] *)
Definition transaction_meta (raw_bal : json) : result json :=
  (res <- Json.get raw_bal "result" (JObj []) ;;
   Json.get res "meta" (JObj []))%result.

(** Step 3, the list [keys] *)
Definition transaction_keys (raw_bal : json) : result (list json) :=
  (res <- Json.item raw_bal "result" ;;
   tx <- Json.item res "transaction" ;;
   msg <- Json.item tx "message" ;;
   keys_data <- Json.item msg "accountKeys" ;;
   ks <- Json.iter keys_data ;;
   account_keys ks)%result.

(** Step 3, [meta["postBalances"][idx] - meta["preBalances"][idx]] *)
Definition balance_delta (meta : json) (idx : nat) : result pynum :=
  (posts <- Json.item meta "postBalances" ;;
   post <- Json.at_index posts idx ;;
   pres <- Json.item meta "preBalances" ;;
   pre <- Json.at_index pres idx ;;
   Json.sub post pre)%result.

(** Step 3: the merchant's balance change, in lamports and in SOL. *)
Definition resolve_payment (e : env) (signature : string)
  : handler (pynum * Float64.float) :=
  act (GetTransaction signature) ;;
  raw_bal <- lift (balances_response e) ;;
  meta <- lift (transaction_meta raw_bal) ;;
  if negb (Json.truthy meta)
  then (log DEBUG "No meta for %s, skipping" ;; return_)
  else
    keys <- lift (transaction_keys raw_bal) ;;
    match index_of merchant keys with
    | None => log DEBUG "Merchant not in accounts, skipping" ;; return_
    | Some idx =>
        lamports <- lift (balance_delta meta idx) ;;
        if PyNum.le_zero lamports
        then (log DEBUG "No lamport credit, skipping" ;; return_)
        else
          sol_paid <- lift (PyNum.truediv lamports (PFloat LAMPORTS_PER_SOL)) ;;
          log INFO "Tx %s paid %.6f SOL" ;;
          pure (lamports, sol_paid)
    end.

(** [parts[i]] where the index is known to be in range *)
Definition part (i : nat) (parts : list string) : string := nth i parts "".

(** [s.split(":", 1)[1]] *)
Definition after_colon (s : string) : result string :=
  match nth_error (PyStr.split1 ":" s) 1 with
  | Some t => Ok t
  | None => Raise IndexError
  end.

(** Step 4: user id and plan tag out of the memo text. *)
Definition parse_memo (memo_text : json) : handler (string * string) :=
  match memo_text with
  | JStr text =>
      let parts := PyStr.split text in
      if (List.length parts <? 2)%nat || negb (PyStr.startswith (part 0 parts) "ud:")
      then (log WARNING "Unexpected memo format: %s" ;; return_)
      else
        user_id <- lift (after_colon (part 0 parts)) ;;
        let plan := part 1 parts in
        log DEBUG "Parsed user_id=%s plan=%s" ;;
        pure (user_id, plan)
  | _ => lift (Raise AttributeError)
  end.

(** Step 5, the purchase type or the title type and book id of a plan. *)
Definition classify (plan : string) : result purchase :=
  if PyStr.startswith plan "pl"
  then Ok (Subscription (if String.eqb plan "pl30" then "monthly" else "yearly"))
  else
    let ttype := if PyStr.startswith plan "eb:" then "ebook" else "audiobook" in
    (book_id <- after_colon plan ;; Ok (Title ttype book_id))%result.

(** Step 5, the two f-strings. *)
Definition mutation_of (signature user_id : string) (sol_paid : Float64.float)
  (p : purchase) : mutation :=
  match p with
  | Subscription purchase_type =>
      {| operation := "recordCompletedSubscriptionPurchase";
         arguments :=
           [("userId", GString user_id);
            ("subscriptionType", GString "lumedot_plus");
            ("purchaseType", GString purchase_type);
            ("price", GFloat sol_paid);
            ("currency", GString "sol");
            ("endDate", GString "2099-01-01");
            ("txSignature", GString signature);
            ("reference", GString signature)] |}
  | Title ttype book_id =>
      {| operation := "recordCompletedTitlePurchase";
         arguments :=
           [("userId", GString user_id);
            ("bookId", GRaw book_id);
            ("purchaseType", GString ttype);
            ("price", GFloat sol_paid);
            ("currency", GString "sol");
            ("txSignature", GString signature);
            ("reference", GString signature)] |}
  end.

(** Step 5: the expected amount and the mutation.  Both branches set
    [sol_expected = sol_paid]. *)
Definition build_mutation (signature user_id plan : string)
  (sol_paid : Float64.float) : result (Float64.float * mutation) :=
  (p <- classify plan ;;
   let sol_expected := sol_paid in
   Ok (sol_expected, mutation_of signature user_id sol_paid p))%result.

(** [abs(sol_paid - sol_expected) / sol_expected]; a float division by zero
    raises. *)
Definition deviation (sol_paid sol_expected : Float64.float)
  : result Float64.float :=
  if Float64.is_zero sol_expected then Raise ZeroDivisionError
  else Ok (Float64.div (Float64.abs (Float64.sub sol_paid sol_expected))
                       sol_expected).

(** The tolerance check between steps 5 and 6. *)
Definition check_tolerance (sol_paid sol_expected : Float64.float)
  : handler unit :=
  log INFO "Expected %.6f SOL vs paid %.6f SOL (tol=%.2f%%)" ;;
  d <- lift (deviation sol_paid sol_expected) ;;
  if Float64.ltb TOLERANCE d
  then log WARNING "Price outside tolerance, forwarding anyway"
  else pure tt.

(** Step 6: the POST to the host API. *)
Definition forward (e : env) (m : mutation) : handler unit :=
  log DEBUG "POST %s payload=%s" ;;
  act (Post m) ;;
  '(status_code, text) <- lift (host_response e) ;;
  log INFO "Host response: %s %s" ;;
  if negb (status_code =? 200)
  then log ERROR "Mutation failed: %s"
  else pure tt.

(** The body of the [try] block. *)
Definition handle_signature_body (e : env) (signature : string)
  (logs_list : list string) : handler unit :=
  memo_text <- find_memo e signature logs_list ;;
  '(lamports, sol_paid) <- resolve_payment e signature ;;
  '(user_id, plan) <- parse_memo memo_text ;;
  '(sol_expected, mutation) <-
    lift (build_mutation signature user_id plan sol_paid) ;;
  check_tolerance sol_paid sol_expected ;;
  forward e mutation.

(** [handle_signature]: the actions performed.  [except Exception] logs what
    the body raised; nothing leaves the coroutine. *)
Definition handle_signature (e : env) (signature : string)
  (logs_list : list string) : list action :=
  let '(trace, outcome) :=
    (log DEBUG "Handling signature %s" ;;
     handle_signature_body e signature logs_list) in
  match outcome with
  | Raised _ => (trace ++ [Log ERROR "Error in handle_signature"])%list
  | _ => trace
  end.

End HandleSignature.

End Handler.

(** ** Ledger watcher: the connection
       ([HeliusListener.start], [_connect_and_listen], [heartbeat])

    Two coroutines run on one event loop: the main task ([start], inside it
    [_connect_and_listen]) and the heartbeat task that [_connect_and_listen]
    creates for each connection.  Each is suspended at one of its [await]s;
    an [event] is the completion of such an [await], and [step] runs the
    resumed coroutine up to its next [await]. *)

Module Connection.
Import Handler.

(** The [await] the main task is suspended at. *)
Inductive main_pc : Type :=
| Connecting      (* [websockets.connect(...)] *)
| Subscribing     (* [ws.send(json.dumps(sub_req))] *)
| AwaitingAck     (* the first [ws.recv()] *)
| Listening       (* [ws.recv()] in the message loop *)
| Reconnecting.   (* [asyncio.sleep(5)] in [start] *)

(** [self.heartbeat_task]: absent, suspended at an [await] of [heartbeat]
    (with the value of [current_time] once it is set), returned, or
    cancelled. *)
Inductive hb_pc : Type :=
| NoTask
| Sleeping                                  (* [asyncio.sleep(HEARTBEAT_INTERVAL)] *)
| Pinging (current_time : Float64.float)    (* [ws.ping()] *)
| AwaitingPong (current_time : Float64.float) (* [asyncio.wait_for(pong_waiter, ...)] *)
| Finished
| Cancelled.

Record state : Type := {
  main : main_pc;
  hb : hb_pc;
  last_pong : Float64.float
}.

(** The connection is open between the handshake and the exit of the
    [async with] block. *)
Definition ws_open (s : state) : bool :=
  match main s with
  | Subscribing | AwaitingAck | Listening => true
  | Connecting | Reconnecting => false
  end.

Definition hb_running (s : state) : bool :=
  match hb s with
  | Sleeping | Pinging _ | AwaitingPong _ => true
  | NoTask | Finished | Cancelled => false
  end.

(** Completions of the [await]s.  [now] is the reading of the loop's clock at
    that point.  A received text comes with what [json.loads] makes of it. *)
Inductive event : Type :=
| Connected (now : Float64.float)
| ConnectFailed
| Sent
| SendFailed
| Received (parsed : result json)
| RecvFailed
| BackoffElapsed
| IntervalElapsed (now : Float64.float)
| PingSent
| PingFailed (connection_closed : bool)
| PongReceived
| PongTimedOut
| PongFailed (connection_closed : bool).

(** What the two coroutines do to the outside. *)
Inductive effect : Type :=
| Say (lv : level) (fmt : string)
| Connect
| CreateHeartbeat
| SendSubscribe
| SendPing
| WaitPong (timeout : Z)
| CancelHeartbeat
| Close
| Sleep (seconds : Z)
| Dispatch (signature : json) (logs_list : json).

Section Run.

Variable HEARTBEAT_INTERVAL : Z.
Variable PING_TIMEOUT : Z.

(** [_connect_and_listen] from its first line to [websockets.connect]. *)
Definition connect_effects : list effect :=
  [Say INFO "Connecting to Helius at %s"; Connect].

(** An exception leaves the [try] block of [_connect_and_listen]: the
    [finally] cancels a heartbeat that is not done, the [async with] closes
    the connection, and [start] logs and sleeps five seconds. *)
Definition teardown (s : state) : state * list effect :=
  ({| main := Reconnecting;
      hb := if hb_running s then Cancelled else hb s;
      last_pong := last_pong s |},
   (if hb_running s then [CancelHeartbeat] else [])
     ++ [Close;
         Say ERROR "Connection error: %s";
         Say INFO "Reconnecting in 5 seconds...";
         Sleep 5])%list.

(** The exit of the [heartbeat] loop through one of its [except] clauses. *)
Definition heartbeat_failed (s : state) (connection_closed : bool)
  : state * list effect :=
  ({| main := main s; hb := Finished; last_pong := last_pong s |},
   [if connection_closed
    then Say WARNING "WebSocket connection closed during heartbeat"
    else Say ERROR "Error in heartbeat: %s"]).

(** One pass of the message loop on a received text. *)
Definition on_message (s : state) (parsed : result json)
  : state * list effect :=
  let fields :=
    (msg <- parsed ;;
     params <- Json.get msg "params" (JObj []) ;;
     res <- Json.get params "result" (JObj []) ;;
     data <- Json.get res "value" (JObj []) ;;
     sig <- Json.get data "signature" JNull ;;
     logs_list <- Json.get data "logs" (JArr []) ;;
     Ok (sig, logs_list))%result in
  match fields with
  | Ok (sig, logs_list) =>
      (s, Say DEBUG "WS RAW >>> %s"
            :: (if Json.truthy sig
                then [Say INFO "Received signature: %s"; Dispatch sig logs_list]
                else []))
  | Raise _ =>
      let '(s', effs) := teardown s in
      (s', Say DEBUG "WS RAW >>> %s" :: effs)
  end.

(** The resumed coroutine runs to its next [await].  [None]: no coroutine is
    suspended at the [await] the event completes. *)
Definition step (s : state) (ev : event) : option (state * list effect) :=
  match ev, main s, hb s with
  (* main task *)
  | Connected now, Connecting, _ =>
      Some ({| main := Subscribing; hb := Sleeping; last_pong := now |},
            [CreateHeartbeat; SendSubscribe; Sleep HEARTBEAT_INTERVAL])
  | ConnectFailed, Connecting, _ =>
      Some ({| main := Reconnecting; hb := hb s; last_pong := last_pong s |},
            [Say ERROR "Connection error: %s";
             Say INFO "Reconnecting in 5 seconds...";
             Sleep 5])
  | Sent, Subscribing, _ =>
      Some ({| main := AwaitingAck; hb := hb s; last_pong := last_pong s |}, [])
  | SendFailed, Subscribing, _ => Some (teardown s)
  | Received _, AwaitingAck, _ =>
      Some ({| main := Listening; hb := hb s; last_pong := last_pong s |},
            [Say INFO "Logs subscription ACK: %s"])
  | Received parsed, Listening, _ => Some (on_message s parsed)
  | RecvFailed, (AwaitingAck | Listening), _ => Some (teardown s)
  | BackoffElapsed, Reconnecting, _ =>
      Some ({| main := Connecting; hb := hb s; last_pong := last_pong s |},
            connect_effects)
  (* heartbeat task *)
  | IntervalElapsed now, _, Sleeping =>
      Some ({| main := main s; hb := Pinging now; last_pong := last_pong s |},
            ((if Float64.ltb (Float64.of_Z (HEARTBEAT_INTERVAL * 2))
                             (Float64.sub now (last_pong s))
              then [Say WARNING
                      "No pong received in %d seconds, connection may be dead"]
              else [])
               ++ [Say DEBUG "Sending heartbeat ping"; SendPing])%list)
  | PingSent, _, Pinging t =>
      Some ({| main := main s; hb := AwaitingPong t; last_pong := last_pong s |},
            [WaitPong PING_TIMEOUT])
  | PingFailed closed, _, Pinging _ => Some (heartbeat_failed s closed)
  | PongReceived, _, AwaitingPong t =>
      Some ({| main := main s; hb := Sleeping; last_pong := t |},
            [Say DEBUG "Received pong response"; Sleep HEARTBEAT_INTERVAL])
  | PongTimedOut, _, AwaitingPong _ =>
      Some ({| main := main s; hb := Finished; last_pong := last_pong s |},
            [Say ERROR "Ping timeout after %d seconds"])
  | PongFailed closed, _, AwaitingPong _ => Some (heartbeat_failed s closed)
  | _, _, _ => None
  end.

(** A run: the events in order, the effects collected. *)
Fixpoint run (s : state) (evs : list event) : option (state * list effect) :=
  match evs with
  | [] => Some (s, [])
  | ev :: rest =>
      match step s ev with
      | None => None
      | Some (s', effs) =>
          match run s' rest with
          | None => None
          | Some (s'', effs') => Some (s'', (effs ++ effs')%list)
          end
      end
  end.

(** [HeliusListener()] followed by [start()] up to its first [await]. *)
Definition start (now : Float64.float) : state * list effect :=
  ({| main := Connecting; hb := NoTask; last_pong := now |}, connect_effects).

End Run.

Definition is_connect (x : effect) : bool :=
  match x with Connect => true | _ => false end.

Definition is_close (x : effect) : bool :=
  match x with Close => true | _ => false end.

Definition is_sleep (x : effect) : bool :=
  match x with Sleep _ => true | _ => false end.

(** The number of connection attempts among the effects. *)
Definition connects (effs : list effect) : nat :=
  List.length (filter is_connect effs).

End Connection.

(** ** Vocabulary of the properties *)

(** [s] contains a whitespace character. *)
Fixpoint has_space (s : string) : bool :=
  match s with
  | EmptyString => false
  | String c r => PyStr.isspace c || has_space r
  end.

(** [s] contains the character [c]. *)
Fixpoint has_char (c : ascii) (s : string) : bool :=
  match s with
  | EmptyString => false
  | String d r => Ascii.eqb d c || has_char c r
  end.

(** [d] is one of the small letters a..z. *)
Definition small_letter (d : ascii) : bool :=
  let n := N_of_ascii d in ((97 <=? n) && (n <=? 122))%N.

Fixpoint small_letters (t : string) : bool :=
  match t with
  | EmptyString => true
  | String d r => small_letter d && small_letters r
  end.

(** [c] is the small letter [d] or its capital. *)
Definition same_letter (c d : ascii) : bool :=
  Ascii.eqb c d
  || (let n := N_of_ascii c in
      (65 <=? n) && (n <=? 90) && (n + 32 =? N_of_ascii d))%N.

(** [s] is the word [t], written in small letters, up to the case of its
    letters. *)
Fixpoint eq_ignoring_case (s t : string) : bool :=
  match s, t with
  | EmptyString, EmptyString => true
  | String c s', String d t' => same_letter c d && eq_ignoring_case s' t'
  | _, _ => false
  end.

(** The plan tags the session encoder writes. *)
Inductive plan_tag : string -> Prop :=
| tag_pl30 : plan_tag "pl30"
| tag_pl365 : plan_tag "pl365"
| tag_ebook (book_id : string) : plan_tag ("eb:" ++ book_id)
| tag_audiobook (book_id : string) : plan_tag ("au:" ++ book_id).

(** The mutations posted in a trace. *)
Fixpoint posts (t : list Handler.action) : list Handler.mutation :=
  match t with
  | [] => []
  | Handler.Post m :: rest => m :: posts rest
  | _ :: rest => posts rest
  end.

(** A block that posts nothing. *)
Definition quiet {A} (m : Handler.handler A) : Prop := posts (fst m) = [].

(** The amount in SOL of the price found under [price_field] in the answer
    to the pricing query [query_name]: the USD price divided by the spot
    price, rounded to six decimals. *)
Definition quoted_amount (e : PriceCheck.env) (query_name price_field : string)
  : result Float64.float :=
  (resp <- PriceCheck.pricing_response e ;;
   data <- Json.item resp "data" ;;
   pricing <- Json.item data query_name ;;
   usd <- Json.item pricing price_field ;;
   price <- PriceCheck.sol_price e ;;
   ratio <- Json.truediv usd price ;;
   Float64.round6 ratio)%result.

(** ** Sample inputs *)

(** A log line of the memo program carrying [memo] between double quotes. *)
Definition memo_line (memo : string) : string :=
  "Program log: Memo (len 9): " ++ String PyStr.dquote memo
    ++ String PyStr.dquote "".

(** A [getTransaction] response with the given account keys and balances. *)
Definition sample_transaction (keys pre post : list json) : json :=
  JObj [("result",
         JObj [("meta", JObj [("preBalances", JArr pre);
                              ("postBalances", JArr post)]);
               ("transaction",
                JObj [("message",
                       JObj [("accountKeys", JArr keys);
                             ("instructions", JArr [])])])])].

Definition sample_keys : list json :=
  [JObj [("pubkey", JStr "Payer")]; JObj [("pubkey", JStr "Merchant")]].

(** The payer sends 0.05 SOL to the merchant; the host answers 200. *)
Definition sample_env : Handler.env :=
  {| Handler.tx_response := Raise RequestException;
     Handler.balances_response :=
       Ok (sample_transaction sample_keys
             [JInt 2000000000; JInt 1000000000]
             [JInt 1949995000; JInt 1050000000]);
     Handler.host_response := Ok (200, "{}") |}.

(** The merchant's balance does not change. *)
Definition sample_env_unpaid : Handler.env :=
  {| Handler.tx_response := Raise RequestException;
     Handler.balances_response :=
       Ok (sample_transaction sample_keys
             [JInt 2000000000; JInt 1000000000]
             [JInt 1999995000; JInt 1000000000]);
     Handler.host_response := Ok (200, "{}") |}.

(** The pricing query answers 9.99 and 99.9 USD, the oracle 100.0 USD. *)
Definition sample_pricing : PriceCheck.env :=
  {| PriceCheck.pricing_response :=
       Ok (JObj [("data",
                  JObj [("getSubscriptionPricing",
                         JObj [("monthlyPrice", JFloat (Float64.of_ratio 999 100));
                               ("yearlyPrice", JFloat (Float64.of_ratio 999 10))]);
                        ("getTitlePricing",
                         JObj [("ebook_price", JFloat (Float64.of_ratio 999 100));
                               ("audiobook_price", JFloat (Float64.of_ratio 999 10))])])]);
     PriceCheck.sol_price := Ok (JFloat (Float64.of_Z 100));
     PriceCheck.random_ref := "Ref" |}.

(** The defaults of [HEARTBEAT_INTERVAL] and [PING_TIMEOUT]. *)
Definition DEFAULT_HEARTBEAT_INTERVAL : Z := 30.
Definition DEFAULT_PING_TIMEOUT : Z := 10.

(** The ledger accepts the connection and acknowledges the subscription,
    then goes silent: thirty seconds later the first probe is sent and no
    pong arrives within the timeout. *)
Definition silent_peer : list Connection.event :=
  [Connection.Connected (Float64.of_Z 0);
   Connection.Sent;
   Connection.Received (Ok (JObj [("jsonrpc", JStr "2.0"); ("result", JInt 1);
                                  ("id", JInt 1)]));
   Connection.IntervalElapsed (Float64.of_Z 30);
   Connection.PingSent;
   Connection.PongTimedOut].

(** [n] handshakes in a row fail, each followed by the end of the five
    seconds' sleep. *)
Fixpoint failed_handshakes (n : nat) : list Connection.event :=
  match n with
  | O => []
  | S k => Connection.ConnectFailed :: Connection.BackoffElapsed
             :: failed_handshakes k
  end.

(** ** Price oracle client ([utils/coingecko.py]) *)

Module Coingecko.
Local Open Scope result_scope.

(** The answer to the GET request: the status code and what [r.json()]
    gives, which can raise. *)
Record response : Type := {
  status_code : Z;
  json_body : result json
}.

(** [r.raise_for_status()]: an [HTTPError], which is a [RequestException],
    for a client or server error status. *)
Definition raise_for_status (r : response) : result unit :=
  if (400 <=? status_code r) && (status_code r <? 600)
  then Raise RequestException
  else Ok tt.

(** [get_sol_price()]: the log records written and the value returned or the
    exception raised.  [answer] is what [requests.get] returns or raises. *)
Definition get_sol_price (answer : result response)
  : list (Handler.level * string) * result json :=
  let attempt :=
    r <- answer ;;
    _ <- raise_for_status r ;;
    body <- json_body r ;;
    solana <- Json.item body "solana" ;;
    Json.item solana "usd" in
  match attempt with
  | Ok price => ([], Ok price)
  | Raise x => ([(Handler.ERROR, "coingecko error: %s")], Raise x)
  end.

End Coingecko.

(** ** Vocabulary of the further properties *)

(** [k] double quotes in a row. *)
Fixpoint quotes (k : nat) : string :=
  match k with
  | O => ""
  | S k' => String PyStr.dquote (quotes k')
  end.

(** The marker step 1 looks for at the start of a log line. *)
Definition MEMO_MARKER : string := "Program log: Memo".


(** [d.get(k)] on the fields of an object. *)
Definition field (k : string) (d : list (string * json)) : json :=
  match Json.lookup k d with Some v => v | None => JNull end.

(** The two tests of the loop of step 2 on an instruction: the parsed memo
    and the raw memo program. *)
Definition parsed_memo (ix : list (string * json)) : bool :=
  Json.truthy (field "parsed" ix) && Json.eq_str (field "program" ix) "spl-memo".

Definition raw_memo (ix : list (string * json)) : bool :=
  Json.eq_str (field "programId" ix) Handler.MEMO_PROGRAM_ID.

Definition memo_instruction (ix : list (string * json)) : bool :=
  parsed_memo ix || raw_memo ix.

(** The [getTransaction] requests in a trace. *)
Fixpoint gets (t : list Handler.action) : nat :=
  match t with
  | [] => 0%nat
  | Handler.GetTransaction _ :: rest => S (gets rest)
  | _ :: rest => gets rest
  end.

(** An account key in either encoding of the ledger's answer: the address
    itself, or an object that holds it under [pubkey]. *)
Inductive key_entry (address : string) : json -> Prop :=
| key_plain : key_entry address (JStr address)
| key_parsed (fields : list (string * json)) :
    Json.lookup "pubkey" fields = Some (JStr address) ->
    key_entry address (JObj fields).

(** The dictionary both session creations return, from its varying parts. *)
Definition session_record (MERCHANT : string)
  (float_str : Float64.float -> string) (quote : string -> string)
  (ref label message memo : string) (amount_sol : Float64.float)
  : PriceCheck.session :=
  {| PriceCheck.solanaPayUrl :=
       "solana:" ++ MERCHANT ++ "?"
       ++ PriceCheck.urlencode quote
            [("amount", float_str amount_sol); ("reference", ref);
             ("label", label); ("message", message); ("memo", memo)];
     PriceCheck.recipient := MERCHANT;
     PriceCheck.amount := amount_sol;
     PriceCheck.reference := ref;
     PriceCheck.label := label;
     PriceCheck.message := message;
     PriceCheck.memo := memo |}.

(** The USD price found under [price_field] in the answer to the pricing
    query [query_name]. *)
Definition quoted_usd (e : PriceCheck.env) (query_name price_field : string)
  : result json :=
  (resp <- PriceCheck.pricing_response e ;;
   data <- Json.item resp "data" ;;
   pricing <- Json.item data query_name ;;
   Json.item pricing price_field)%result.

(** A spot price that is zero: [0], [0.0], [-0.0] or [false]. *)
Definition zero_number (price : json) : Prop :=
  price = JInt 0 \/ price = JBool false
  \/ exists sign, price = JFloat (S754_zero sign).

(** The five seconds' sleeps of [start] among the effects. *)
Definition is_backoff (x : Connection.effect) : bool :=
  match x with Connection.Sleep seconds => seconds =? 5 | _ => false end.

Definition backoffs (effs : list Connection.effect) : nat :=
  List.length (filter is_backoff effs).

Definition is_ping (x : Connection.effect) : bool :=
  match x with Connection.SendPing => true | _ => false end.

Definition is_dispatch (x : Connection.effect) : bool :=
  match x with Connection.Dispatch _ _ => true | _ => false end.

Definition is_connected (ev : Connection.event) : bool :=
  match ev with Connection.Connected _ => true | _ => false end.

(** The main task is in the five seconds' sleep: 1, and 0 otherwise. *)
Definition sleeping (s : Connection.state) : nat :=
  match Connection.main s with Connection.Reconnecting => 1%nat | _ => 0%nat end.

(** The failure of the [await] the main task is suspended at. *)
Definition failure_at (pc : Connection.main_pc) : Connection.event :=
  match pc with
  | Connection.Connecting => Connection.ConnectFailed
  | Connection.Subscribing => Connection.SendFailed
  | _ => Connection.RecvFailed
  end.

(** The completions of the [await]s of [heartbeat]. *)
Definition is_heartbeat_event (ev : Connection.event) : bool :=
  match ev with
  | Connection.IntervalElapsed _ | Connection.PingSent
  | Connection.PingFailed _ | Connection.PongReceived
  | Connection.PongTimedOut | Connection.PongFailed _ => true
  | _ => false
  end.

(** What ends a connection or begins one, among the effects. *)
Definition ends_or_begins (x : Connection.effect) : bool :=
  match x with
  | Connection.Close | Connection.Connect | Connection.CancelHeartbeat
  | Connection.SendSubscribe | Connection.CreateHeartbeat => true
  | _ => false
  end.

(** ** Further sample inputs *)

(** The pricing query answers as in [sample_pricing]; the oracle fails. *)
Definition sample_pricing_no_oracle : PriceCheck.env :=
  {| PriceCheck.pricing_response := PriceCheck.pricing_response sample_pricing;
     PriceCheck.sol_price := Raise RequestException;
     PriceCheck.random_ref := "Ref" |}.

(** The pricing query answers as in [sample_pricing]; the oracle says 0. *)
Definition sample_pricing_zero : PriceCheck.env :=
  {| PriceCheck.pricing_response := PriceCheck.pricing_response sample_pricing;
     PriceCheck.sol_price := Ok (JInt 0);
     PriceCheck.random_ref := "Ref" |}.


Definition sample_title_session : PriceCheck.session :=
  session_record "Merchant" (fun _ => "0.0999") (fun s => s)
    "Ref" "lumedot title" "eBook purchase" "ud:3 eb:42"
    (Float64.of_ratio 999 10000).

(** The ledger has not resolved the transaction: [result] is [null]. *)
Definition sample_env_unresolved : Handler.env :=
  {| Handler.tx_response := Raise RequestException;
     Handler.balances_response := Ok (JObj [("jsonrpc", JStr "2.0");
                                            ("result", JNull);
                                            ("id", JInt 1)]);
     Handler.host_response := Ok (200, "{}") |}.

(** A log notification of the ledger for [signature] with [logs], from the
    inside out: [value], [result], [params] and the frame. *)
Definition notification_value (signature logs : json) : list (string * json) :=
  [("signature", signature); ("err", JNull); ("logs", logs)].

Definition notification_result (signature logs : json) : list (string * json) :=
  [("context", JObj [("slot", JInt 1)]);
   ("value", JObj (notification_value signature logs))].

Definition notification_params (signature logs : json) : list (string * json) :=
  [("result", JObj (notification_result signature logs));
   ("subscription", JInt 1)].

Definition notification_fields (signature logs : json) : list (string * json) :=
  [("jsonrpc", JStr "2.0");
   ("method", JStr "logsNotification");
   ("params", JObj (notification_params signature logs))].

Definition notification (signature logs : json) : json :=
  JObj (notification_fields signature logs).

(** The connection is up and the heartbeat sleeps. *)
Definition listening : Connection.state :=
  {| Connection.main := Connection.Listening;
     Connection.hb := Connection.Sleeping;
     Connection.last_pong := Float64.of_Z 0 |}.

(* ================================================================= *)
(** * Part II.  Properties *)
(* ================================================================= *)

(** ** Strings *)

Example split_ex1 : PyStr.split "ud:a b pl30" = ["ud:a"; "b"; "pl30"].
Proof. reflexivity. Qed.

Example split_ex2 : PyStr.split "  garbage  " = ["garbage"].
Proof. reflexivity. Qed.

Example split1_ex1 : PyStr.split1 ":" "a:b:c" = ["a"; "b:c"].
Proof. reflexivity. Qed.

Example search_quoted_ex1 :
  PyStr.search_quoted
    ("Program log: Memo (len 9): " ++ String PyStr.dquote "ud:3 pl30"
       ++ String PyStr.dquote "")
  = Some "ud:3 pl30".
Proof. reflexivity. Qed.

Lemma append_empty_r (s : string) : s ++ "" = s.
Proof. induction s as [|c s IH]; simpl; [reflexivity | now rewrite IH]. Qed.

Lemma append_assoc (a b c : string) : (a ++ b) ++ c = a ++ (b ++ c).
Proof. induction a as [|x a IH]; simpl; [reflexivity | now rewrite IH]. Qed.

Lemma append_snoc (a : string) (c : ascii) (b : string) :
  (a ++ String c "") ++ b = a ++ String c b.
Proof. now rewrite append_assoc. Qed.

Lemma length_append (a b : string) :
  String.length (a ++ b) = (String.length a + String.length b)%nat.
Proof. induction a as [|x a IH]; simpl; [reflexivity | now rewrite IH]. Qed.

Lemma has_space_append (a b : string) :
  has_space (a ++ b) = has_space a || has_space b.
Proof.
  induction a as [|x a IH]; simpl; [reflexivity|].
  now rewrite IH, orb_assoc.
Qed.

(** A run of non-whitespace characters is read into the current token. *)
Lemma split_from_word (w : string) :
  has_space w = false ->
  forall tok rest,
    PyStr.split_from tok (w ++ rest) = PyStr.split_from (tok ++ w) rest.
Proof.
  induction w as [|c w IH]; simpl; intros Hw tok rest.
  - now rewrite append_empty_r.
  - apply orb_false_iff in Hw as [Hc Hw].
    rewrite Hc, IH by assumption.
    now rewrite append_snoc.
Qed.

(** A whitespace character closes a non-empty token. *)
Lemma split_from_space (tok : string) (c : ascii) (rest : string) :
  PyStr.isspace c = true -> tok <> "" ->
  PyStr.split_from tok (String c rest) = tok :: PyStr.split_from "" rest.
Proof.
  intros Hc Htok. simpl. rewrite Hc.
  destruct tok; [congruence | reflexivity].
Qed.

Lemma split_from_end (tok : string) :
  tok <> "" -> PyStr.split_from tok "" = [tok].
Proof. intros Htok. destruct tok; [congruence | reflexivity]. Qed.

(** Two words with one space between them split into the two words. *)
Lemma split_two_words (a b : string) :
  has_space a = false -> has_space b = false -> a <> "" -> b <> "" ->
  PyStr.split (a ++ " " ++ b) = [a; b].
Proof.
  intros Ha Hb Na Nb. unfold PyStr.split.
  rewrite (split_from_word a Ha). simpl ("" ++ a).
  change (" " ++ b) with (String " " b).
  rewrite split_from_space by (assumption || reflexivity).
  rewrite <- (append_empty_r b) at 1.
  rewrite (split_from_word b Hb). simpl ("" ++ b).
  now rewrite split_from_end.
Qed.

(** [split1] cuts at the first separator. *)
Lemma split1_from_cut (sep : ascii) (a b : string) :
  has_char sep a = false ->
  forall pre,
    PyStr.split1_from sep pre (a ++ String sep b) = [pre ++ a; b].
Proof.
  induction a as [|c a IH]; simpl; intros Ha pre.
  - now rewrite Ascii.eqb_refl, append_empty_r.
  - apply orb_false_iff in Ha as [Hc Ha].
    rewrite Hc, IH by assumption.
    now rewrite append_snoc.
Qed.

Lemma split1_from_none (sep : ascii) (s : string) :
  has_char sep s = false ->
  forall pre, PyStr.split1_from sep pre s = [pre ++ s].
Proof.
  induction s as [|c s IH]; simpl; intros Hs pre.
  - now rewrite append_empty_r.
  - apply orb_false_iff in Hs as [Hc Hs].
    rewrite Hc, IH by assumption.
    now rewrite append_snoc.
Qed.

(** [s.split(":", 1)[1]] is what follows the first colon; without a colon
    the index is out of range. *)
Lemma after_colon_cut (a b : string) :
  has_char ":" a = false ->
  Handler.after_colon (a ++ String ":" b) = Ok b.
Proof.
  intros Ha. unfold Handler.after_colon, PyStr.split1.
  now rewrite split1_from_cut.
Qed.

Lemma after_colon_none (s : string) :
  has_char ":" s = false -> Handler.after_colon s = Raise IndexError.
Proof.
  intros Hs. unfold Handler.after_colon, PyStr.split1.
  now rewrite split1_from_none.
Qed.

(** ** The handler: which blocks can post *)

Lemma posts_app (a b : list Handler.action) :
  posts (a ++ b) = (posts a ++ posts b)%list.
Proof.
  induction a as [|x a IH]; simpl; [reflexivity|].
  destruct x; simpl; now rewrite IH.
Qed.

Lemma in_posts (m : Handler.mutation) (t : list Handler.action) :
  In (Handler.Post m) t <-> In m (posts t).
Proof.
  induction t as [|x t IH]; simpl; [tauto|].
  destruct x; simpl; rewrite <- IH; split; intros H;
    repeat match goal with
      | H : _ \/ _ |- _ => destruct H as [H|H]
      end;
    try discriminate; try (injection H as ->); subst; auto.
Qed.

Lemma quiet_pure {A} (a : A) : quiet (Handler.pure a).
Proof. reflexivity. Qed.

Lemma quiet_lift {A} (r : result A) : quiet (Handler.lift r).
Proof. now destruct r. Qed.

Lemma quiet_log lv fmt : quiet (Handler.log lv fmt).
Proof. reflexivity. Qed.

Lemma quiet_return {A} : quiet (@Handler.return_ A).
Proof. reflexivity. Qed.

Lemma quiet_get_transaction s : quiet (Handler.act (Handler.GetTransaction s)).
Proof. reflexivity. Qed.

Lemma quiet_bind {A B} (m : Handler.handler A) (k : A -> Handler.handler B) :
  quiet m -> (forall a, quiet (k a)) -> quiet (Handler.bind m k).
Proof.
  unfold quiet, Handler.bind. intros Hm Hk.
  destruct m as [t [a| |e]]; simpl in *; try assumption.
  now rewrite posts_app, Hm, Hk.
Qed.

Create HintDb quiet.
#[local] Hint Resolve quiet_pure quiet_lift quiet_log quiet_return
  quiet_get_transaction : quiet.

Ltac quiet_steps :=
  repeat first
    [ apply quiet_bind; [| intros ? ]
    | match goal with
      | |- quiet (if ?b then _ else _) => destruct b
      | |- quiet (match ?x with _ => _ end) => destruct x
      end
    | solve [ auto with quiet ] ].

Lemma quiet_memo_from_logs logs_list : quiet (Handler.memo_from_logs logs_list).
Proof.
  induction logs_list as [|line rest IH]; simpl; [auto with quiet|].
  quiet_steps.
Qed.

Lemma quiet_find_memo e signature logs_list :
  quiet (Handler.find_memo e signature logs_list).
Proof.
  unfold Handler.find_memo, Handler.memo_from_chain.
  apply quiet_bind; [apply quiet_memo_from_logs | intros ?].
  quiet_steps.
Qed.

Lemma quiet_resolve_payment merchant e signature :
  quiet (Handler.resolve_payment merchant e signature).
Proof. unfold Handler.resolve_payment. quiet_steps. Qed.

Lemma quiet_parse_memo memo_text : quiet (Handler.parse_memo memo_text).
Proof. unfold Handler.parse_memo. quiet_steps. Qed.

Lemma quiet_check_tolerance tol paid expected :
  quiet (Handler.check_tolerance tol paid expected).
Proof. unfold Handler.check_tolerance. quiet_steps. Qed.

(** Step 6 posts its mutation, whatever the host answers. *)
Lemma posts_forward e m : posts (fst (Handler.forward e m)) = [m].
Proof.
  unfold Handler.forward.
  destruct (Handler.host_response e) as [[status_code text]|x]; cbn;
    [destruct (negb (status_code =? 200))|]; reflexivity.
Qed.

(** What [handle_signature] posts: one mutation, when the memo was found, the
    payment resolved, the memo parsed, the plan classified and the tolerance
    check did not raise; nothing otherwise. *)
Lemma posts_handle_signature merchant tol e signature logs_list :
  posts (Handler.handle_signature merchant tol e signature logs_list) =
  match Handler.find_memo e signature logs_list with
  | (_, Handler.Next memo_text) =>
      match Handler.resolve_payment merchant e signature with
      | (_, Handler.Next (_, sol_paid)) =>
          match Handler.parse_memo memo_text with
          | (_, Handler.Next (user_id, plan)) =>
              match Handler.build_mutation signature user_id plan sol_paid with
              | Ok (sol_expected, m) =>
                  match Handler.check_tolerance tol sol_paid sol_expected with
                  | (_, Handler.Next _) => [m]
                  | _ => []
                  end
              | Raise _ => []
              end
          | _ => []
          end
      | _ => []
      end
  | _ => []
  end.
Proof.
  unfold Handler.handle_signature, Handler.handle_signature_body.
  generalize (quiet_find_memo e signature logs_list).
  generalize (quiet_resolve_payment merchant e signature).
  generalize quiet_parse_memo (quiet_check_tolerance tol) (posts_forward e).
  unfold quiet.
  generalize (Handler.find_memo e signature logs_list) as r1.
  generalize (Handler.resolve_payment merchant e signature) as r2.
  generalize Handler.parse_memo as f3.
  generalize (Handler.build_mutation signature) as f4.
  generalize (Handler.check_tolerance tol) as f5.
  generalize (Handler.forward e) as f6.
  intros f6 f5 f4 f3 r2 r1 Q3 Q5 Q6 Q2 Q1.
  destruct r1 as [t1 [memo_text| |x1]]; simpl in Q1;
    cbn; rewrite ?posts_app, ?Q1; try reflexivity.
  destruct r2 as [t2 [[lamports sol_paid]| |x2]]; simpl in Q2;
    cbn; rewrite ?posts_app, ?Q1, ?Q2; try reflexivity.
  specialize (Q3 memo_text).
  destruct (f3 memo_text) as [t3 [[user_id plan]| |x3]]; simpl in Q3;
    cbn; rewrite ?posts_app, ?Q1, ?Q2, ?Q3; try reflexivity.
  destruct (f4 user_id plan sol_paid) as [[sol_expected m]|x4];
    cbn; rewrite ?posts_app, ?Q1, ?Q2, ?Q3; try reflexivity.
  specialize (Q5 sol_paid sol_expected). specialize (Q6 m).
  destruct (f5 sol_paid sol_expected) as [t5 [[]| |x5]]; simpl in Q5;
    cbn; rewrite ?posts_app, ?Q1, ?Q2, ?Q3, ?Q5; try reflexivity.
  destruct (f6 m) as [t6 [[]| |x6]]; simpl in Q6;
    cbn; rewrite ?posts_app, ?Q1, ?Q2, ?Q3, ?Q5, ?Q6; simpl;
    rewrite ?app_nil_r; reflexivity.
Qed.

(** ** Memo codec *)

Lemma startswith_empty (s : string) : PyStr.startswith s "" = true.
Proof. now destruct s. Qed.

Lemma startswith_ud (p0 : string) :
  PyStr.startswith p0 "ud:" = true -> exists user_id, p0 = "ud:" ++ user_id.
Proof.
  unfold PyStr.startswith.
  destruct p0 as [|c1 [|c2 [|c3 u]]]; cbn -[ascii_dec]; try discriminate;
    repeat match goal with
      | |- context [ascii_dec ?a ?b] =>
          destruct (ascii_dec a b); cbn -[ascii_dec]; try discriminate
      end.
  intros _. subst. now exists u.
Qed.

Lemma plan_tag_nonempty (tag : string) : plan_tag tag -> tag <> "".
Proof. intros []; discriminate. Qed.

(** Step 4 on a memo whose tokens are known. *)
Lemma parse_memo_tokens (text user_id tag : string) (rest : list string) :
  PyStr.split text = ("ud:" ++ user_id) :: tag :: rest ->
  Handler.parse_memo (JStr text)
  = ([Handler.Log Handler.DEBUG "Parsed user_id=%s plan=%s"],
     Handler.Next (user_id, tag)).
Proof.
  intros Hsplit. unfold Handler.parse_memo. rewrite Hsplit.
  change (Handler.part 0 (("ud:" ++ user_id) :: tag :: rest))
    with ("ud" ++ String ":" user_id).
  rewrite after_colon_cut by reflexivity.
  unfold PyStr.startswith. simpl.
  now destruct user_id.
Qed.

(** The memo of the encoder splits into its two tokens. *)
Lemma split_memo_of (user_id tag : string) :
  has_space user_id = false -> has_space tag = false -> tag <> "" ->
  PyStr.split (PriceCheck.memo_of user_id tag) = ["ud:" ++ user_id; tag].
Proof.
  intros Hu Ht Nt. unfold PriceCheck.memo_of.
  rewrite <- (append_assoc "ud:" user_id (" " ++ tag)).
  apply split_two_words; try assumption; discriminate.
Qed.

(** C2 (as amended).  For every user id without whitespace and every plan
    tag [pl30], [pl365], [eb:<bookId>] or [au:<bookId>] without whitespace,
    step 4 of [handle_signature] on the memo the session encoder writes gives
    back exactly the user id and the plan tag. *)
Theorem memo_round_trip (user_id tag : string) :
  plan_tag tag ->
  has_space user_id = false ->
  has_space tag = false ->
  Handler.parse_memo (JStr (PriceCheck.memo_of user_id tag))
  = ([Handler.Log Handler.DEBUG "Parsed user_id=%s plan=%s"],
     Handler.Next (user_id, tag)).
Proof.
  intros Htag Hu Ht.
  apply parse_memo_tokens with (rest := []).
  apply split_memo_of; auto using plan_tag_nonempty.
Qed.

Lemma memo_round_trip_witness :
  Handler.parse_memo (JStr (PriceCheck.memo_of "alice" ("eb:" ++ "42")))
  = ([Handler.Log Handler.DEBUG "Parsed user_id=%s plan=%s"],
     Handler.Next ("alice", "eb:" ++ "42")).
Proof.
  apply (memo_round_trip "alice" ("eb:" ++ "42") (tag_ebook "42"));
    reflexivity.
Defined.

(** C2 as stated fails: a user id is an opaque string, and one with a space
    in it does not come back. *)
Lemma memo_round_trip_fails_on_whitespace :
  ~ (forall user_id tag : string,
        plan_tag tag ->
        snd (Handler.parse_memo (JStr (PriceCheck.memo_of user_id tag)))
        = Handler.Next (user_id, tag)).
Proof.
  intros H. specialize (H "a b" "pl30" tag_pl30).
  vm_compute in H. discriminate H.
Qed.

(** C3 (as amended).  For every memo whose first token starts with [ud:],
    the second token [tag] is decoded as follows: a tag starting with [pl] is
    a subscription, monthly exactly when the tag is [pl30] and yearly
    otherwise; any other tag that contains a colon is a title purchase, an
    ebook if it starts with [eb:] and an audiobook otherwise, whose book id
    is what follows the first colon. *)
Theorem decode_plan_tag (text p0 tag : string) (rest : list string) :
  PyStr.split text = p0 :: tag :: rest ->
  PyStr.startswith p0 "ud:" = true ->
  exists user_id,
    p0 = "ud:" ++ user_id
    /\ Handler.parse_memo (JStr text)
       = ([Handler.Log Handler.DEBUG "Parsed user_id=%s plan=%s"],
          Handler.Next (user_id, tag))
    /\ (PyStr.startswith tag "pl" = true ->
        Handler.classify tag
        = Ok (Handler.Subscription
                (if String.eqb tag "pl30" then "monthly" else "yearly")))
    /\ (PyStr.startswith tag "pl" = false ->
        forall a book_id,
          tag = a ++ ":" ++ book_id -> has_char ":" a = false ->
          Handler.classify tag
          = Ok (Handler.Title
                  (if PyStr.startswith tag "eb:" then "ebook" else "audiobook")
                  book_id)).
Proof.
  intros Hsplit Hud.
  destruct (startswith_ud p0 Hud) as [user_id ->].
  exists user_id. split; [reflexivity|]. split.
  - now apply parse_memo_tokens with (rest := rest).
  - unfold Handler.classify. split; intros Hpl; rewrite Hpl; [reflexivity|].
    intros a book_id -> Ha.
    change (a ++ ":" ++ book_id) with (a ++ String ":" book_id).
    now rewrite after_colon_cut.
Qed.

Lemma decode_plan_tag_witness :
  Handler.classify "au:7" = Ok (Handler.Title "audiobook" "7").
Proof.
  destruct (decode_plan_tag "ud:bob au:7" "ud:bob" "au:7" []
              eq_refl eq_refl) as (user_id & _ & _ & _ & H).
  exact (H eq_refl "au" "7" eq_refl eq_refl).
Defined.

(** C3 as stated fails: a tag that neither starts with [pl] nor contains a
    colon is no title purchase; step 5 raises [IndexError] on it. *)
Lemma decode_plan_tag_fails_without_colon :
  ~ (forall (text p0 tag : string) (rest : list string),
        PyStr.split text = p0 :: tag :: rest ->
        PyStr.startswith p0 "ud:" = true ->
        PyStr.startswith tag "pl" = false ->
        exists book_id,
          Handler.classify tag
          = Ok (Handler.Title
                  (if PyStr.startswith tag "eb:" then "ebook" else "audiobook")
                  book_id)).
Proof.
  intros H.
  destruct (H "ud:bob xyz" "ud:bob" "xyz" [] eq_refl eq_refl eq_refl)
    as [book_id Hb].
  vm_compute in Hb. discriminate Hb.
Qed.

(** The four memos of the specification, through steps 4 and 5. *)
Example decode_alice_pl30 :
  Handler.parse_memo (JStr "ud:alice pl30")
  = ([Handler.Log Handler.DEBUG "Parsed user_id=%s plan=%s"],
     Handler.Next ("alice", "pl30"))
  /\ Handler.classify "pl30" = Ok (Handler.Subscription "monthly").
Proof. split; reflexivity. Qed.

Example decode_alice_pl365 :
  Handler.parse_memo (JStr "ud:alice pl365")
  = ([Handler.Log Handler.DEBUG "Parsed user_id=%s plan=%s"],
     Handler.Next ("alice", "pl365"))
  /\ Handler.classify "pl365" = Ok (Handler.Subscription "yearly").
Proof. split; reflexivity. Qed.

Example decode_bob_eb42 :
  Handler.parse_memo (JStr "ud:bob eb:42")
  = ([Handler.Log Handler.DEBUG "Parsed user_id=%s plan=%s"],
     Handler.Next ("bob", "eb:42"))
  /\ Handler.classify "eb:42" = Ok (Handler.Title "ebook" "42").
Proof. split; reflexivity. Qed.

Example decode_bob_au7 :
  Handler.parse_memo (JStr "ud:bob au:7")
  = ([Handler.Log Handler.DEBUG "Parsed user_id=%s plan=%s"],
     Handler.Next ("bob", "au:7"))
  /\ Handler.classify "au:7" = Ok (Handler.Title "audiobook" "7").
Proof. split; reflexivity. Qed.

(** The trace of [handle_signature] when step 4 executes [return]. *)
Lemma handle_signature_unparsed merchant tol e signature logs_list
  t1 memo_text t2 paid t3 :
  Handler.find_memo e signature logs_list = (t1, Handler.Next memo_text) ->
  Handler.resolve_payment merchant e signature = (t2, Handler.Next paid) ->
  Handler.parse_memo memo_text = (t3, Handler.Return) ->
  Handler.handle_signature merchant tol e signature logs_list
  = (Handler.Log Handler.DEBUG "Handling signature %s" :: t1 ++ t2 ++ t3)%list.
Proof.
  intros H1 H2 H3.
  unfold Handler.handle_signature, Handler.handle_signature_body, Handler.bind.
  rewrite H1. cbn [fst snd Handler.log]. rewrite H2. cbn [fst snd].
  destruct paid as [lamports sol_paid].
  rewrite H3. cbn [fst snd app]. reflexivity.
Qed.

(** Step 4 on a memo with fewer than two tokens, or whose first token does
    not start with [ud:]. *)
Lemma parse_memo_malformed (text : string) :
  (List.length (PyStr.split text) < 2)%nat
  \/ PyStr.startswith (Handler.part 0 (PyStr.split text)) "ud:" = false ->
  Handler.parse_memo (JStr text)
  = ([Handler.Log Handler.WARNING "Unexpected memo format: %s"],
     Handler.Return).
Proof.
  intros H. unfold Handler.parse_memo.
  destruct H as [H|H].
  - apply Nat.ltb_lt in H. now rewrite H.
  - rewrite H, orb_true_r. reflexivity.
Qed.

(** C5.  A memo text with fewer than two whitespace-separated tokens, or
    whose first token does not start with [ud:], is not decoded: step 4 logs
    a warning and returns, without raising.  Whenever [handle_signature] has
    found such a memo it posts nothing, and when the payment was resolved its
    trace ends with that warning: no exception was raised on the way, and
    none leaves the handler. *)
Theorem malformed_memo_is_dropped merchant tol e signature logs_list
  (text : string) (t1 : list Handler.action) :
  (List.length (PyStr.split text) < 2)%nat
  \/ PyStr.startswith (Handler.part 0 (PyStr.split text)) "ud:" = false ->
  Handler.parse_memo (JStr text)
  = ([Handler.Log Handler.WARNING "Unexpected memo format: %s"],
     Handler.Return)
  /\ (Handler.find_memo e signature logs_list = (t1, Handler.Next (JStr text)) ->
      posts (Handler.handle_signature merchant tol e signature logs_list) = []
      /\ forall t2 paid,
          Handler.resolve_payment merchant e signature = (t2, Handler.Next paid) ->
          Handler.handle_signature merchant tol e signature logs_list
          = (Handler.Log Handler.DEBUG "Handling signature %s"
               :: t1 ++ t2
               ++ [Handler.Log Handler.WARNING "Unexpected memo format: %s"])%list).
Proof.
  intros Hbad. pose proof (parse_memo_malformed text Hbad) as Hparse.
  split; [assumption|]. intros Hfind. split.
  - rewrite posts_handle_signature, Hfind, Hparse.
    now destruct (Handler.resolve_payment merchant e signature)
      as [t2 [[lamports sol_paid]| |x]].
  - intros t2 paid Hpaid.
    now apply handle_signature_unparsed with (memo_text := JStr text) (paid := paid).
Qed.

Lemma malformed_memo_is_dropped_witness :
  posts (Handler.handle_signature "Merchant" (Float64.of_ratio 5 100)
           sample_env "Sig" [memo_line "garbage"]) = [].
Proof.
  refine (proj1 (proj2 (malformed_memo_is_dropped "Merchant"
                          (Float64.of_ratio 5 100) sample_env "Sig"
                          [memo_line "garbage"] "garbage"
                          [Handler.Log Handler.DEBUG "Parsed memo from logs: %s"]
                          _) _)).
  - left. simpl. lia.
  - reflexivity.
Defined.

(** ** Transaction resolver *)

(** Reduce the plumbing of a handler block, and nothing else. *)
Ltac hsimpl :=
  cbn [fst snd app negb Handler.lift Handler.log Handler.act Handler.return_
       Handler.pure].

(** Step 3 passes only with the merchant among the account keys and a
    positive balance change, and then the paid amount is that change divided
    by [1e9]. *)
Lemma resolve_payment_next merchant e signature t lamports sol_paid :
  Handler.resolve_payment merchant e signature
  = (t, Handler.Next (lamports, sol_paid)) ->
  exists raw_bal meta keys idx,
    Handler.balances_response e = Ok raw_bal
    /\ Handler.transaction_meta raw_bal = Ok meta
    /\ Json.truthy meta = true
    /\ Handler.transaction_keys raw_bal = Ok keys
    /\ Handler.index_of merchant keys = Some idx
    /\ Handler.balance_delta meta idx = Ok lamports
    /\ PyNum.le_zero lamports = false
    /\ PyNum.truediv lamports (PFloat Handler.LAMPORTS_PER_SOL) = Ok sol_paid
    /\ t = [Handler.GetTransaction signature;
            Handler.Log Handler.INFO "Tx %s paid %.6f SOL"].
Proof.
  unfold Handler.resolve_payment, Handler.bind.
  destruct (Handler.balances_response e) as [raw_bal|x] eqn:?; hsimpl; [|discriminate].
  destruct (Handler.transaction_meta raw_bal) as [meta|x] eqn:?; hsimpl; [|discriminate].
  destruct (Json.truthy meta) eqn:Hmeta; hsimpl; [|discriminate].
  destruct (Handler.transaction_keys raw_bal) as [keys|x] eqn:?; hsimpl; [|discriminate].
  destruct (Handler.index_of merchant keys) as [idx|] eqn:?; hsimpl; [|discriminate].
  destruct (Handler.balance_delta meta idx) as [lam|x] eqn:?; hsimpl; [|discriminate].
  destruct (PyNum.le_zero lam) eqn:Hle; hsimpl; [discriminate|].
  destruct (PyNum.truediv lam (PFloat Handler.LAMPORTS_PER_SOL))
    as [sol|x] eqn:Hdiv; hsimpl; [|discriminate].
  intros H. injection H as <- <- <-.
  exists raw_bal, meta, keys, idx. repeat split; assumption || reflexivity.
Qed.

(** C6.  When the resolved transaction does not list the merchant among its
    account keys, or the merchant's balance change is not positive, step 3
    returns: [handle_signature] builds no mutation and posts nothing. *)
Theorem unpaid_event_is_dropped merchant tol e signature logs_list
  (raw_bal meta : json) (keys : list json) :
  Handler.balances_response e = Ok raw_bal ->
  Handler.transaction_meta raw_bal = Ok meta ->
  Handler.transaction_keys raw_bal = Ok keys ->
  Handler.index_of merchant keys = None
  \/ (exists idx lamports,
        Handler.index_of merchant keys = Some idx
        /\ Handler.balance_delta meta idx = Ok lamports
        /\ PyNum.le_zero lamports = true) ->
  snd (Handler.resolve_payment merchant e signature) = Handler.Return
  /\ posts (Handler.handle_signature merchant tol e signature logs_list) = [].
Proof.
  intros Hraw Hmeta Hkeys Hdrop.
  assert (Hret : snd (Handler.resolve_payment merchant e signature)
                 = Handler.Return).
  { unfold Handler.resolve_payment, Handler.bind.
    rewrite Hraw; hsimpl. rewrite Hmeta; hsimpl.
    destruct (Json.truthy meta); hsimpl; [|reflexivity].
    rewrite Hkeys; hsimpl.
    destruct Hdrop as [Hnone | (idx & lamports & Hidx & Hdelta & Hle)].
    - rewrite Hnone. reflexivity.
    - rewrite Hidx; hsimpl. rewrite Hdelta; hsimpl. rewrite Hle. reflexivity. }
  split; [assumption|].
  rewrite posts_handle_signature.
  destruct (Handler.find_memo e signature logs_list) as [t1 [memo_text| |x]];
    try reflexivity.
  destruct (Handler.resolve_payment merchant e signature) as [t2 c].
  simpl in Hret. now rewrite Hret.
Qed.

Lemma unpaid_event_is_dropped_witness :
  posts (Handler.handle_signature "Stranger" (Float64.of_ratio 5 100)
           sample_env "Sig" [memo_line "ud:3 pl30"]) = []
  /\ posts (Handler.handle_signature "Merchant" (Float64.of_ratio 5 100)
              sample_env_unpaid "Sig" [memo_line "ud:3 pl30"]) = [].
Proof.
  split.
  - refine (proj2 (unpaid_event_is_dropped "Stranger" (Float64.of_ratio 5 100)
                     sample_env "Sig" [memo_line "ud:3 pl30"]
                     _ _ _ eq_refl eq_refl eq_refl _)).
    left. reflexivity.
  - refine (proj2 (unpaid_event_is_dropped "Merchant" (Float64.of_ratio 5 100)
                     sample_env_unpaid "Sig" [memo_line "ud:3 pl30"]
                     _ _ _ eq_refl eq_refl eq_refl _)).
    right. exists 1%nat, (PInt 0). repeat split.
Defined.

Lemma item_truthy (d : json) (k : string) (v : json) :
  Json.item d k = Ok v -> Json.truthy d = true.
Proof.
  destruct d; try discriminate. simpl.
  destruct fields; [discriminate | reflexivity].
Qed.

(** C7.  With the merchant at index [idx] of the account keys,
    [preBalances[idx] = 1_000_000_000] and [postBalances[idx] =
    1_050_000_000], step 3 computes a balance change of 50_000_000 lamports
    and a paid amount of 0.05 SOL (the double nearest to 5/100). *)
Theorem balance_delta_example merchant e signature
  (raw_bal meta : json) (keys : list json) (idx : nat) (post pre : json) :
  Handler.balances_response e = Ok raw_bal ->
  Handler.transaction_meta raw_bal = Ok meta ->
  Handler.transaction_keys raw_bal = Ok keys ->
  Handler.index_of merchant keys = Some idx ->
  Json.item meta "postBalances" = Ok post ->
  Json.at_index post idx = Ok (JInt 1050000000) ->
  Json.item meta "preBalances" = Ok pre ->
  Json.at_index pre idx = Ok (JInt 1000000000) ->
  Handler.balance_delta meta idx = Ok (PInt 50000000)
  /\ Handler.resolve_payment merchant e signature
     = ([Handler.GetTransaction signature;
         Handler.Log Handler.INFO "Tx %s paid %.6f SOL"],
        Handler.Next (PInt 50000000, Float64.of_ratio 5 100)).
Proof.
  intros Hraw Hmeta Hkeys Hidx Hpost Hposti Hpre Hprei.
  assert (Hdelta : Handler.balance_delta meta idx = Ok (PInt 50000000)).
  { unfold Handler.balance_delta.
    rewrite Hpost; simpl rbind. rewrite Hposti; simpl rbind.
    rewrite Hpre; simpl rbind. rewrite Hprei. reflexivity. }
  split; [assumption|].
  unfold Handler.resolve_payment, Handler.bind.
  rewrite Hraw; hsimpl. rewrite Hmeta; hsimpl.
  rewrite (item_truthy _ _ _ Hpost); hsimpl.
  rewrite Hkeys; hsimpl. rewrite Hidx, Hdelta; hsimpl.
  change (PyNum.le_zero (PInt 50000000)) with false; hsimpl.
  replace (PyNum.truediv (PInt 50000000) (PFloat Handler.LAMPORTS_PER_SOL))
    with (Ok (Float64.of_ratio 5 100)) by (vm_compute; reflexivity).
  reflexivity.
Qed.

Lemma balance_delta_example_witness :
  Handler.resolve_payment "Merchant" sample_env "Sig"
  = ([Handler.GetTransaction "Sig";
      Handler.Log Handler.INFO "Tx %s paid %.6f SOL"],
     Handler.Next (PInt 50000000, Float64.of_ratio 5 100)).
Proof.
  refine (proj2 (balance_delta_example "Merchant" sample_env "Sig"
                   _ _ _ 1%nat _ _
                   eq_refl eq_refl eq_refl eq_refl eq_refl eq_refl
                   eq_refl eq_refl)).
Defined.

(** ** Session encoder *)

(** C8.  For a monthly subscription request, when the pricing query answers
    [monthlyPrice = 9.99] and the oracle's spot price is [100.0], the session
    carries the amount 0.0999 (the double nearest to 999/10000) and the memo
    [ud:<userId> pl30]. *)
Theorem monthly_session_example (MERCHANT : string)
  (float_str : Float64.float -> string) (quote : string -> string)
  (e : PriceCheck.env) (user_id purchase_type : string)
  (resp data subp : json) :
  MERCHANT <> "" ->
  PyStr.lower purchase_type = "monthly" ->
  PriceCheck.pricing_response e = Ok resp ->
  Json.item resp "data" = Ok data ->
  Json.item data "getSubscriptionPricing" = Ok subp ->
  Json.item subp "monthlyPrice" = Ok (JFloat (Float64.of_ratio 999 100)) ->
  PriceCheck.sol_price e = Ok (JFloat (Float64.of_Z 100)) ->
  exists s,
    PriceCheck.create_sub_session MERCHANT float_str quote e
      user_id purchase_type = Ok s
    /\ PriceCheck.amount s = Float64.of_ratio 999 10000
    /\ PriceCheck.memo s = "ud:" ++ user_id ++ " pl30".
Proof.
  intros HM Hpt Hresp Hdata Hsubp Hprice Hsol.
  unfold PriceCheck.create_sub_session.
  destruct MERCHANT as [|c M]; [congruence|]. cbn [String.length Nat.eqb].
  rewrite Hresp; cbn [rbind]. rewrite Hdata; cbn [rbind].
  rewrite Hsubp; cbn [rbind]. rewrite Hpt, String.eqb_refl.
  rewrite Hprice; cbn [rbind]. rewrite Hsol; cbn [rbind].
  match goal with
  | |- context [Json.truediv ?a ?b] =>
      let v := eval vm_compute in (Json.truediv a b) in
      replace (Json.truediv a b) with v by (vm_compute; reflexivity)
  end.
  cbn [rbind].
  match goal with
  | |- context [Float64.round6 ?a] =>
      replace (Float64.round6 a) with (Ok (Float64.of_ratio 999 10000))
        by (vm_compute; reflexivity)
  end.
  cbn [rbind].
  eexists. split; [reflexivity|]. split; reflexivity.
Qed.

Lemma monthly_session_example_witness :
  exists s,
    PriceCheck.create_sub_session "Merchant" (fun _ => "0.0999") (fun s => s)
      sample_pricing "alice" "Monthly" = Ok s
    /\ PriceCheck.amount s = Float64.of_ratio 999 10000
    /\ PriceCheck.memo s = "ud:" ++ "alice" ++ " pl30".
Proof.
  refine (monthly_session_example "Merchant" (fun _ => "0.0999") (fun s => s)
            sample_pricing "alice" "Monthly" _ _ _ _
            eq_refl eq_refl eq_refl eq_refl eq_refl eq_refl).
  discriminate.
Defined.

Lemma lower_monthly_examples :
  PyStr.lower "Monthly" = "monthly" /\ PyStr.lower "MONTHLY" = "monthly"
  /\ PyStr.lower "eBook" = "ebook" /\ PyStr.lower "EBOOK" = "ebook"
  /\ PyStr.lower "weekly" <> "monthly" /\ PyStr.lower "" <> "ebook".
Proof. repeat split; try reflexivity; discriminate. Qed.

(** What [create_sub_session] computes, by the branch it takes. *)
Lemma create_sub_session_branch (MERCHANT : string)
  (float_str : Float64.float -> string) (quote : string -> string)
  (e : PriceCheck.env) (user_id purchase_type : string) (s : PriceCheck.session) :
  PriceCheck.create_sub_session MERCHANT float_str quote e user_id purchase_type
  = Ok s ->
  let monthly := String.eqb (PyStr.lower purchase_type) "monthly" in
  quoted_amount e "getSubscriptionPricing"
    (if monthly then "monthlyPrice" else "yearlyPrice")
  = Ok (PriceCheck.amount s)
  /\ PriceCheck.memo s
     = PriceCheck.memo_of user_id (if monthly then "pl30" else "pl365").
Proof.
  unfold PriceCheck.create_sub_session, quoted_amount.
  destruct (String.length MERCHANT =? 0)%nat; [discriminate|].
  destruct (PriceCheck.pricing_response e) as [resp|x]; [|discriminate].
  cbn [rbind].
  destruct (Json.item resp "data") as [data|x]; [|discriminate]. cbn [rbind].
  destruct (Json.item data "getSubscriptionPricing") as [subp|x];
    [|discriminate]. cbn [rbind].
  destruct (String.eqb (PyStr.lower purchase_type) "monthly"); cbn zeta;
    match goal with
    | |- context [Json.item subp ?f] =>
        destruct (Json.item subp f) as [usd|x]; [|discriminate]
    end;
    cbn [rbind];
    (destruct (PriceCheck.sol_price e) as [price|x]; [|discriminate]);
    cbn [rbind];
    (destruct (Json.truediv usd price) as [ratio|x]; [|discriminate]);
    cbn [rbind];
    (destruct (Float64.round6 ratio) as [amount_sol|x]; [|discriminate]);
    cbn [rbind];
    intros H; injection H as <-; split; reflexivity.
Qed.

(** What [create_title_session] computes, by the branch it takes. *)
Lemma create_title_session_branch (MERCHANT : string)
  (float_str : Float64.float -> string) (quote : string -> string)
  (e : PriceCheck.env) (user_id book_id purchase_type : string)
  (s : PriceCheck.session) :
  PriceCheck.create_title_session MERCHANT float_str quote e
    user_id book_id purchase_type = Ok s ->
  let ebook := String.eqb (PyStr.lower purchase_type) "ebook" in
  quoted_amount e "getTitlePricing"
    (if ebook then "ebook_price" else "audiobook_price")
  = Ok (PriceCheck.amount s)
  /\ PriceCheck.memo s
     = PriceCheck.memo_of user_id
         (if ebook then "eb:" ++ book_id else "au:" ++ book_id).
Proof.
  unfold PriceCheck.create_title_session, quoted_amount.
  destruct (String.length MERCHANT =? 0)%nat; [discriminate|].
  destruct (PriceCheck.pricing_response e) as [resp|x]; [|discriminate].
  cbn [rbind].
  destruct (Json.item resp "data") as [data|x]; [|discriminate]. cbn [rbind].
  destruct (Json.item data "getTitlePricing") as [pr|x];
    [|discriminate]. cbn [rbind].
  destruct (String.eqb (PyStr.lower purchase_type) "ebook"); cbn zeta;
    match goal with
    | |- context [Json.item pr ?f] =>
        destruct (Json.item pr f) as [usd|x]; [|discriminate]
    end;
    cbn [rbind];
    (destruct (PriceCheck.sol_price e) as [price|x]; [|discriminate]);
    cbn [rbind];
    (destruct (Json.truediv usd price) as [ratio|x]; [|discriminate]);
    cbn [rbind];
    (destruct (Float64.round6 ratio) as [amount_sol|x]; [|discriminate]);
    cbn [rbind];
    intros H; injection H as <-; split; reflexivity.
Qed.

(** The purchase type enters a session creation only through the test on
    its lower-case form. *)
Lemma create_sub_session_lower (MERCHANT : string)
  (float_str : Float64.float -> string) (quote : string -> string)
  (e : PriceCheck.env) (user_id pt1 pt2 : string) :
  String.eqb (PyStr.lower pt1) "monthly" = String.eqb (PyStr.lower pt2) "monthly" ->
  PriceCheck.create_sub_session MERCHANT float_str quote e user_id pt1
  = PriceCheck.create_sub_session MERCHANT float_str quote e user_id pt2.
Proof. intros H. unfold PriceCheck.create_sub_session. now rewrite H. Qed.

Lemma create_title_session_lower (MERCHANT : string)
  (float_str : Float64.float -> string) (quote : string -> string)
  (e : PriceCheck.env) (user_id book_id pt1 pt2 : string) :
  String.eqb (PyStr.lower pt1) "ebook" = String.eqb (PyStr.lower pt2) "ebook" ->
  PriceCheck.create_title_session MERCHANT float_str quote e user_id book_id pt1
  = PriceCheck.create_title_session MERCHANT float_str quote e user_id book_id pt2.
Proof. intros H. unfold PriceCheck.create_title_session. now rewrite H. Qed.

(** Comparing the lower-case form with a word in small letters is comparing
    with that word up to case. *)
Lemma lower_char_small_letter (c d : ascii) :
  small_letter d = true ->
  Ascii.eqb (PyStr.lower_char c) d = same_letter c d.
Proof.
  destruct d as [[] [] [] [] [] [] [] []]; intros H; try discriminate H; clear H;
    destruct c as [[] [] [] [] [] [] [] []]; reflexivity.
Qed.

Lemma lower_eq_ignoring_case (t : string) :
  small_letters t = true ->
  forall s, String.eqb (PyStr.lower s) t = eq_ignoring_case s t.
Proof.
  induction t as [|d t IH]; intros Ht s; destruct s as [|c s];
    cbn [PyStr.lower String.eqb eq_ignoring_case]; try reflexivity.
  cbn [small_letters] in Ht. apply andb_true_iff in Ht as [Hd Ht].
  rewrite lower_char_small_letter by assumption.
  rewrite <- IH by assumption.
  now destruct (same_letter c d).
Qed.

(** C10.  The session-creation resolvers match [purchaseType] up to the case
    of its letters and reject no value.  A subscription request whose
    purchase type is [monthly] up to case is the request [monthly]; any
    other is the request [yearly]: it raises what that one raises, and a
    session it returns is priced from [yearlyPrice] and tagged [pl365].  A
    title request whose purchase type is [ebook] up to case is the request
    [ebook]; any other is the request [audiobook], priced from
    [audiobook_price] and tagged [au:<bookId>]. *)
Theorem purchase_type_defaults (MERCHANT : string)
  (float_str : Float64.float -> string) (quote : string -> string)
  (e : PriceCheck.env) (userId bookId purchaseType : string) :
  let sub := PriceCheck.resolve_create_subscription_purchase_session
               MERCHANT float_str quote e userId in
  let title := PriceCheck.resolve_create_title_purchase_session
                 MERCHANT float_str quote e userId bookId in
  (eq_ignoring_case purchaseType "monthly" = true ->
   sub purchaseType = sub "monthly")
  /\ (eq_ignoring_case purchaseType "monthly" = false ->
      sub purchaseType = sub "yearly"
      /\ forall s, sub purchaseType = Ok s ->
           quoted_amount e "getSubscriptionPricing" "yearlyPrice"
           = Ok (PriceCheck.amount s)
           /\ PriceCheck.memo s = PriceCheck.memo_of userId "pl365")
  /\ (eq_ignoring_case purchaseType "ebook" = true ->
      title purchaseType = title "ebook")
  /\ (eq_ignoring_case purchaseType "ebook" = false ->
      title purchaseType = title "audiobook"
      /\ forall s, title purchaseType = Ok s ->
           quoted_amount e "getTitlePricing" "audiobook_price"
           = Ok (PriceCheck.amount s)
           /\ PriceCheck.memo s = PriceCheck.memo_of userId ("au:" ++ bookId)).
Proof.
  intros sub title. subst sub title.
  unfold PriceCheck.resolve_create_subscription_purchase_session,
    PriceCheck.resolve_create_title_purchase_session.
  rewrite <- !lower_eq_ignoring_case by reflexivity.
  split; [|split; [|split]].
  - intros H. apply create_sub_session_lower. now rewrite H.
  - intros H. split.
    + apply create_sub_session_lower. now rewrite H.
    + intros s Hs. apply create_sub_session_branch in Hs.
      rewrite H in Hs. exact Hs.
  - intros H. apply create_title_session_lower. now rewrite H.
  - intros H. split.
    + apply create_title_session_lower. now rewrite H.
    + intros s Hs. apply create_title_session_branch in Hs.
      rewrite H in Hs. exact Hs.
Qed.

Lemma purchase_type_defaults_witness :
  PriceCheck.resolve_create_subscription_purchase_session
    "Merchant" (fun _ => "0.999") (fun s => s) sample_pricing "alice" "weekly"
  = PriceCheck.resolve_create_subscription_purchase_session
      "Merchant" (fun _ => "0.999") (fun s => s) sample_pricing "alice" "yearly"
  /\ PriceCheck.resolve_create_title_purchase_session
       "Merchant" (fun _ => "0.999") (fun s => s) sample_pricing "alice" "42"
       "EBook"
     = PriceCheck.resolve_create_title_purchase_session
         "Merchant" (fun _ => "0.999") (fun s => s) sample_pricing "alice" "42"
         "ebook".
Proof.
  pose proof (purchase_type_defaults "Merchant" (fun _ => "0.999") (fun s => s)
                sample_pricing "alice" "42" "weekly") as (_ & Hsub & _ & _).
  pose proof (purchase_type_defaults "Merchant" (fun _ => "0.999") (fun s => s)
                sample_pricing "alice" "42" "EBook") as (_ & _ & Htitle & _).
  split.
  - apply Hsub. reflexivity.
  - apply Htitle. reflexivity.
Defined.

(** ** Completion forwarder *)

(** Both f-strings of step 5 splice the signature in twice. *)
Lemma mutation_of_reference signature user_id sol_paid p :
  let m := Handler.mutation_of signature user_id sol_paid p in
  Handler.argument "reference" (Handler.arguments m)
  = Some (Handler.GString signature)
  /\ Handler.argument "txSignature" (Handler.arguments m)
     = Some (Handler.GString signature).
Proof. destruct p; split; reflexivity. Qed.

(** A posted mutation is the one step 5 built for this signature. *)
Lemma posted_mutation merchant tol e signature logs_list m :
  In (Handler.Post m)
     (Handler.handle_signature merchant tol e signature logs_list) ->
  exists user_id sol_paid p,
    m = Handler.mutation_of signature user_id sol_paid p.
Proof.
  rewrite in_posts, posts_handle_signature.
  destruct (Handler.find_memo e signature logs_list) as [t1 [memo_text| |x1]];
    try contradiction.
  destruct (Handler.resolve_payment merchant e signature)
    as [t2 [[lamports sol_paid]| |x2]]; try contradiction.
  destruct (Handler.parse_memo memo_text) as [t3 [[user_id plan]| |x3]];
    try contradiction.
  unfold Handler.build_mutation.
  destruct (Handler.classify plan) as [p|x4]; cbn [rbind]; try contradiction.
  destruct (Handler.check_tolerance tol sol_paid sol_paid) as [t5 [[]| |x5]];
    try contradiction.
  intros [<-|[]]. now exists user_id, sol_paid, p.
Qed.

(** C9.  In every mutation [handle_signature] posts, subscription or title
    variant, the [reference] argument is the transaction signature, as is
    [txSignature]; so two completions posted for the same signature, whatever
    the configuration, the log lines and the answers of the ledger and the
    host, carry the same reference. *)
Theorem reference_is_signature (signature : string)
  merchant1 tol1 e1 logs1 merchant2 tol2 e2 logs2
  (m1 m2 : Handler.mutation) :
  In (Handler.Post m1)
     (Handler.handle_signature merchant1 tol1 e1 signature logs1) ->
  In (Handler.Post m2)
     (Handler.handle_signature merchant2 tol2 e2 signature logs2) ->
  Handler.argument "reference" (Handler.arguments m1)
  = Some (Handler.GString signature)
  /\ Handler.argument "txSignature" (Handler.arguments m1)
     = Some (Handler.GString signature)
  /\ (Handler.operation m1 = "recordCompletedSubscriptionPurchase"
      \/ Handler.operation m1 = "recordCompletedTitlePurchase")
  /\ Handler.argument "reference" (Handler.arguments m2)
     = Handler.argument "reference" (Handler.arguments m1).
Proof.
  intros H1 H2.
  apply posted_mutation in H1 as (u1 & x1 & p1 & ->).
  apply posted_mutation in H2 as (u2 & x2 & p2 & ->).
  destruct (mutation_of_reference signature u1 x1 p1) as [R1 T1].
  destruct (mutation_of_reference signature u2 x2 p2) as [R2 T2].
  cbv zeta in R1, T1, R2, T2.
  rewrite R1, T1, R2.
  repeat split. destruct p1; [left | right]; reflexivity.
Qed.

Lemma reference_is_signature_witness :
  let m1 := Handler.mutation_of "Sig" "3" (Float64.of_ratio 5 100)
              (Handler.Subscription "monthly") in
  let m2 := Handler.mutation_of "Sig" "bob" (Float64.of_ratio 5 100)
              (Handler.Title "ebook" "42") in
  Handler.argument "reference" (Handler.arguments m2)
  = Handler.argument "reference" (Handler.arguments m1).
Proof.
  intros m1 m2.
  refine (proj2 (proj2 (proj2
            (reference_is_signature "Sig"
               "Merchant" (Float64.of_ratio 5 100) sample_env
               [memo_line "ud:3 pl30"]
               "Merchant" (Float64.of_ratio 5 100) sample_env
               [memo_line "ud:bob eb:42"] m1 m2 _ _))));
    apply in_posts; vm_compute; left; reflexivity.
Defined.

(** ** Connection manager *)

Section ConnectionFacts.

Variable HEARTBEAT_INTERVAL : Z.
Variable PING_TIMEOUT : Z.

#[local] Abbreviation step := (Connection.step HEARTBEAT_INTERVAL PING_TIMEOUT).
#[local] Abbreviation run := (Connection.run HEARTBEAT_INTERVAL PING_TIMEOUT).

(** A probe that times out ends the heartbeat coroutine and nothing else: the
    main task stays where it is, the connection as it is. *)
Lemma probe_timeout_step (s : Connection.state) (t : Float64.float) :
  Connection.hb s = Connection.AwaitingPong t ->
  step s Connection.PongTimedOut
  = Some ({| Connection.main := Connection.main s;
             Connection.hb := Connection.Finished;
             Connection.last_pong := Connection.last_pong s |},
          [Connection.Say Handler.ERROR "Ping timeout after %d seconds"]).
Proof.
  intros H. unfold Connection.step. rewrite H.
  now destruct (Connection.main s).
Qed.

(** Once the heartbeat has returned, a listening connection moves only when
    [ws.recv()] completes. *)
Lemma finished_heartbeat_waits_for_recv (s : Connection.state)
  (ev : Connection.event) :
  Connection.main s = Connection.Listening ->
  Connection.hb s = Connection.Finished ->
  match ev with
  | Connection.Received _ | Connection.RecvFailed => True
  | _ => step s ev = None
  end.
Proof.
  intros Hm Hh. unfold Connection.step. rewrite Hm, Hh.
  now destruct ev.
Qed.

(** A failed [ws.recv()] tears the connection down and schedules the
    reconnection: the heartbeat is cancelled when it still runs, the
    connection closed, and [start] sleeps five seconds. *)
Lemma recv_failure_reconnects (s : Connection.state) :
  Connection.main s = Connection.Listening ->
  exists s' effs,
    step s Connection.RecvFailed = Some (s', effs)
    /\ Connection.main s' = Connection.Reconnecting
    /\ Connection.hb_running s' = false
    /\ (exists pre,
          effs = (pre ++ [Connection.Close;
                          Connection.Say Handler.ERROR "Connection error: %s";
                          Connection.Say Handler.INFO "Reconnecting in 5 seconds...";
                          Connection.Sleep 5])%list)
    /\ step s' Connection.BackoffElapsed
       = Some ({| Connection.main := Connection.Connecting;
                  Connection.hb := Connection.hb s';
                  Connection.last_pong := Connection.last_pong s' |},
               Connection.connect_effects).
Proof.
  intros Hm. unfold Connection.step. rewrite Hm.
  eexists _, _. split.
  { destruct (Connection.hb s); reflexivity. }
  unfold Connection.teardown. cbn [Connection.main Connection.hb fst snd].
  split; [reflexivity|]. split.
  { unfold Connection.hb_running. cbn [Connection.hb].
    destruct (Connection.hb s); reflexivity. }
  split.
  { eexists. reflexivity. }
  destruct (Connection.hb s); reflexivity.
Qed.

(** Handshakes that keep failing are retried without end: [n] failures make
    [n] further connection attempts. *)
Lemma failed_handshakes_reconnect (n : nat) (s : Connection.state) :
  Connection.main s = Connection.Connecting ->
  exists s' effs,
    run s (failed_handshakes n) = Some (s', effs)
    /\ Connection.main s' = Connection.Connecting
    /\ Connection.connects effs = n.
Proof.
  revert s. induction n as [|n IH]; intros s Hm.
  - exists s, []. now repeat split.
  - destruct (IH {| Connection.main := Connection.Connecting;
                    Connection.hb := Connection.hb s;
                    Connection.last_pong := Connection.last_pong s |} eq_refl)
      as (s' & effs & Hrun & Hm' & Hn).
    cbn [failed_handshakes Connection.run].
    unfold Connection.step at 1. rewrite Hm.
    unfold Connection.step at 1. cbn [Connection.main Connection.hb
                                      Connection.last_pong].
    rewrite Hrun.
    eexists _, _. split; [reflexivity|]. split; [assumption|].
    unfold Connection.connects in *. cbn. now rewrite Hn.
Qed.

End ConnectionFacts.

(** C1 (the code departs from it).  On the run [silent_peer] the probe gets
    no pong within the timeout.  The heartbeat coroutine logs the timeout
    and returns; the main task is still waiting in [ws.recv()] on the open
    connection: nothing was closed, no sleep of five seconds was started, no
    connection attempt was made beyond the first, and from this state only
    the completion of [ws.recv()] moves the listener, so that with a peer
    that stays silent no reconnection ever happens. *)
Theorem probe_timeout_leaves_connection_open :
  exists s effs,
    Connection.run DEFAULT_HEARTBEAT_INTERVAL DEFAULT_PING_TIMEOUT
      (fst (Connection.start (Float64.of_Z 0))) silent_peer
    = Some (s, effs)
    /\ Connection.main s = Connection.Listening
    /\ Connection.ws_open s = true
    /\ Connection.hb s = Connection.Finished
    /\ last effs Connection.Connect
       = Connection.Say Handler.ERROR "Ping timeout after %d seconds"
    /\ filter Connection.is_close effs = []
    /\ filter Connection.is_sleep effs
       = [Connection.Sleep DEFAULT_HEARTBEAT_INTERVAL]
    /\ Connection.connects
         (snd (Connection.start (Float64.of_Z 0)) ++ effs) = 1%nat
    /\ forall ev,
         match ev with
         | Connection.Received _ | Connection.RecvFailed => True
         | _ => Connection.step DEFAULT_HEARTBEAT_INTERVAL DEFAULT_PING_TIMEOUT
                  s ev = None
         end.
Proof.
  eexists _, _. split; [vm_compute; reflexivity|].
  repeat split.
  intros ev. now destruct ev.
Qed.

(** ** Floats: the paid amount of a positive balance change *)

(** The number of binary digits of a positive integer. *)
Lemma digits2_bounds (p : positive) :
  2 ^ (Zpos (digits2_pos p) - 1) <= Zpos p < 2 ^ Zpos (digits2_pos p).
Proof.
  induction p as [p IH|p IH|]; cbn [digits2_pos].
  - rewrite Pos2Z.inj_succ.
    replace (Z.succ (Zpos (digits2_pos p)) - 1) with (Z.succ (Zpos (digits2_pos p) - 1)) by lia.
    rewrite !Z.pow_succ_r by lia. lia.
  - rewrite Pos2Z.inj_succ.
    replace (Z.succ (Zpos (digits2_pos p)) - 1) with (Z.succ (Zpos (digits2_pos p) - 1)) by lia.
    rewrite !Z.pow_succ_r by lia. lia.
  - simpl. lia.
Qed.

Lemma Zdigits2_bounds (m : Z) :
  0 < m -> 2 ^ (Zdigits2 m - 1) <= m < 2 ^ Zdigits2 m.
Proof.
  destruct m as [|p|p]; try lia. intros _. apply digits2_bounds.
Qed.

Lemma Zdigits2_pos (m : Z) : 0 < m -> 0 < Zdigits2 m.
Proof. destruct m; simpl; lia. Qed.

(** The number of digits is determined by the bounds. *)
Lemma Zdigits2_unique (m d : Z) :
  0 < m -> 2 ^ (d - 1) <= m < 2 ^ d -> Zdigits2 m = d.
Proof.
  intros Hm [Hlo Hhi].
  pose proof (Zdigits2_bounds m Hm) as [Hlo' Hhi'].
  pose proof (Zdigits2_pos m Hm) as Hd.
  assert (0 < d).
  { destruct (Z_lt_le_dec 0 d); [assumption|].
    exfalso. assert (2 ^ d <= 1).
    { destruct (Z.eq_dec d 0) as [->|]; [simpl; lia|].
      rewrite Z.pow_neg_r by lia. lia. }
    lia. }
  destruct (Z_lt_le_dec (Zdigits2 m) d) as [Hlt|Hge].
  - exfalso. assert (2 ^ Zdigits2 m <= 2 ^ (d - 1)) by (apply Z.pow_le_mono_r; lia). lia.
  - destruct (Z_lt_le_dec d (Zdigits2 m)) as [Hlt|Hge']; [|lia].
    exfalso. assert (2 ^ d <= 2 ^ (Zdigits2 m - 1)) by (apply Z.pow_le_mono_r; lia). lia.
Qed.

Lemma Zdigits2_le (m n : Z) : 0 < m -> m <= n -> Zdigits2 m <= Zdigits2 n.
Proof.
  intros Hm Hmn.
  pose proof (Zdigits2_bounds m Hm) as [Hlo _].
  pose proof (Zdigits2_bounds n ltac:(lia)) as [_ Hhi].
  destruct (Z_lt_le_dec (Zdigits2 n) (Zdigits2 m)) as [Hlt|]; [|assumption].
  exfalso.
  assert (2 ^ Zdigits2 n <= 2 ^ (Zdigits2 m - 1)) by (apply Z.pow_le_mono_r; lia).
  lia.
Qed.

Lemma Zdigits2_succ (m : Z) : 0 < m -> Zdigits2 (m + 1) <= Zdigits2 m + 1.
Proof.
  intros Hm.
  pose proof (Zdigits2_bounds m Hm) as [_ Hhi].
  pose proof (Zdigits2_bounds (m + 1) ltac:(lia)) as [Hlo _].
  pose proof (Zdigits2_pos m Hm).
  destruct (Z_lt_le_dec (Zdigits2 m + 1) (Zdigits2 (m + 1))) as [Hlt|]; [|assumption].
  exfalso.
  assert (2 ^ (Zdigits2 m + 1) <= 2 ^ (Zdigits2 (m + 1) - 1)) by (apply Z.pow_le_mono_r; lia).
  rewrite Z.pow_add_r in H0 by lia. lia.
Qed.

(** Dropping [n] low bits drops [n] digits. *)
Lemma Zdigits2_div_pow2 (m n : Z) :
  0 < m -> 0 <= n < Zdigits2 m ->
  0 < m / 2 ^ n /\ Zdigits2 (m / 2 ^ n) = Zdigits2 m - n.
Proof.
  intros Hm Hn.
  pose proof (Zdigits2_bounds m Hm) as [Hlo Hhi].
  assert (Hp : 0 < 2 ^ n) by (apply Z.pow_pos_nonneg; lia).
  assert (Hlo' : 2 ^ (Zdigits2 m - n - 1) <= m / 2 ^ n).
  { apply Z.div_le_lower_bound; [assumption|].
    rewrite <- Z.pow_add_r by lia.
    replace (n + (Zdigits2 m - n - 1)) with (Zdigits2 m - 1) by lia. assumption. }
  assert (Hhi' : m / 2 ^ n < 2 ^ (Zdigits2 m - n)).
  { apply Z.div_lt_upper_bound; [assumption|].
    rewrite <- Z.pow_add_r by lia.
    replace (n + (Zdigits2 m - n)) with (Zdigits2 m) by lia. assumption. }
  assert (0 < 2 ^ (Zdigits2 m - n - 1)) by (apply Z.pow_pos_nonneg; lia).
  split; [lia|].
  apply Zdigits2_unique; [lia|]. split; assumption.
Qed.

(** ** Right shifts *)

Lemma shr_m_shr_1 (mrs : shr_record) :
  0 <= shr_m mrs -> shr_m (shr_1 mrs) = shr_m mrs / 2.
Proof.
  destruct mrs as [m r s]. cbn [shr_m]. intros Hm.
  destruct m as [|[p|p|]|p]; cbn [shr_1 shr_m]; try lia.
  - reflexivity.
  - apply Z.div_unique with 1; lia.
  - apply Z.div_unique with 0; lia.
  - reflexivity.
Qed.

Lemma shr_m_iter (n : positive) :
  forall mrs, 0 <= shr_m mrs ->
    shr_m (iter_pos shr_1 n mrs) = shr_m mrs / 2 ^ Zpos n.
Proof.
  assert (Hhalf : forall m, 0 <= m -> 0 <= m / 2) by (intros; apply Z.div_pos; lia).
  assert (Hdiv : forall m k, 0 <= m -> 0 <= m / 2 ^ Zpos k).
  { intros. apply Z.div_pos; [lia|]. apply Z.pow_pos_nonneg; lia. }
  induction n as [n IH|n IH|]; intros mrs Hm; cbn [iter_pos].
  - assert (Hp : 0 < 2 ^ Zpos n) by (apply Z.pow_pos_nonneg; lia).
    rewrite IH, IH, shr_m_shr_1 by
      (rewrite ?IH, ?shr_m_shr_1; auto; rewrite ?shr_m_shr_1; auto).
    rewrite !Z.div_div by lia.
    f_equal. rewrite <- !Z.pow_add_r, <- Z.pow_succ_r by lia.
    f_equal. lia.
  - assert (Hp : 0 < 2 ^ Zpos n) by (apply Z.pow_pos_nonneg; lia).
    rewrite IH, IH by (rewrite ?IH; auto).
    rewrite !Z.div_div by lia.
    f_equal. rewrite <- Z.pow_add_r by lia.
    f_equal. lia.
  - now rewrite shr_m_shr_1.
Qed.

Lemma shr_m_of_loc (m : Z) (l : location) : shr_m (shr_record_of_loc m l) = m.
Proof. now destruct l as [|[]]. Qed.

(** [shr_fexp] drops the bits below the exponent the format allows. *)
Lemma shr_fexp_spec (m e : Z) (l : location) :
  0 <= m ->
  let n := Z.max (fexp Float64.prec Float64.emax (Zdigits2 m + e) - e) 0 in
  shr_m (fst (shr_fexp Float64.prec Float64.emax m e l)) = m / 2 ^ n
  /\ snd (shr_fexp Float64.prec Float64.emax m e l) = e + n.
Proof.
  intros Hm n. subst n. unfold shr_fexp, shr.
  destruct (fexp Float64.prec Float64.emax (Zdigits2 m + e) - e) as [|p|p]; cbn [fst snd].
  - rewrite shr_m_of_loc. simpl. rewrite Z.div_1_r. split; lia.
  - rewrite shr_m_iter by (rewrite shr_m_of_loc; assumption).
    rewrite shr_m_of_loc. rewrite Z.max_l by lia. split; reflexivity.
  - rewrite shr_m_of_loc. simpl. rewrite Z.div_1_r. split; lia.
Qed.

Lemma round_nearest_even_bounds (m : Z) (l : location) :
  m <= round_nearest_even m l <= m + 1.
Proof.
  destruct l as [|[]]; cbn [round_nearest_even]; try lia.
  destruct (Z.even m); lia.
Qed.

(** Rounding a positive mantissa in the normal range gives a finite number
    of the same sign, or overflows. *)
Lemma binary_round_aux_normal (s : bool) (m e : Z) (l : location) :
  0 < m ->
  -1021 <= Zdigits2 m + e ->
  exists m' e',
    binary_round_aux Float64.prec Float64.emax s m e l
    = (if e' <=? 971 then S754_finite s m' e' else S754_infinity s)
    /\ Zpos (digits2_pos m') <= 53
    /\ Zdigits2 m + e <= Zpos (digits2_pos m') + e'
    /\ e' <= e + Z.max (Zdigits2 m - 53) 0 + 1.
Proof.
  intros Hm Hrange. unfold binary_round_aux.
  pose proof (Zdigits2_pos m Hm) as Hd.
  destruct (shr_fexp_spec m e l ltac:(lia)) as [Hm1 He1].
  destruct (shr_fexp Float64.prec Float64.emax m e l) as [mrs1 e1]. cbn [fst snd] in Hm1, He1.
  set (n1 := Z.max (Zdigits2 m - 53) 0).
  assert (Hn1 : Z.max (fexp Float64.prec Float64.emax (Zdigits2 m + e) - e) 0 = n1).
  { unfold fexp, emin, Float64.prec, Float64.emax, n1. lia. }
  rewrite Hn1 in Hm1, He1.
  destruct (Zdigits2_div_pow2 m n1 Hm ltac:(unfold n1; lia)) as [Hmm Hdmm].
  rewrite <- Hm1 in Hmm, Hdmm.
  pose proof (round_nearest_even_bounds (shr_m mrs1) (loc_of_shr_record mrs1))
    as Hrne.
  set (m1 := round_nearest_even (shr_m mrs1) (loc_of_shr_record mrs1)) in *.
  assert (Hm1pos : 0 < m1) by lia.
  pose proof (Zdigits2_le (shr_m mrs1) m1 Hmm ltac:(lia)) as Hd1lo.
  pose proof (Zdigits2_le m1 (shr_m mrs1 + 1) Hm1pos ltac:(lia)) as Hd1hi.
  pose proof (Zdigits2_succ (shr_m mrs1) Hmm) as Hsucc.
  destruct (shr_fexp_spec m1 e1 loc_Exact ltac:(lia)) as [Hm2 He2].
  destruct (shr_fexp Float64.prec Float64.emax m1 e1 loc_Exact) as [mrs2 e2].
  cbn [fst snd] in Hm2, He2.
  set (n2 := Z.max (Zdigits2 m1 - 53) 0).
  assert (Hn2 : Z.max (fexp Float64.prec Float64.emax (Zdigits2 m1 + e1) - e1) 0 = n2).
  { unfold fexp, emin, Float64.prec, Float64.emax, n2. unfold n1 in *. lia. }
  rewrite Hn2 in Hm2, He2.
  pose proof (Zdigits2_pos m1 Hm1pos) as Hd1.
  destruct (Zdigits2_div_pow2 m1 n2 Hm1pos ltac:(unfold n2; lia)) as [Hm2pos Hdm2].
  rewrite <- Hm2 in Hm2pos, Hdm2.
  destruct (shr_m mrs2) as [|p|p]; try lia.
  exists p, e2. split; [reflexivity|].
  cbn [Zdigits2] in Hdm2. unfold n1, n2 in *. repeat split; lia.
Qed.

Lemma digits2_iter_xO (p k : positive) :
  Zpos (digits2_pos (Pos.iter xO p k)) = Zpos (digits2_pos p) + Zpos k.
Proof.
  induction k as [|k IH] using Pos.peano_ind.
  - cbn [Pos.iter digits2_pos]. lia.
  - rewrite Pos.iter_succ. cbn [digits2_pos]. lia.
Qed.

(** The float of a positive integer: an overflow, or a positive finite number
    not below one. *)
Lemma of_Z_positive (z : Z) :
  0 < z ->
  Float64.of_Z z = S754_infinity false
  \/ exists m e,
       Float64.of_Z z = S754_finite false m e
       /\ Zpos (digits2_pos m) <= 53
       /\ 1 <= Zpos (digits2_pos m) + e
       /\ e <= 971.
Proof.
  destruct z as [|p|p]; try lia. intros _.
  unfold Float64.of_Z, binary_normalize, binary_round, shl_align.
  pose proof (Zdigits2_pos (Zpos p) ltac:(lia)) as Hd. cbn [Zdigits2] in Hd.
  assert (Hfexp : fexp Float64.prec Float64.emax (Zpos (digits2_pos p) + 0)
                  = Zpos (digits2_pos p) - 53).
  { unfold fexp, emin, Float64.prec, Float64.emax. lia. }
  rewrite Hfexp.
  destruct (Zpos (digits2_pos p) - 53 - 0) as [|k|k] eqn:Hk.
  - destruct (binary_round_aux_normal false (Zpos p) 0 loc_Exact)
      as (m & e & Hr & Hdm & Hlo & Hhi); [lia | cbn [Zdigits2]; lia |].
    rewrite Hr. cbn [Zdigits2] in Hlo, Hhi.
    destruct (e <=? 971) eqn:He; [right | left; reflexivity].
    apply Z.leb_le in He. exists m, e. repeat split; lia.
  - destruct (binary_round_aux_normal false (Zpos p) 0 loc_Exact)
      as (m & e & Hr & Hdm & Hlo & Hhi); [lia | cbn [Zdigits2]; lia |].
    rewrite Hr. cbn [Zdigits2] in Hlo, Hhi.
    destruct (e <=? 971) eqn:He; [right | left; reflexivity].
    apply Z.leb_le in He. exists m, e. repeat split; lia.
  - destruct (binary_round_aux_normal false (Zpos (Pos.iter xO p k))
                (Zpos (digits2_pos p) - 53) loc_Exact)
      as (m & e & Hr & Hdm & Hlo & Hhi);
      [lia | cbn [Zdigits2]; rewrite digits2_iter_xO; lia |].
    rewrite Hr. cbn [Zdigits2] in Hlo, Hhi. rewrite digits2_iter_xO in Hlo, Hhi.
    destruct (e <=? 971) eqn:He; [right | left; reflexivity].
    apply Z.leb_le in He. exists m, e. repeat split; lia.
Qed.

Lemma lamports_per_sol_value :
  Handler.LAMPORTS_PER_SOL = S754_finite false 8388608000000000 (-23).
Proof. vm_compute. reflexivity. Qed.

(** A positive finite number not below one, divided by [1e9], is a positive
    finite number. *)
Lemma div_lamports_per_sol (m : positive) (e : Z) :
  Zpos (digits2_pos m) <= 53 ->
  1 <= Zpos (digits2_pos m) + e ->
  e <= 971 ->
  exists m' e',
    Float64.div (S754_finite false m e) Handler.LAMPORTS_PER_SOL
    = S754_finite false m' e'.
Proof.
  intros Hd Hlo He.
  rewrite lamports_per_sol_value.
  unfold Float64.div, SFdiv, SFdiv_core_binary.
  cbn [Zdigits2 xorb].
  change (Zpos (digits2_pos 8388608000000000)) with 53.
  pose proof (Zdigits2_pos (Zpos m) ltac:(lia)) as Hdpos. cbn [Zdigits2] in Hdpos.
  set (d := Zpos (digits2_pos m)) in *.
  assert (He' : Z.min (fexp Float64.prec Float64.emax (d + e - (53 + -23)))
                      (e - -23) = d + e - 83).
  { unfold fexp, emin, Float64.prec, Float64.emax. lia. }
  rewrite He'.
  replace (e - -23 - (d + e - 83)) with (106 - d) by lia.
  destruct (106 - d) as [|s|s] eqn:Hs; try lia.
  rewrite Z.shiftl_mul_pow2 by lia.
  pose proof (Zdigits2_bounds (Zpos m) ltac:(lia)) as [Hmlo Hmhi].
  cbn [Zdigits2] in Hmlo, Hmhi. fold d in Hmlo, Hmhi.
  assert (Hbig : 2 ^ 105 <= Zpos m * 2 ^ Zpos s < 2 ^ 106).
  { rewrite <- Hs.
    assert (0 < 2 ^ (106 - d)) by (apply Z.pow_pos_nonneg; lia).
    replace (2 ^ 105) with (2 ^ (d - 1) * 2 ^ (106 - d))
      by (rewrite <- Z.pow_add_r by lia; f_equal; lia).
    replace (2 ^ 106) with (2 ^ d * 2 ^ (106 - d))
      by (rewrite <- Z.pow_add_r by lia; f_equal; lia).
    split; [apply Z.mul_le_mono_nonneg_r | apply Z.mul_lt_mono_pos_r]; lia. }
  set (n := Zpos m * 2 ^ Zpos s) in *.
  pose proof (Z.div_eucl_eq n 8388608000000000 ltac:(lia)) as Heq.
  pose proof (Z.mod_pos_bound n 8388608000000000 ltac:(lia)) as Hmod.
  unfold Z.modulo in Hmod.
  destruct (Z.div_eucl n 8388608000000000) as [q r].
  assert (Hq : 2 ^ 52 <= q < 2 ^ 54).
  { change (2 ^ 105) with 40564819207303340847894502572032 in Hbig.
    change (2 ^ 106) with 81129638414606681695789005144064 in Hbig.
    change (2 ^ 52) with 4503599627370496.
    change (2 ^ 54) with 18014398509481984. lia. }
  assert (Hqpos : 0 < q) by (change (2 ^ 52) with 4503599627370496 in Hq; lia).
  assert (Hdq : 53 <= Zdigits2 q <= 54).
  { pose proof (Zdigits2_bounds q Hqpos) as [Hqlo Hqhi].
    split.
    - destruct (Z_lt_le_dec (Zdigits2 q) 53) as [Hlt|]; [|assumption].
      exfalso. assert (2 ^ Zdigits2 q <= 2 ^ 52) by (apply Z.pow_le_mono_r; lia). lia.
    - destruct (Z_lt_le_dec 54 (Zdigits2 q)) as [Hlt|]; [|assumption].
      exfalso. assert (2 ^ 54 <= 2 ^ (Zdigits2 q - 1)) by (apply Z.pow_le_mono_r; lia). lia. }
  destruct (binary_round_aux_normal false q (d + e - 83)
              (new_location 8388608000000000 r))
    as (m' & e' & Hr & _ & _ & Hhi); [assumption | lia |].
  rewrite Hr.
  assert (Hle : (e' <=? 971) = true) by (apply Z.leb_le; lia).
  rewrite Hle. now exists m', e'.
Qed.

(** The paid amount of a positive number of lamports is a positive finite
    float. *)
Lemma sol_paid_positive (lamports : Z) (sol_paid : Float64.float) :
  0 < lamports ->
  PyNum.truediv (PInt lamports) (PFloat Handler.LAMPORTS_PER_SOL) = Ok sol_paid ->
  exists m e, sol_paid = S754_finite false m e.
Proof.
  intros Hpos. unfold PyNum.truediv, PyNum.to_float.
  destruct (of_Z_positive lamports Hpos) as [Hinf | (m & e & Hfin & Hd & Hlo & He)].
  - rewrite Hinf. discriminate.
  - rewrite Hfin. cbn [Float64.is_infinite rbind].
    rewrite lamports_per_sol_value at 1. cbn [Float64.is_zero].
    intros H. injection H as <-.
    now apply div_lamports_per_sol.
Qed.

(** ** Payment verifier *)

Lemma sub_self (s : bool) (m : positive) (e : Z) :
  Float64.sub (S754_finite s m e) (S754_finite s m e) = S754_zero false.
Proof.
  unfold Float64.sub, SFsub.
  now rewrite Z.sub_diag.
Qed.

(** The deviation of a positive finite amount from itself is [+0.0]. *)
Lemma deviation_self (m : positive) (e : Z) :
  Handler.deviation (S754_finite false m e) (S754_finite false m e)
  = Ok Float64.pzero.
Proof.
  unfold Handler.deviation. cbn [Float64.is_zero].
  now rewrite sub_self.
Qed.

(** Whatever the tolerance, the check falls through when the division is
    defined: the comparison only chooses whether the warning is logged. *)
Lemma check_tolerance_next tol sol_paid sol_expected d :
  Handler.deviation sol_paid sol_expected = Ok d ->
  snd (Handler.check_tolerance tol sol_paid sol_expected) = Handler.Next tt.
Proof.
  intros H. unfold Handler.check_tolerance, Handler.bind. rewrite H. hsimpl.
  now destruct (Float64.ltb tol d).
Qed.

(** Step 5 sets the expected amount to the paid amount. *)
Lemma build_mutation_expected signature user_id plan sol_paid sol_expected m :
  Handler.build_mutation signature user_id plan sol_paid = Ok (sol_expected, m) ->
  sol_expected = sol_paid.
Proof.
  unfold Handler.build_mutation.
  destruct (Handler.classify plan); cbn [rbind]; [|discriminate].
  now intros H; injection H as <- _.
Qed.

(** C4 (as amended).  For every handled event with an integer balance change
    that reaches the verifier: the expected amount is the paid amount; the
    paid amount is a positive finite float, so that the division is defined
    and the relative deviation is [+0.0]; the mutation is posted whatever
    the configured tolerance; and when that tolerance is not negative the
    check logs no warning. *)
Theorem tolerance_check_is_inert merchant tol e signature logs_list
  t1 memo_text t2 (lamports : Z) sol_paid t3 user_id plan sol_expected m :
  Float64.ltb tol Float64.pzero = false ->
  Handler.find_memo e signature logs_list = (t1, Handler.Next memo_text) ->
  Handler.resolve_payment merchant e signature
  = (t2, Handler.Next (PInt lamports, sol_paid)) ->
  Handler.parse_memo memo_text = (t3, Handler.Next (user_id, plan)) ->
  Handler.build_mutation signature user_id plan sol_paid
  = Ok (sol_expected, m) ->
  sol_expected = sol_paid
  /\ 0 < lamports
  /\ (exists mantissa exponent,
        sol_paid = S754_finite false mantissa exponent)
  /\ Handler.deviation sol_paid sol_expected = Ok Float64.pzero
  /\ Handler.check_tolerance tol sol_paid sol_expected
     = ([Handler.Log Handler.INFO
           "Expected %.6f SOL vs paid %.6f SOL (tol=%.2f%%)"],
        Handler.Next tt)
  /\ forall tol',
       posts (Handler.handle_signature merchant tol' e signature logs_list)
       = [m].
Proof.
  intros Htol Hfind Hpay Hparse Hbuild.
  pose proof (build_mutation_expected _ _ _ _ _ _ Hbuild) as ->.
  destruct (resolve_payment_next _ _ _ _ _ _ Hpay)
    as (raw_bal & meta & keys & idx & _ & _ & _ & _ & _ & _ & Hle & Hdiv & _).
  cbn [PyNum.le_zero] in Hle. apply Z.leb_gt in Hle.
  destruct (sol_paid_positive lamports sol_paid Hle Hdiv) as (mant & ex & ->).
  pose proof (deviation_self mant ex) as Hdev.
  split; [reflexivity|]. split; [assumption|].
  split; [now exists mant, ex|]. split; [assumption|]. split.
  - unfold Handler.check_tolerance, Handler.bind. rewrite Hdev. hsimpl.
    now rewrite Htol.
  - intros tol'.
    rewrite posts_handle_signature, Hfind, Hpay, Hparse, Hbuild.
    pose proof (check_tolerance_next tol' _ _ _ Hdev) as Hnext.
    destruct (Handler.check_tolerance tol' (S754_finite false mant ex)
                (S754_finite false mant ex)) as [t5 c5].
    cbn [snd] in Hnext. now rewrite Hnext.
Qed.

Lemma tolerance_check_is_inert_witness :
  Handler.check_tolerance (Float64.of_ratio 5 100)
    (Float64.of_ratio 5 100) (Float64.of_ratio 5 100)
  = ([Handler.Log Handler.INFO
        "Expected %.6f SOL vs paid %.6f SOL (tol=%.2f%%)"],
     Handler.Next tt).
Proof.
  refine (proj1 (proj2 (proj2 (proj2 (proj2
            (tolerance_check_is_inert "Merchant" (Float64.of_ratio 5 100)
               sample_env "Sig" [memo_line "ud:3 pl30"]
               _ _ _ 50000000 _ _ "3" "pl30" _
               (Handler.mutation_of "Sig" "3" (Float64.of_ratio 5 100)
                  (Handler.Subscription "monthly"))
               _ _ _ _ _)))))); vm_compute; reflexivity.
Defined.

(** C4 as stated fails: with a negative tolerance the warning branch is
    taken on every event that reaches the verifier. *)
Lemma negative_tolerance_warns :
  In (Handler.Log Handler.WARNING "Price outside tolerance, forwarding anyway")
     (Handler.handle_signature "Merchant" (Float64.of_ratio (-5) 100)
        sample_env "Sig" [memo_line "ud:3 pl30"]).
Proof. vm_compute. tauto. Qed.

(* ================================================================= *)
(** * Part III.  Further properties of the code *)
(* ================================================================= *)

(** ** Step 4 and step 5: what the decoder accepts *)

Lemma split_from_tokens (s : string) :
  forall tok, has_space tok = false ->
    Forall (fun w => w <> "" /\ has_space w = false) (PyStr.split_from tok s).
Proof.
  induction s as [|c s IH]; intros tok Htok; cbn [PyStr.split_from].
  - destruct tok; cbn; constructor; auto. split; [discriminate | assumption].
  - destruct (PyStr.isspace c) eqn:Hc.
    + destruct tok; cbn [String.length Nat.eqb].
      * now apply IH.
      * constructor; [split; [discriminate | assumption] | now apply IH].
    + apply IH. rewrite has_space_append, Htok. cbn. now rewrite Hc.
Qed.

Lemma first_occurrence (c : ascii) (s : string) :
  has_char c s = true ->
  exists a b, s = a ++ String c b /\ has_char c a = false.
Proof.
  induction s as [|d s IH]; cbn; [discriminate|].
  destruct (Ascii.eqb d c) eqn:Hd; cbn.
  - intros _. apply Ascii.eqb_eq in Hd as ->. now exists "", s.
  - intros H. destruct (IH H) as (a & b & -> & Ha).
    exists (String d a), b. cbn. now rewrite Hd, Ha.
Qed.

Lemma has_char_append (c : ascii) (a b : string) :
  has_char c (a ++ b) = has_char c a || has_char c b.
Proof.
  induction a as [|x a IH]; cbn; [reflexivity|]. now rewrite IH, orb_assoc.
Qed.

(** X1 (step 4 of [handle_signature]): on a memo that is a string, step 4
    never raises, and the user id and plan it hands on are the first two
    whitespace-separated words of the memo, the first without its [ud:]
    prefix; neither holds whitespace and the plan is not empty. *)
Theorem parse_memo_sound (text : string) :
  (forall x, snd (Handler.parse_memo (JStr text)) <> Handler.Raised x)
  /\ forall t user_id plan,
       Handler.parse_memo (JStr text) = (t, Handler.Next (user_id, plan)) ->
       (exists rest, PyStr.split text = ("ud:" ++ user_id) :: plan :: rest)
       /\ has_space user_id = false
       /\ has_space plan = false
       /\ plan <> "".
Proof.
  pose proof (split_from_tokens text "" eq_refl) as Htok.
  fold (PyStr.split text) in Htok.
  unfold Handler.parse_memo.
  destruct (PyStr.split text) as [|p0 [|p1 rest]] eqn:Hsplit;
    cbn [List.length Nat.ltb Nat.leb orb Handler.part nth].
  - split; [intros x; discriminate | intros t u p; discriminate].
  - split; [intros x; discriminate | intros t u p; discriminate].
  - destruct (PyStr.startswith p0 "ud:") eqn:Hud; cbn [negb].
    + destruct (startswith_ud p0 Hud) as [u ->].
      change ("ud:" ++ u) with ("ud" ++ String ":" u).
      rewrite after_colon_cut by reflexivity.
      split; [intros x; discriminate|].
      intros t user_id plan H. cbn in H. injection H as _ <- <-.
      inversion Htok as [|? ? [_ H0] Hrest]; subst.
      inversion Hrest as [|? ? [N1 H1] _]; subst.
      cbn in H0. repeat split; try assumption. now exists rest.
    + split; [intros x; discriminate | intros t u p; discriminate].
Qed.

Lemma parse_memo_sound_witness :
  (exists rest, PyStr.split "ud:3  pl30 gift" = ("ud:" ++ "3") :: "pl30" :: rest)
  /\ has_space "3" = false /\ has_space "pl30" = false /\ "pl30" <> "".
Proof.
  refine (proj2 (parse_memo_sound "ud:3  pl30 gift")
            [Handler.Log Handler.DEBUG "Parsed user_id=%s plan=%s"]
            "3" "pl30" _).
  vm_compute. reflexivity.
Defined.

(** X2 (step 5 of [handle_signature]): building the mutation fails exactly
    on a plan tag that neither starts with [pl] nor holds a colon, and then
    with [IndexError]. *)
Theorem classify_raises_iff (plan : string) (x : exn) :
  Handler.classify plan = Raise x
  <-> x = IndexError
      /\ PyStr.startswith plan "pl" = false
      /\ has_char ":" plan = false.
Proof.
  unfold Handler.classify.
  destruct (PyStr.startswith plan "pl") eqn:Hpl.
  - split; [discriminate | intros (_ & H & _); discriminate].
  - destruct (has_char ":" plan) eqn:Hc.
    + destruct (first_occurrence _ _ Hc) as (a & b & -> & Ha).
      rewrite after_colon_cut by assumption. cbn [rbind].
      split; [discriminate | intros (_ & _ & H); discriminate].
    + rewrite after_colon_none by assumption. cbn [rbind].
      split; [intros H; injection H as <-; auto | intros (-> & _); reflexivity].
Qed.

Lemma classify_raises_iff_witness :
  Handler.classify "ebook42" = Raise IndexError.
Proof.
  refine (proj2 (classify_raises_iff "ebook42" IndexError) _).
  repeat split.
Defined.

(** ** Step 1: the memo in the log lines *)

Lemma search_outside (a r : string) :
  has_char PyStr.dquote a = false ->
  PyStr.search_quoted_from None (a ++ r) = PyStr.search_quoted_from None r.
Proof.
  induction a as [|c a IH]; cbn [append has_char PyStr.search_quoted_from];
    [reflexivity|].
  intros H. apply orb_false_iff in H as [Hc Ha]. rewrite Hc. now apply IH.
Qed.

Lemma search_inside (m : string) :
  has_char PyStr.dquote m = false ->
  forall t r,
    PyStr.search_quoted_from (Some t) (m ++ String PyStr.dquote r)
    = if (String.length (t ++ m) =? 0)%nat
      then PyStr.search_quoted_from (Some "") r
      else Some (t ++ m).
Proof.
  induction m as [|c m IH]; intros Hm t r;
    cbn [append has_char PyStr.search_quoted_from] in *.
  - rewrite Ascii.eqb_refl, append_empty_r.
    destruct (String.length t =? 0)%nat; reflexivity.
  - apply orb_false_iff in Hm as [Hc Hm]. rewrite Hc, IH by assumption.
    now rewrite append_snoc.
Qed.

Lemma search_quotes (k : nat) (r : string) :
  PyStr.search_quoted_from (Some "") (quotes k ++ r)
  = PyStr.search_quoted_from (Some "") r.
Proof.
  induction k as [|k IH]; cbn [quotes append PyStr.search_quoted_from];
    [reflexivity|].
  now rewrite Ascii.eqb_refl.
Qed.

(** The shape of a line on which the search succeeds, from either state of
    the search: outside a quoted text, or inside one with [t] read so far. *)
Lemma search_quoted_from_shape (s : string) :
  forall run m,
    PyStr.search_quoted_from run s = Some m ->
    match run with
    | None =>
        exists p k b,
          has_char PyStr.dquote p = false
          /\ m <> "" /\ has_char PyStr.dquote m = false
          /\ s = p ++ String PyStr.dquote
                      (quotes k ++ m ++ String PyStr.dquote b)
    | Some t =>
        has_char PyStr.dquote t = false ->
        exists k m' b,
          m = t ++ m' /\ m <> "" /\ has_char PyStr.dquote m = false
          /\ (k = O \/ t = "")
          /\ s = quotes k ++ m' ++ String PyStr.dquote b
    end.
Proof.
  induction s as [|c s IH]; intros run m; cbn [PyStr.search_quoted_from];
    [discriminate|].
  destruct (Ascii.eqb c PyStr.dquote) eqn:Hc.
  - apply Ascii.eqb_eq in Hc as ->. destruct run as [t|].
    + destruct (String.length t =? 0)%nat eqn:Ht.
      * destruct t; [|discriminate Ht].
        intros H _.
        destruct (IH _ _ H eq_refl) as (k & m' & b & -> & N & Q & _ & ->).
        exists (S k), m', b.
        split; [reflexivity|]. split; [assumption|]. split; [assumption|].
        split; [now right | reflexivity].
      * intros H Q. injection H as <-. exists O, "", s.
        rewrite append_empty_r.
        split; [reflexivity|]. split; [|split; [assumption|]].
        -- destruct t; [discriminate Ht | discriminate].
        -- split; [now left | reflexivity].
    + intros H.
      destruct (IH _ _ H eq_refl) as (k & m' & b & -> & N & Q & _ & ->).
      exists "", k, b.
      split; [reflexivity|]. split; [assumption|]. split; [assumption|].
      reflexivity.
  - destruct run as [t|].
    + intros H Q.
      assert (Q' : has_char PyStr.dquote (t ++ String c "") = false).
      { rewrite has_char_append, Q. cbn. now rewrite Hc. }
      destruct (IH _ _ H Q') as (k & m' & b & -> & N & Qm & [->|E] & ->).
      * exists O, (String c m'), b. rewrite append_snoc in *.
        split; [reflexivity|]. split; [assumption|]. split; [assumption|].
        split; [now left | reflexivity].
      * destruct t; discriminate E.
    + intros H. destruct (IH _ _ H) as (p & k & b & Qp & N & Q & ->).
      exists (String c p), k, b. cbn [has_char append]. rewrite Hc.
      split; [assumption|]. split; [assumption|]. split; [assumption|].
      reflexivity.
Qed.


(** X3 (the regular expression of step 1): the search on a log line finds
    [m] exactly when [m] is the first text between two double quotes that is
    not empty: the line is a part without double quote, one or more double
    quotes, [m] (not empty, without double quote), a double quote, and
    anything. *)
Theorem search_quoted_spec (s m : string) :
  PyStr.search_quoted s = Some m
  <-> exists p k b,
        has_char PyStr.dquote p = false
        /\ m <> "" /\ has_char PyStr.dquote m = false
        /\ s = p ++ String PyStr.dquote
                    (quotes k ++ m ++ String PyStr.dquote b).
Proof.
  split.
  - apply (search_quoted_from_shape s None m).
  - intros (p & k & b & Qp & N & Qm & ->). unfold PyStr.search_quoted.
    rewrite search_outside by assumption.
    cbn [PyStr.search_quoted_from]. rewrite Ascii.eqb_refl.
    rewrite search_quotes, search_inside by assumption. cbn [append].
    destruct m; [congruence | reflexivity].
Qed.

Lemma search_quoted_spec_witness :
  PyStr.search_quoted
    ("Memo: " ++ String PyStr.dquote
                   (quotes 1 ++ "ud:3 pl30" ++ String PyStr.dquote " done"))
  = Some "ud:3 pl30".
Proof.
  refine (proj2 (search_quoted_spec _ "ud:3 pl30") _).
  exists "Memo: ", 1%nat, " done".
  split; [reflexivity|]. split; [discriminate|]. split; reflexivity.
Defined.


(** X4 (step 1 of [handle_signature]): only the first log line that starts
    with the marker counts.  When the search finds a quoted text in it, that
    is the memo; when it finds none, step 1 ends without a memo, whatever
    the later lines hold. *)
Theorem memo_from_logs_first_marker (pre : list string) (line : string)
  (rest : list string) :
  Forall (fun l => PyStr.startswith l MEMO_MARKER = false) pre ->
  PyStr.startswith line MEMO_MARKER = true ->
  Handler.memo_from_logs (pre ++ line :: rest)
  = match PyStr.search_quoted line with
    | Some memo_text =>
        ([Handler.Log Handler.DEBUG "Parsed memo from logs: %s"],
         Handler.Next (JStr memo_text))
    | None => ([], Handler.Next JNull)
    end.
Proof.
  intros Hpre Hline. induction Hpre as [|l pre Hl _ IH].
  - cbn [app Handler.memo_from_logs]. unfold MEMO_MARKER in Hline.
    rewrite Hline. now destruct (PyStr.search_quoted line).
  - cbn [app Handler.memo_from_logs]. unfold MEMO_MARKER in Hl.
    now rewrite Hl.
Qed.

Lemma memo_from_logs_first_marker_witness :
  Handler.memo_from_logs
    (["Program 11111111111111111111111111111111 invoke [1]"]
       ++ "Program log: Memo (len 9)" :: [memo_line "ud:3 pl30"])
  = match PyStr.search_quoted "Program log: Memo (len 9)" with
    | Some memo_text =>
        ([Handler.Log Handler.DEBUG "Parsed memo from logs: %s"],
         Handler.Next (JStr memo_text))
    | None => ([], Handler.Next JNull)
    end.
Proof.
  refine (memo_from_logs_first_marker
            ["Program 11111111111111111111111111111111 invoke [1]"]
            "Program log: Memo (len 9)" [memo_line "ud:3 pl30"] _ _).
  - repeat constructor.
  - reflexivity.
Defined.

(** ** Step 2: the memo in the instructions *)

Lemma memo_instruction_skipped (ix : list (string * json)) (rest : list json) :
  memo_instruction ix = false ->
  Handler.memo_from_instructions (JObj ix :: rest)
  = Handler.memo_from_instructions rest.
Proof.
  unfold memo_instruction, parsed_memo, raw_memo, field. intros H.
  apply orb_false_iff in H as [Hp Hr].
  cbn [Handler.memo_from_instructions Json.get].
  destruct (Json.lookup "parsed" ix) as [parsed|]; cbn [rbind];
    destruct (Json.lookup "program" ix) as [program|]; cbn [rbind];
    destruct (Json.lookup "programId" ix) as [program_id|]; cbn [rbind];
    repeat match goal with
      | |- context [Json.truthy ?v] =>
          destruct (Json.truthy v); cbn [rbind andb] in *
      | H : Json.eq_str ?v ?s = false |- _ => rewrite H; cbn [rbind]
      | H : false = false |- _ => clear H
      | H : true = false |- _ => discriminate H
      end; try reflexivity.
Qed.

Lemma memo_instructions_skipped (pre : list (list (string * json)))
  (rest : list json) :
  Forall (fun ix => memo_instruction ix = false) pre ->
  Handler.memo_from_instructions (map JObj pre ++ rest)
  = Handler.memo_from_instructions rest.
Proof.
  induction 1 as [|ix pre Hix _ IH]; [reflexivity|].
  cbn [map app]. now rewrite memo_instruction_skipped.
Qed.

(** X5 (the loop of step 2): the loop over the instructions stops at the
    first memo instruction.  Instructions that pass neither test are passed
    over, and with only such instructions there is no memo; the first memo
    instruction decides alone, whatever follows it, and a raw memo
    instruction gives its [data]; an instruction that is not an object,
    reached before any memo instruction, raises [AttributeError]. *)
Theorem first_memo_instruction (pre : list (list (string * json)))
  (rest : list json) :
  Forall (fun ix => memo_instruction ix = false) pre ->
  Handler.memo_from_instructions (map JObj pre) = Ok JNull
  /\ (forall ix,
        memo_instruction ix = true ->
        Handler.memo_from_instructions (map JObj pre ++ JObj ix :: rest)
        = Handler.memo_from_instructions [JObj ix]
        /\ (parsed_memo ix = false ->
            Handler.memo_from_instructions (map JObj pre ++ JObj ix :: rest)
            = Ok (field "data" ix)))
  /\ (forall v,
        Json.is_dict v = false ->
        Handler.memo_from_instructions (map JObj pre ++ v :: rest)
        = Raise AttributeError).
Proof.
  intros Hpre. split; [|split].
  - rewrite <- (app_nil_r (map JObj pre)).
    now rewrite memo_instructions_skipped.
  - intros ix Hix. rewrite memo_instructions_skipped by assumption.
    unfold memo_instruction, parsed_memo, raw_memo, field in *.
    cbn [Handler.memo_from_instructions Json.get].
    destruct (Json.lookup "parsed" ix) as [parsed|]; cbn [rbind];
      destruct (Json.lookup "program" ix) as [program|]; cbn [rbind];
      destruct (Json.lookup "programId" ix) as [program_id|]; cbn [rbind];
      repeat match goal with
        | |- context [Json.truthy ?v] =>
            destruct (Json.truthy v); cbn [rbind andb orb] in *
        | |- context [Json.eq_str ?v ?s] =>
            destruct (Json.eq_str v s); cbn [rbind andb orb] in *
        end;
      try discriminate Hix;
      (split; [reflexivity | try discriminate; try reflexivity]);
      intros _; destruct (Json.lookup "data" ix); reflexivity.
  - intros v Hv. rewrite memo_instructions_skipped by assumption.
    destruct v; try discriminate Hv; reflexivity.
Qed.

Lemma first_memo_instruction_witness :
  Handler.memo_from_instructions
    (map JObj [[("programId", JStr "11111111111111111111111111111111");
                ("parsed", JObj [("type", JStr "transfer")]);
                ("program", JStr "system")]]
       ++ JObj [("programId", JStr Handler.MEMO_PROGRAM_ID);
                ("data", JStr "ud:3 pl30")]
       :: [JObj [("programId", JStr Handler.MEMO_PROGRAM_ID);
                 ("data", JStr "ud:4 pl365")]])
  = Ok (field "data" [("programId", JStr Handler.MEMO_PROGRAM_ID);
                      ("data", JStr "ud:3 pl30")]).
Proof.
  refine (proj2 (proj1 (proj2 (first_memo_instruction _ _ _)) _ _) _).
  - repeat constructor.
  - reflexivity.
  - reflexivity.
Defined.

(** ** The requests of one signature *)

Lemma gets_app (a b : list Handler.action) :
  gets (a ++ b) = (gets a + gets b)%nat.
Proof.
  induction a as [|x a IH]; cbn; [reflexivity|].
  destruct x; cbn; now rewrite IH.
Qed.

Lemma gets_memo_from_logs (logs_list : list string) :
  gets (fst (Handler.memo_from_logs logs_list)) = 0%nat.
Proof.
  induction logs_list as [|line rest IH]; cbn [Handler.memo_from_logs];
    [reflexivity|].
  destruct (PyStr.startswith line "Program log: Memo"); [|assumption].
  now destruct (PyStr.search_quoted line).
Qed.

Lemma gets_memo_from_chain (e : Handler.env) (signature : string) :
  gets (fst (Handler.memo_from_chain e signature)) = 1%nat.
Proof.
  unfold Handler.memo_from_chain, Handler.bind. hsimpl.
  destruct (Handler.tx_response e) as [raw_tx|x]; hsimpl; [|reflexivity].
  match goal with
  | |- context [Handler.lift ?r] => destruct r; hsimpl; reflexivity
  end.
Qed.

(** The memo of the log lines, when there is one, spares the first request. *)
Lemma find_memo_from_logs (e : Handler.env) (signature : string)
  (logs_list : list string) (t : list Handler.action) (memo_text : json) :
  Handler.memo_from_logs logs_list = (t, Handler.Next memo_text) ->
  Json.truthy memo_text = true ->
  Handler.find_memo e signature logs_list = (t, Handler.Next memo_text).
Proof.
  intros H Ht. unfold Handler.find_memo, Handler.bind. rewrite H. hsimpl.
  rewrite Ht. hsimpl. cbn. rewrite Ht. cbn. now rewrite !app_nil_r.
Qed.

Lemma gets_find_memo (e : Handler.env) (signature : string)
  (logs_list : list string) :
  (gets (fst (Handler.find_memo e signature logs_list)) <= 1)%nat.
Proof.
  unfold Handler.find_memo.
  generalize (gets_memo_from_logs logs_list) (gets_memo_from_chain e signature).
  generalize (Handler.memo_from_logs logs_list) as r0.
  generalize (Handler.memo_from_chain e signature) as r1.
  intros r1 [t0 [v| |x]] H0 H1; cbn [fst snd] in *; unfold Handler.bind;
    cbn [fst snd]; try lia.
  destruct (Json.truthy v) eqn:Hv; cbn [negb].
  - cbn. rewrite Hv. cbn. rewrite !gets_app, H0. cbn. lia.
  - destruct r1 as [t1 [w| |x]]; cbn [fst snd] in *; rewrite ?gets_app; try lia.
    destruct (Json.truthy w); cbn; rewrite ?gets_app; cbn; lia.
Qed.

Lemma gets_resolve_payment (merchant : string) (e : Handler.env)
  (signature : string) :
  gets (fst (Handler.resolve_payment merchant e signature)) = 1%nat.
Proof.
  unfold Handler.resolve_payment, Handler.bind. hsimpl.
  repeat match goal with
    | |- context [Handler.lift ?r] => destruct r; hsimpl; try reflexivity
    | |- context [if ?b then _ else _] => destruct b; hsimpl; try reflexivity
    | |- context [match ?o with Some _ => _ | None => _ end] =>
        destruct o; hsimpl; try reflexivity
    end.
Qed.

Lemma gets_parse_memo (memo_text : json) :
  gets (fst (Handler.parse_memo memo_text)) = 0%nat.
Proof.
  unfold Handler.parse_memo, Handler.bind.
  destruct memo_text; try reflexivity.
  repeat match goal with
    | |- context [Handler.lift ?r] => destruct r; hsimpl; try reflexivity
    | |- context [if ?b then _ else _] => destruct b; hsimpl; try reflexivity
    end.
Qed.

Lemma gets_check_tolerance (tol a b : Float64.float) :
  gets (fst (Handler.check_tolerance tol a b)) = 0%nat.
Proof.
  unfold Handler.check_tolerance, Handler.bind. hsimpl.
  destruct (Handler.deviation a b) as [d|x]; hsimpl; [|reflexivity].
  now destruct (Float64.ltb tol d).
Qed.

Lemma gets_forward (e : Handler.env) (m : Handler.mutation) :
  gets (fst (Handler.forward e m)) = 0%nat.
Proof.
  unfold Handler.forward, Handler.bind. hsimpl.
  destruct (Handler.host_response e) as [[st txt]|x]; hsimpl; [|reflexivity].
  now destruct (negb (st =? 200)%Z).
Qed.

(** X6 ([handle_signature]): handling one signature sends at most two
    [getTransaction] requests and posts at most one mutation, whatever the
    ledger and the host answer. *)
Theorem handle_signature_request_bounds (merchant : string)
  (tol : Float64.float) (e : Handler.env) (signature : string)
  (logs_list : list string) :
  (gets (Handler.handle_signature merchant tol e signature logs_list) <= 2)%nat
  /\ (List.length
        (posts (Handler.handle_signature merchant tol e signature logs_list))
      <= 1)%nat.
Proof.
  split.
  - unfold Handler.handle_signature, Handler.handle_signature_body.
    generalize (gets_find_memo e signature logs_list).
    generalize (gets_resolve_payment merchant e signature).
    generalize gets_parse_memo (gets_check_tolerance tol) (gets_forward e).
    generalize (Handler.find_memo e signature logs_list) as r1.
    generalize (Handler.resolve_payment merchant e signature) as r2.
    generalize Handler.parse_memo as f3.
    generalize (Handler.build_mutation signature) as f4.
    generalize (Handler.check_tolerance tol) as f5.
    generalize (Handler.forward e) as f6.
    intros f6 f5 f4 f3 r2 r1 Q3 Q5 Q6 Q2 Q1.
    destruct r1 as [t1 [memo_text| |x1]]; cbn [fst snd] in Q1;
      cbn; rewrite ?gets_app; cbn; try lia.
    destruct r2 as [t2 [[lamports sol_paid]| |x2]]; cbn [fst snd] in Q2;
      cbn; rewrite ?gets_app; cbn; try lia.
    specialize (Q3 memo_text).
    destruct (f3 memo_text) as [t3 [[user_id plan]| |x3]]; cbn [fst snd] in Q3;
      cbn; rewrite ?gets_app; cbn; try lia.
    destruct (f4 user_id plan sol_paid) as [[sol_expected m]|x4];
      cbn; rewrite ?gets_app; cbn; try lia.
    specialize (Q5 sol_paid sol_expected). specialize (Q6 m).
    destruct (f5 sol_paid sol_expected) as [t5 [[]| |x5]]; cbn [fst snd] in Q5;
      cbn; rewrite ?gets_app; cbn; try lia.
    destruct (f6 m) as [t6 [[]| |x6]]; cbn [fst snd] in Q6;
      cbn; rewrite ?gets_app; cbn; lia.
  - rewrite posts_handle_signature.
    repeat match goal with
      | |- context [match ?x with _ => _ end] => destruct x; cbn; try lia
      end.
Qed.

Lemma handle_signature_request_bounds_witness :
  (gets (Handler.handle_signature "Merchant" (Float64.of_ratio 5 100)
           sample_env "Sig" []) <= 2)%nat.
Proof.
  exact (proj1 (handle_signature_request_bounds "Merchant"
                  (Float64.of_ratio 5 100) sample_env "Sig" [])).
Defined.

(** X7 (steps 1 and 2 of [handle_signature]): when the log lines carry the
    memo, the [getTransaction] request of step 2 is not made: what the
    handler does is the same whatever that request would have answered, and
    exactly one request (the one of step 3) is sent. *)
Theorem memo_in_logs_skips_lookup (merchant : string) (tol : Float64.float)
  (e : Handler.env) (signature : string) (logs_list : list string)
  (t : list Handler.action) (memo_text : string) (other : result json) :
  Handler.memo_from_logs logs_list = (t, Handler.Next (JStr memo_text)) ->
  memo_text <> "" ->
  Handler.handle_signature merchant tol e signature logs_list
  = Handler.handle_signature merchant tol
      {| Handler.tx_response := other;
         Handler.balances_response := Handler.balances_response e;
         Handler.host_response := Handler.host_response e |}
      signature logs_list
  /\ gets (Handler.handle_signature merchant tol e signature logs_list) = 1%nat.
Proof.
  intros Hlogs Hne.
  assert (Ht : Json.truthy (JStr memo_text) = true) by now destruct memo_text.
  split.
  - unfold Handler.handle_signature, Handler.handle_signature_body.
    rewrite !(find_memo_from_logs _ _ _ _ _ Hlogs Ht). reflexivity.
  - pose proof (gets_memo_from_logs logs_list) as G0. rewrite Hlogs in G0.
    cbn [fst] in G0.
    unfold Handler.handle_signature, Handler.handle_signature_body.
    rewrite (find_memo_from_logs _ _ _ _ _ Hlogs Ht).
    generalize (gets_resolve_payment merchant e signature).
    generalize gets_parse_memo (gets_check_tolerance tol) (gets_forward e).
    generalize (Handler.resolve_payment merchant e signature) as r2.
    generalize Handler.parse_memo as f3.
    generalize (Handler.build_mutation signature) as f4.
    generalize (Handler.check_tolerance tol) as f5.
    generalize (Handler.forward e) as f6.
    intros f6 f5 f4 f3 r2 Q3 Q5 Q6 Q2.
    destruct r2 as [t2 [[lamports sol_paid]| |x2]]; cbn [fst snd] in Q2;
      cbn; rewrite ?gets_app; cbn; try lia.
    specialize (Q3 (JStr memo_text)).
    destruct (f3 (JStr memo_text)) as [t3 [[user_id plan]| |x3]];
      cbn [fst snd] in Q3; cbn; rewrite ?gets_app; cbn; try lia.
    destruct (f4 user_id plan sol_paid) as [[sol_expected m]|x4];
      cbn; rewrite ?gets_app; cbn; try lia.
    specialize (Q5 sol_paid sol_expected). specialize (Q6 m).
    destruct (f5 sol_paid sol_expected) as [t5 [[]| |x5]]; cbn [fst snd] in Q5;
      cbn; rewrite ?gets_app; cbn; try lia.
    destruct (f6 m) as [t6 [[]| |x6]]; cbn [fst snd] in Q6;
      cbn; rewrite ?gets_app; cbn; lia.
Qed.

Lemma memo_in_logs_skips_lookup_witness :
  gets (Handler.handle_signature "Merchant" (Float64.of_ratio 5 100)
          sample_env "Sig" [memo_line "ud:3 pl30"]) = 1%nat.
Proof.
  refine (proj2 (memo_in_logs_skips_lookup "Merchant" (Float64.of_ratio 5 100)
                   sample_env "Sig" [memo_line "ud:3 pl30"]
                   [Handler.Log Handler.DEBUG "Parsed memo from logs: %s"]
                   "ud:3 pl30" (Ok JNull) _ _)).
  - vm_compute. reflexivity.
  - discriminate.
Defined.

(** X8 (step 3 of [handle_signature]): a [getTransaction] answer without
    [result], or whose [result] is an object with no [meta] or an empty one,
    is skipped with a debug record.  An answer whose [result] is [null]
    raises [AttributeError] in step 3; the handler then ends, right after
    that request, with the error record of its [except] clause. *)
Theorem unresolved_transaction (merchant : string) (tol : Float64.float)
  (e : Handler.env) (signature : string) (logs_list : list string)
  (fields : list (string * json)) :
  Handler.balances_response e = Ok (JObj fields) ->
  (Json.lookup "result" fields = None ->
   Handler.resolve_payment merchant e signature
   = ([Handler.GetTransaction signature;
       Handler.Log Handler.DEBUG "No meta for %s, skipping"],
      Handler.Return))
  /\ (forall res,
        Json.lookup "result" fields = Some (JObj res) ->
        match Json.lookup "meta" res with
        | Some meta => Json.truthy meta = false
        | None => True
        end ->
        Handler.resolve_payment merchant e signature
        = ([Handler.GetTransaction signature;
            Handler.Log Handler.DEBUG "No meta for %s, skipping"],
           Handler.Return))
  /\ (Json.lookup "result" fields = Some JNull ->
      Handler.resolve_payment merchant e signature
      = ([Handler.GetTransaction signature], Handler.Raised AttributeError)
      /\ forall t memo_text,
           Handler.find_memo e signature logs_list = (t, Handler.Next memo_text) ->
           Handler.handle_signature merchant tol e signature logs_list
           = (Handler.Log Handler.DEBUG "Handling signature %s"
                :: t ++ [Handler.GetTransaction signature;
                         Handler.Log Handler.ERROR "Error in handle_signature"])%list).
Proof.
  intros He. split; [|split].
  - intros Hres.
    unfold Handler.resolve_payment, Handler.bind, Handler.transaction_meta,
      Json.get. rewrite He. hsimpl. rewrite Hres. reflexivity.
  - intros res Hres Hmeta.
    unfold Handler.resolve_payment, Handler.bind, Handler.transaction_meta,
      Json.get. rewrite He. hsimpl. rewrite Hres. cbn [rbind].
    destruct (Json.lookup "meta" res) as [meta|]; hsimpl;
      [rewrite Hmeta|]; reflexivity.
  - intros Hres.
    assert (Hr : Handler.resolve_payment merchant e signature
                 = ([Handler.GetTransaction signature],
                    Handler.Raised AttributeError)).
    { unfold Handler.resolve_payment, Handler.bind, Handler.transaction_meta,
        Json.get. rewrite He. hsimpl. rewrite Hres. reflexivity. }
    split; [assumption|]. intros t memo_text Hfind.
    unfold Handler.handle_signature, Handler.handle_signature_body,
      Handler.bind.
    rewrite Hfind. cbn [fst snd Handler.log]. rewrite Hr. cbn [fst snd app].
    now rewrite <- app_assoc.
Qed.

Lemma unresolved_transaction_witness :
  Handler.handle_signature "Merchant" (Float64.of_ratio 5 100)
    sample_env_unresolved "Sig" [memo_line "ud:3 pl30"]
  = (Handler.Log Handler.DEBUG "Handling signature %s"
       :: [Handler.Log Handler.DEBUG "Parsed memo from logs: %s"]
       ++ [Handler.GetTransaction "Sig";
           Handler.Log Handler.ERROR "Error in handle_signature"])%list.
Proof.
  refine (proj2 (proj2 (proj2
            (unresolved_transaction "Merchant" (Float64.of_ratio 5 100)
               sample_env_unresolved "Sig" [memo_line "ud:3 pl30"]
               _ eq_refl)) eq_refl)
            _ (JStr "ud:3 pl30") _).
  vm_compute. reflexivity.
Defined.

(** ** From the session to the completion *)








(** ** Step 3: the account keys *)

(** X11 ([keys.index] in step 3): the index found for the merchant is the
    first position of the list that holds the merchant's address as a
    string, and none is found exactly when no position does. *)
Theorem index_of_spec (s : string) (keys : list json) :
  (forall i,
      Handler.index_of s keys = Some i <->
      nth_error keys i = Some (JStr s)
      /\ forall j k, (j < i)%nat -> nth_error keys j = Some k -> k <> JStr s)
  /\ (Handler.index_of s keys = None <-> ~ In (JStr s) keys).
Proof.
  assert (Heq : forall k, Json.eq_str k s = true <-> k = JStr s).
  { intros k. destruct k; cbn; try (split; [discriminate | intros [=]]).
    rewrite String.eqb_eq. split; [now intros -> | now intros [= ->]]. }
  induction keys as [|k keys [IHsome IHnone]]; cbn [Handler.index_of].
  - split.
    + intros i. split; [discriminate|]. intros [H _]. now destruct i.
    + split; [auto | reflexivity].
  - destruct (Json.eq_str k s) eqn:Hk.
    + apply Heq in Hk as ->. split.
      * intros i. split.
        -- intros [= <-]. split; [reflexivity|]. intros j k Hj. lia.
        -- intros [Hi Hfirst]. destruct i as [|i]; [reflexivity|].
           exfalso. now apply (Hfirst 0%nat (JStr s) ltac:(lia)).
      * split; [discriminate|]. intros H. exfalso. apply H. now left.
    + assert (Hne : k <> JStr s).
      { intros E. apply Heq in E. congruence. }
      split.
      * intros i. destruct (Handler.index_of s keys) as [i'|].
        -- split.
           ++ intros [= <-]. destruct (proj1 (IHsome i') eq_refl) as [Hi Hfirst].
              split; [exact Hi|].
              intros [|j] k' Hj; cbn; [now intros [= <-]|].
              intros Hk'. apply (Hfirst j); [lia | assumption].
           ++ intros [Hi Hfirst]. destruct i as [|i]; cbn in Hi.
              ** injection Hi as E. contradiction.
              ** assert (E : Some i' = Some i); [|injection E as ->; reflexivity].
                 apply IHsome. split; [assumption|].
                 intros j k' Hj Hk'. apply (Hfirst (S j)); [lia | assumption].
        -- split; [discriminate|]. intros [Hi _].
           destruct i as [|i]; cbn in Hi.
           ++ injection Hi as E. contradiction.
           ++ exfalso. apply nth_error_In in Hi.
              now apply (proj1 IHnone eq_refl).
      * destruct (Handler.index_of s keys) as [i'|].
        -- split; [discriminate|]. intros H. exfalso. apply H. right.
           destruct (proj1 (IHsome i') eq_refl) as [Hi _].
           eapply nth_error_In, Hi.
        -- split; [|reflexivity]. intros _ [E|Hin]; [congruence|].
           now apply (proj1 IHnone eq_refl).
Qed.

Lemma index_of_spec_witness :
  Handler.index_of "Merchant"
    [JStr "Payer"; JStr "Merchant"; JStr "Merchant"] = Some 1%nat.
Proof.
  refine (proj2 (proj1 (index_of_spec "Merchant"
                          [JStr "Payer"; JStr "Merchant"; JStr "Merchant"])
                   1%nat) _).
  split; [reflexivity|].
  intros [|j] k Hj; [intros [= <-]; discriminate | lia].
Defined.

Lemma index_of_addresses (merchant : string) (addresses : list string) :
  forall i,
    Handler.index_of merchant (map JStr addresses) = Some i ->
    nth_error addresses i = Some merchant.
Proof.
  induction addresses as [|a addresses IH]; cbn [map Handler.index_of Json.eq_str];
    [discriminate|].
  intros i. destruct (String.eqb a merchant) eqn:Ha.
  - intros [= <-]. apply String.eqb_eq in Ha as ->. reflexivity.
  - destruct (Handler.index_of merchant (map JStr addresses)) as [i'|];
      [|discriminate].
    intros [= <-]. cbn. now apply IH.
Qed.

(** X12 (the list of keys in step 3): the addresses are read alike from both
    encodings of the account keys, the plain string and the object with a
    [pubkey], in their order; so the index found for the merchant is a
    position that holds the merchant's address. *)
Theorem account_keys_both_encodings (addresses : list string)
  (keys_data : list json) (merchant : string) :
  Forall2 key_entry addresses keys_data ->
  Handler.account_keys keys_data = Ok (map JStr addresses)
  /\ forall i,
       Handler.index_of merchant (map JStr addresses) = Some i ->
       nth_error addresses i = Some merchant.
Proof.
  intros H. split; [|apply index_of_addresses].
  induction H as [|a k addresses keys_data Hk _ IH]; [reflexivity|].
  cbn [Handler.account_keys map]. rewrite IH.
  destruct Hk as [|fields Hf]; cbn; [reflexivity|].
  now rewrite Hf.
Qed.

Lemma account_keys_both_encodings_witness :
  Handler.account_keys
    [JStr "Payer";
     JObj [("pubkey", JStr "Merchant"); ("signer", JBool false)]]
  = Ok (map JStr ["Payer"; "Merchant"]).
Proof.
  refine (proj1 (account_keys_both_encodings ["Payer"; "Merchant"] _
                   "Merchant" _)).
  repeat constructor.
Defined.

(** X13 (the list of keys in step 3): building the list of keys fails only
    with [KeyError], and exactly when one of the account keys is an object
    without [pubkey]; otherwise the list has one key for each account key. *)
Theorem account_keys_raises_iff (keys_data : list json) :
  (forall x,
      Handler.account_keys keys_data = Raise x <->
      x = KeyError
      /\ exists fields,
           In (JObj fields) keys_data /\ Json.lookup "pubkey" fields = None)
  /\ (forall keys,
        Handler.account_keys keys_data = Ok keys ->
        List.length keys = List.length keys_data).
Proof.
  induction keys_data as [|k keys_data [IHr IHo]]; cbn [Handler.account_keys].
  - split.
    + intros x. split; [discriminate | intros (_ & f & [] & _)].
    + now intros keys [= <-].
  - assert (Hk : (exists key, (if Json.is_dict k then Json.item k "pubkey"
                               else Ok k) = Ok key
                              /\ forall fields, k = JObj fields ->
                                   Json.lookup "pubkey" fields <> None)
                 \/ ((if Json.is_dict k then Json.item k "pubkey" else Ok k)
                     = Raise KeyError
                     /\ exists fields, k = JObj fields
                          /\ Json.lookup "pubkey" fields = None)).
    { destruct k; cbn; try (left; eexists; split; [reflexivity | discriminate]).
      destruct (Json.lookup "pubkey" fields) as [v|] eqn:Hv.
      - left. exists v. split; [reflexivity|]. intros f [= <-]. congruence.
      - right. split; [reflexivity|]. now exists fields. }
    destruct Hk as [(key & -> & Hok) | (-> & fields & -> & Hnone)]; cbn [rbind].
    + destruct (Handler.account_keys keys_data) as [keys|y]; cbn [rbind].
      * split.
        -- intros x. split; [discriminate|].
           intros (-> & f & [E|Hin] & Hf).
           ++ exfalso. now apply (Hok f).
           ++ exfalso.
              assert (E : @Ok (list json) keys = Raise KeyError); [|discriminate].
              apply IHr. split; [reflexivity|]. now exists f.
        -- intros keys' [= <-]. cbn. f_equal. now apply IHo.
      * split.
        -- intros x. split.
           ++ intros [= <-]. destruct (proj1 (IHr y) eq_refl) as (-> & f & Hin & Hf).
              split; [reflexivity|]. exists f. split; [now right | assumption].
           ++ intros (-> & _). f_equal.
              now destruct (proj1 (IHr y) eq_refl) as (-> & _).
        -- discriminate.
    + split.
      * intros x. split.
        -- intros [= <-]. split; [reflexivity|]. exists fields.
           split; [now left | assumption].
        -- now intros (-> & _).
      * discriminate.
Qed.

Lemma account_keys_raises_iff_witness :
  Handler.account_keys [JStr "Payer"; JObj [("address", JStr "Merchant")]]
  = Raise KeyError.
Proof.
  refine (proj2 (proj1 (account_keys_raises_iff
                          [JStr "Payer"; JObj [("address", JStr "Merchant")]])
                   KeyError) _).
  split; [reflexivity|].
  exists [("address", JStr "Merchant")]. split; [right; left|]; reflexivity.
Defined.

(** ** Session encoder: the record, the URL and the errors *)

Lemma create_sub_session_quoted (MERCHANT : string)
  (float_str : Float64.float -> string) (quote : string -> string)
  (e : PriceCheck.env) (user_id purchase_type : string) :
  MERCHANT <> "" ->
  let monthly := String.eqb (PyStr.lower purchase_type) "monthly" in
  PriceCheck.create_sub_session MERCHANT float_str quote e user_id purchase_type
  = rbind (quoted_amount e "getSubscriptionPricing"
             (if monthly then "monthlyPrice" else "yearlyPrice"))
      (fun amount_sol =>
         Ok (session_record MERCHANT float_str quote (PriceCheck.random_ref e)
               "lumedot plus" "Subscription"
               (PriceCheck.memo_of user_id (if monthly then "pl30" else "pl365"))
               amount_sol)).
Proof.
  intros HM monthly. subst monthly.
  unfold PriceCheck.create_sub_session, quoted_amount.
  destruct MERCHANT as [|c M]; [congruence|]. cbn [String.length Nat.eqb].
  destruct (PriceCheck.pricing_response e) as [resp|x]; [|reflexivity].
  cbn [rbind].
  destruct (Json.item resp "data") as [data|x]; [|reflexivity]. cbn [rbind].
  destruct (Json.item data "getSubscriptionPricing") as [subp|x];
    [|reflexivity]. cbn [rbind].
  destruct (String.eqb (PyStr.lower purchase_type) "monthly");
    match goal with
    | |- context [Json.item subp ?f] =>
        destruct (Json.item subp f) as [usd|x]; [|reflexivity]
    end;
    cbn [rbind];
    (destruct (PriceCheck.sol_price e) as [price|x]; [|reflexivity]);
    cbn [rbind];
    (destruct (Json.truediv usd price) as [ratio|x]; [|reflexivity]);
    cbn [rbind];
    (destruct (Float64.round6 ratio) as [amount_sol|x]; reflexivity).
Qed.

Lemma create_title_session_quoted (MERCHANT : string)
  (float_str : Float64.float -> string) (quote : string -> string)
  (e : PriceCheck.env) (user_id book_id purchase_type : string) :
  MERCHANT <> "" ->
  let ebook := String.eqb (PyStr.lower purchase_type) "ebook" in
  PriceCheck.create_title_session MERCHANT float_str quote e user_id book_id
    purchase_type
  = rbind (quoted_amount e "getTitlePricing"
             (if ebook then "ebook_price" else "audiobook_price"))
      (fun amount_sol =>
         Ok (session_record MERCHANT float_str quote (PriceCheck.random_ref e)
               "lumedot title"
               (if ebook then "eBook purchase" else "Audiobook purchase")
               (PriceCheck.memo_of user_id
                  (if ebook then "eb:" ++ book_id else "au:" ++ book_id))
               amount_sol)).
Proof.
  intros HM ebook. subst ebook.
  unfold PriceCheck.create_title_session, quoted_amount.
  destruct MERCHANT as [|c M]; [congruence|]. cbn [String.length Nat.eqb].
  destruct (PriceCheck.pricing_response e) as [resp|x]; [|reflexivity].
  cbn [rbind].
  destruct (Json.item resp "data") as [data|x]; [|reflexivity]. cbn [rbind].
  destruct (Json.item data "getTitlePricing") as [pr|x];
    [|reflexivity]. cbn [rbind].
  destruct (String.eqb (PyStr.lower purchase_type) "ebook");
    match goal with
    | |- context [Json.item pr ?f] =>
        destruct (Json.item pr f) as [usd|x]; [|reflexivity]
    end;
    cbn [rbind];
    (destruct (PriceCheck.sol_price e) as [price|x]; [|reflexivity]);
    cbn [rbind];
    (destruct (Json.truediv usd price) as [ratio|x]; [|reflexivity]);
    cbn [rbind];
    (destruct (Float64.round6 ratio) as [amount_sol|x]; reflexivity).
Qed.

Lemma merchant_empty_or_not (MERCHANT : string) :
  {MERCHANT = ""} + {MERCHANT <> ""}.
Proof. destruct MERCHANT; [left; reflexivity | right; discriminate]. Qed.

(** X14 ([create_sub_session], [create_title_session]): the payable URL of a
    session is built from the very fields the session returns: the
    recipient, which is the configured merchant and is not empty, and the
    amount, reference, label, message and memo as query parameters in this
    order. *)
Theorem session_url_matches_fields (MERCHANT : string)
  (float_str : Float64.float -> string) (quote : string -> string)
  (e : PriceCheck.env)
  (user_id book_id purchase_type : string) (s : PriceCheck.session) :
  PriceCheck.create_sub_session MERCHANT float_str quote e user_id purchase_type
  = Ok s
  \/ PriceCheck.create_title_session MERCHANT float_str quote e user_id book_id
       purchase_type = Ok s ->
  PriceCheck.solanaPayUrl s
  = "solana:" ++ PriceCheck.recipient s ++ "?"
    ++ PriceCheck.urlencode quote
         [("amount", float_str (PriceCheck.amount s));
          ("reference", PriceCheck.reference s);
          ("label", PriceCheck.label s);
          ("message", PriceCheck.message s);
          ("memo", PriceCheck.memo s)]
  /\ PriceCheck.recipient s = MERCHANT
  /\ MERCHANT <> ""
  /\ PriceCheck.reference s = PriceCheck.random_ref e.
Proof.
  destruct (merchant_empty_or_not MERCHANT) as [->|HM].
  - intros [H|H]; discriminate H.
  - intros [H|H];
      [rewrite create_sub_session_quoted in H by assumption
      |rewrite create_title_session_quoted in H by assumption];
      match type of H with
      | rbind ?q _ = _ => destruct q as [amount_sol|x]; [|discriminate H]
      end;
      cbn [rbind] in H; injection H as <-; repeat split; assumption.
Qed.

Lemma session_url_matches_fields_witness :
  PriceCheck.solanaPayUrl sample_title_session
  = "solana:" ++ PriceCheck.recipient sample_title_session ++ "?"
    ++ PriceCheck.urlencode (fun s => s)
         [("amount", "0.0999");
          ("reference", PriceCheck.reference sample_title_session);
          ("label", PriceCheck.label sample_title_session);
          ("message", PriceCheck.message sample_title_session);
          ("memo", PriceCheck.memo sample_title_session)].
Proof.
  refine (proj1 (session_url_matches_fields "Merchant" (fun _ => "0.0999")
                   (fun s => s) sample_pricing "3" "42" "eBook"
                   sample_title_session (or_intror _))).
  vm_compute. reflexivity.
Defined.

(** X15 ([create_sub_session], [create_title_session]): a session creation
    fails in two ways only: with [RuntimeError] when no merchant is
    configured, before anything is asked; and otherwise with exactly what
    the pricing lookup, the oracle, the division or the rounding raises. *)
Theorem session_failures (MERCHANT : string)
  (float_str : Float64.float -> string) (quote : string -> string)
  (e : PriceCheck.env)
  (user_id book_id purchase_type : string) (x : exn) :
  (PriceCheck.create_sub_session MERCHANT float_str quote e user_id purchase_type
   = Raise x
   <-> (MERCHANT = "" /\ x = RuntimeError "MERCHANT_WALLET not set")
       \/ (MERCHANT <> ""
           /\ quoted_amount e "getSubscriptionPricing"
                (if String.eqb (PyStr.lower purchase_type) "monthly"
                 then "monthlyPrice" else "yearlyPrice") = Raise x))
  /\ (PriceCheck.create_title_session MERCHANT float_str quote e user_id book_id
        purchase_type = Raise x
      <-> (MERCHANT = "" /\ x = RuntimeError "MERCHANT_WALLET not set")
          \/ (MERCHANT <> ""
              /\ quoted_amount e "getTitlePricing"
                   (if String.eqb (PyStr.lower purchase_type) "ebook"
                    then "ebook_price" else "audiobook_price") = Raise x)).
Proof.
  destruct (merchant_empty_or_not MERCHANT) as [->|HM].
  - split; (split;
      [intros [= <-]; left; split; reflexivity
      |intros [[_ ->]|[N _]]; [reflexivity | congruence]]).
  - rewrite create_sub_session_quoted, create_title_session_quoted by assumption.
    cbv zeta.
    split;
      match goal with
      | |- rbind ?q _ = _ <-> _ => destruct q as [amount_sol|y]
      end; cbn [rbind]; split.
    + discriminate.
    + intros [[E _]|[_ H]]; [congruence | discriminate H].
    + intros [= <-]. right. now split.
    + intros [[E _]|[_ [= <-]]]; [congruence | reflexivity].
    + discriminate.
    + intros [[E _]|[_ H]]; [congruence | discriminate H].
    + intros [= <-]. right. now split.
    + intros [[E _]|[_ [= <-]]]; [congruence | reflexivity].
Qed.

Lemma session_failures_witness :
  PriceCheck.create_title_session "" (fun _ => "0.0999") (fun s => s)
    sample_pricing "3" "42" "ebook"
  = Raise (RuntimeError "MERCHANT_WALLET not set").
Proof.
  refine (proj2 (proj2 (session_failures "" (fun _ => "0.0999") (fun s => s)
                          sample_pricing "3" "42" "ebook"
                          (RuntimeError "MERCHANT_WALLET not set")))
            (or_introl (conj eq_refl eq_refl))).
Defined.

Lemma quoted_amount_usd (e : PriceCheck.env) (query_name price_field : string) :
  quoted_amount e query_name price_field
  = (usd <- quoted_usd e query_name price_field ;;
     price <- PriceCheck.sol_price e ;;
     ratio <- Json.truediv usd price ;;
     Float64.round6 ratio)%result.
Proof.
  unfold quoted_amount, quoted_usd.
  destruct (PriceCheck.pricing_response e) as [resp|x]; [|reflexivity].
  cbn [rbind].
  destruct (Json.item resp "data") as [data|x]; [|reflexivity]. cbn [rbind].
  destruct (Json.item data query_name) as [pricing|x]; reflexivity.
Qed.

Lemma truediv_zero (usd price : json) (n : pynum) (f : Float64.float) :
  Json.number usd = Ok n ->
  PyNum.to_float n = Ok f ->
  zero_number price ->
  Json.truediv usd price = Raise ZeroDivisionError.
Proof.
  intros Hn Hf Hz. unfold Json.truediv. rewrite Hn. cbn [rbind].
  destruct Hz as [-> | [-> | [sign ->]]]; cbn [Json.number rbind].
  - destruct n as [x|g]; [reflexivity|].
    cbn in Hf. injection Hf as <-. reflexivity.
  - destruct n as [x|g]; [reflexivity|].
    cbn in Hf. injection Hf as <-. reflexivity.
  - unfold PyNum.truediv.
    destruct n as [x|g]; rewrite Hf; reflexivity.
Qed.

(** X16 ([create_sub_session], [create_title_session]): when the oracle
    gives a spot price of zero and the pricing lookup gives a number that
    converts to a float, both session creations raise [ZeroDivisionError]
    and return no session. *)
Theorem zero_spot_price_raises (MERCHANT : string)
  (float_str : Float64.float -> string) (quote : string -> string)
  (e : PriceCheck.env)
  (user_id book_id purchase_type : string) (price : json) :
  MERCHANT <> "" ->
  PriceCheck.sol_price e = Ok price ->
  zero_number price ->
  (forall usd n f,
      quoted_usd e "getSubscriptionPricing"
        (if String.eqb (PyStr.lower purchase_type) "monthly"
         then "monthlyPrice" else "yearlyPrice") = Ok usd ->
      Json.number usd = Ok n -> PyNum.to_float n = Ok f ->
      PriceCheck.create_sub_session MERCHANT float_str quote e
        user_id purchase_type = Raise ZeroDivisionError)
  /\ (forall usd n f,
        quoted_usd e "getTitlePricing"
          (if String.eqb (PyStr.lower purchase_type) "ebook"
           then "ebook_price" else "audiobook_price") = Ok usd ->
        Json.number usd = Ok n -> PyNum.to_float n = Ok f ->
        PriceCheck.create_title_session MERCHANT float_str quote e
          user_id book_id purchase_type = Raise ZeroDivisionError).
Proof.
  intros HM Hprice Hz. split; intros usd n f Husd Hn Hf.
  - rewrite create_sub_session_quoted by assumption. cbv zeta.
    rewrite quoted_amount_usd, Husd. cbn [rbind]. rewrite Hprice. cbn [rbind].
    now rewrite (truediv_zero usd price n f).
  - rewrite create_title_session_quoted by assumption. cbv zeta.
    rewrite quoted_amount_usd, Husd. cbn [rbind]. rewrite Hprice. cbn [rbind].
    now rewrite (truediv_zero usd price n f).
Qed.

Lemma zero_spot_price_raises_witness :
  PriceCheck.create_sub_session "Merchant" (fun _ => "0.0999") (fun s => s)
    sample_pricing_zero "3" "yearly" = Raise ZeroDivisionError.
Proof.
  refine (proj1 (zero_spot_price_raises "Merchant" (fun _ => "0.0999")
                   (fun s => s) sample_pricing_zero "3" "42" "yearly"
                   (JInt 0) _ eq_refl (or_introl eq_refl))
            (JFloat (Float64.of_ratio 999 10))
            (PFloat (Float64.of_ratio 999 10))
            (Float64.of_ratio 999 10) eq_refl eq_refl eq_refl).
  discriminate.
Defined.

(** ** Price oracle client *)

(** X17 ([get_sol_price] and its callers): the oracle client returns a
    price exactly when the request succeeds, the status is no client or
    server error, and the body holds [solana] and under it [usd]; every
    failure is logged once and raised again unchanged, and a subscription
    session whose pricing lookup succeeded then fails with the same
    exception. *)
Theorem oracle_failure_is_passed_on (MERCHANT : string)
  (float_str : Float64.float -> string) (quote : string -> string)
  (e : PriceCheck.env)
  (user_id purchase_type : string) (answer : result Coingecko.response)
  (usd : json) :
  MERCHANT <> "" ->
  quoted_usd e "getSubscriptionPricing"
    (if String.eqb (PyStr.lower purchase_type) "monthly"
     then "monthlyPrice" else "yearlyPrice") = Ok usd ->
  PriceCheck.sol_price e = snd (Coingecko.get_sol_price answer) ->
  (forall price,
      snd (Coingecko.get_sol_price answer) = Ok price <->
      exists r body solana,
        answer = Ok r
        /\ (Coingecko.status_code r < 400 \/ 600 <= Coingecko.status_code r)
        /\ Coingecko.json_body r = Ok body
        /\ Json.item body "solana" = Ok solana
        /\ Json.item solana "usd" = Ok price)
  /\ (forall x,
        snd (Coingecko.get_sol_price answer) = Raise x ->
        fst (Coingecko.get_sol_price answer)
        = [(Handler.ERROR, "coingecko error: %s")]
        /\ (forall y, answer = Raise y -> x = y)
        /\ PriceCheck.create_sub_session MERCHANT float_str quote e
             user_id purchase_type = Raise x).
Proof.
  intros HM Husd Hsol. split.
  - intros price. unfold Coingecko.get_sol_price, Coingecko.raise_for_status.
    destruct answer as [r|y]; cbn [rbind];
      [|split; [discriminate | intros (r' & _ & _ & H & _); discriminate H]].
    assert (Hst : (400 <=? Coingecko.status_code r)
                  && (Coingecko.status_code r <? 600) = false
                  <-> Coingecko.status_code r < 400
                      \/ 600 <= Coingecko.status_code r).
    { rewrite andb_false_iff, Z.leb_gt, Z.ltb_ge. reflexivity. }
    destruct ((400 <=? Coingecko.status_code r)
              && (Coingecko.status_code r <? 600)) eqn:Hs; cbn [rbind].
    { split; [discriminate|].
      intros (r' & b & s & [= <-] & Hr & _). apply Hst in Hr. discriminate Hr. }
    destruct (Coingecko.json_body r) as [body|y] eqn:Hb; cbn [rbind];
      [|split; [discriminate
               |intros (r' & b & s & [= <-] & _ & Hb' & _); congruence]].
    destruct (Json.item body "solana") as [solana|y] eqn:Hso; cbn [rbind];
      [|split; [discriminate
               |intros (r' & b & s & [= <-] & _ & Hb' & Hs' & _); congruence]].
    destruct (Json.item solana "usd") as [p|y] eqn:Hp; cbn [snd].
    + split.
      * intros [= <-]. exists r, body, solana.
        repeat split; try assumption. now apply Hst.
      * intros (r' & b & s & [= <-] & _ & Hb' & Hs' & Hp').
        rewrite Hb in Hb'. injection Hb' as <-.
        rewrite Hso in Hs'. injection Hs' as <-. congruence.
    + split; [discriminate|].
      intros (r' & b & s & [= <-] & _ & Hb' & Hs' & Hp').
      rewrite Hb in Hb'. injection Hb' as <-.
      rewrite Hso in Hs'. injection Hs' as <-. congruence.
  - intros x Hx. split; [|split].
    + unfold Coingecko.get_sol_price in *.
      match goal with
      | |- context [match ?a with Ok _ => _ | Raise _ => _ end] =>
          destruct a; [discriminate Hx | reflexivity]
      end.
    + intros y ->. cbn in Hx. now injection Hx as <-.
    + rewrite create_sub_session_quoted by assumption. cbv zeta.
      rewrite quoted_amount_usd, Husd. cbn [rbind].
      now rewrite Hsol, Hx.
Qed.

Lemma oracle_failure_is_passed_on_witness :
  PriceCheck.create_sub_session "Merchant" (fun _ => "0.0999") (fun s => s)
    sample_pricing_no_oracle "3" "monthly" = Raise RequestException.
Proof.
  refine (proj2 (proj2 (proj2
            (oracle_failure_is_passed_on "Merchant" (fun _ => "0.0999")
               (fun s => s) sample_pricing_no_oracle "3" "monthly"
               (Ok {| Coingecko.status_code := 429;
                      Coingecko.json_body := Ok (JObj []) |})
               (JFloat (Float64.of_ratio 999 100)) _ eq_refl eq_refl)
            RequestException eq_refl))).
  discriminate.
Defined.

(** ** Connection manager: invariants of the runs *)

Section ConnectionInvariants.

Variable HEARTBEAT_INTERVAL : Z.
Variable PING_TIMEOUT : Z.

#[local] Abbreviation step := (Connection.step HEARTBEAT_INTERVAL PING_TIMEOUT).
#[local] Abbreviation run := (Connection.run HEARTBEAT_INTERVAL PING_TIMEOUT).

(** A step keeps: a running heartbeat belongs to an open connection. *)
Lemma step_keeps_heartbeat_inside (s s' : Connection.state)
  (ev : Connection.event) (effs : list Connection.effect) :
  step s ev = Some (s', effs) ->
  (Connection.hb_running s = true -> Connection.ws_open s = true) ->
  Connection.hb_running s' = true -> Connection.ws_open s' = true.
Proof.
  destruct s as [m h lp].
  unfold Connection.step, Connection.on_message, Connection.teardown,
    Connection.heartbeat_failed, Connection.ws_open, Connection.hb_running.
  cbn [Connection.main Connection.hb Connection.last_pong].
  destruct ev, m, h; intros H; try discriminate H;
    repeat match type of H with
      | context [match ?f with Ok _ => _ | Raise _ => _ end] =>
          destruct f as [[? ?]|?]
      end;
    cbn in H; inversion H; subst; clear H; cbn; intuition congruence.
Qed.

Lemma run_invariant (P : Connection.state -> Prop) :
  (forall s ev s' effs, step s ev = Some (s', effs) -> P s -> P s') ->
  forall evs s s' effs, run s evs = Some (s', effs) -> P s -> P s'.
Proof.
  intros Hstep. induction evs as [|ev evs IH]; intros s s' effs;
    cbn [Connection.run].
  - now intros [= <- _].
  - destruct (step s ev) as [[s1 e1]|] eqn:H1; [|discriminate].
    destruct (run s1 evs) as [[s2 e2]|] eqn:H2; [|discriminate].
    intros [= <- _] Hs. eapply IH; [exact H2|]. eapply Hstep; eauto.
Qed.

(** X18 ([_connect_and_listen] and [heartbeat]): at every point of every
    run of the listener, a heartbeat task that is still running belongs to a
    connection that is open: when the connection ends, its heartbeat is
    cancelled or has ended before. *)
Theorem heartbeat_inside_connection (now : Float64.float)
  (evs : list Connection.event) (s : Connection.state)
  (effs : list Connection.effect) :
  run (fst (Connection.start now)) evs = Some (s, effs) ->
  Connection.hb_running s = true ->
  Connection.ws_open s = true.
Proof.
  intros Hrun.
  apply (run_invariant
           (fun s => Connection.hb_running s = true ->
                     Connection.ws_open s = true)
           (fun s ev s' effs => step_keeps_heartbeat_inside s s' ev effs)
           _ _ _ _ Hrun).
  discriminate.
Qed.

Lemma connects_app (a b : list Connection.effect) :
  Connection.connects (a ++ b)
  = (Connection.connects a + Connection.connects b)%nat.
Proof. unfold Connection.connects. now rewrite filter_app, length_app. Qed.

Lemma backoffs_app (a b : list Connection.effect) :
  backoffs (a ++ b) = (backoffs a + backoffs b)%nat.
Proof. unfold backoffs. now rewrite filter_app, length_app. Qed.

Lemma step_counts (s s' : Connection.state) (ev : Connection.event)
  (effs : list Connection.effect) :
  HEARTBEAT_INTERVAL <> 5 ->
  step s ev = Some (s', effs) ->
  (Connection.connects effs + sleeping s' = backoffs effs + sleeping s)%nat.
Proof.
  intros HI. apply Z.eqb_neq in HI.
  destruct s as [m h lp].
  unfold Connection.step, Connection.on_message, Connection.teardown,
    Connection.heartbeat_failed, Connection.hb_running, sleeping.
  cbn [Connection.main Connection.hb Connection.last_pong].
  destruct ev, m, h; intros H; try discriminate H;
    repeat match type of H with
      | context [match ?f with Ok _ => _ | Raise _ => _ end] =>
          destruct f as [[? ?]|?]
      | context [if ?b then _ else _] => destruct b
      end;
    cbn in H; inversion H; subst; clear H;
    unfold Connection.connects, backoffs; cbn; rewrite ?HI; reflexivity.
Qed.

Lemma run_counts (evs : list Connection.event) :
  HEARTBEAT_INTERVAL <> 5 ->
  forall s0 s effs,
    run s0 evs = Some (s, effs) ->
    (Connection.connects effs + sleeping s = backoffs effs + sleeping s0)%nat.
Proof.
  intros HI. induction evs as [|ev evs IH]; intros s0 s effs;
    cbn [Connection.run].
  - intros [= <- <-]. reflexivity.
  - destruct (step s0 ev) as [[s1 e1]|] eqn:H1; [|discriminate].
    destruct (run s1 evs) as [[s2 e2]|] eqn:H2; [|discriminate].
    intros [= <- <-]. rewrite connects_app, backoffs_app.
    pose proof (step_counts _ _ _ _ HI H1). pose proof (IH _ _ _ H2). lia.
Qed.

(** X19 ([start]): in every run of the listener the connection attempts are
    the first one and one after each five seconds' sleep that has ended: no
    attempt is made without the sleep before it, and each sleep is followed
    by one attempt.  (The heartbeat interval is not five seconds, so that
    the sleeps of [start] are told from those of the heartbeat.) *)
Theorem reconnects_follow_backoff (now : Float64.float)
  (evs : list Connection.event) (s : Connection.state)
  (effs : list Connection.effect) :
  HEARTBEAT_INTERVAL <> 5 ->
  run (fst (Connection.start now)) evs = Some (s, effs) ->
  (Connection.connects (snd (Connection.start now) ++ effs) + sleeping s
   = backoffs effs + 1)%nat.
Proof.
  intros HI Hrun. rewrite connects_app.
  pose proof (run_counts evs HI _ _ _ Hrun) as G.
  change (Connection.connects (snd (Connection.start now))) with 1%nat.
  change (sleeping (fst (Connection.start now))) with 0%nat in G. lia.
Qed.

Lemma step_without_heartbeat (s s' : Connection.state) (ev : Connection.event)
  (effs : list Connection.effect) :
  Connection.hb_running s = false ->
  is_connected ev = false ->
  step s ev = Some (s', effs) ->
  Connection.hb_running s' = false /\ filter is_ping effs = [].
Proof.
  destruct s as [m h lp].
  unfold Connection.step, Connection.on_message, Connection.teardown,
    Connection.heartbeat_failed, Connection.hb_running.
  cbn [Connection.main Connection.hb Connection.last_pong].
  destruct ev, m, h; intros Hh Hc H; try discriminate H; try discriminate Hh;
    try discriminate Hc;
    repeat match type of H with
      | context [match ?f with Ok _ => _ | Raise _ => _ end] =>
          destruct f as [[? ?]|?]
      | context [if ?b then _ else _] => destruct b
      end;
    cbn in H; inversion H; subst; clear H; cbn; split; reflexivity.
Qed.

(** X20 ([heartbeat]): once the heartbeat task has ended or was cancelled,
    nothing starts it again on the same connection: until the next
    connection is made, no probe is sent, whatever else happens. *)
Theorem heartbeat_stays_ended (evs : list Connection.event)
  (s s' : Connection.state) (effs : list Connection.effect) :
  Connection.hb_running s = false ->
  forallb (fun ev => negb (is_connected ev)) evs = true ->
  run s evs = Some (s', effs) ->
  Connection.hb_running s' = false /\ filter is_ping effs = [].
Proof.
  revert s s' effs. induction evs as [|ev evs IH]; intros s s' effs Hh Hevs;
    cbn [Connection.run].
  - intros [= <- <-]. now split.
  - cbn [forallb] in Hevs. apply andb_true_iff in Hevs as [Hev Hevs].
    apply negb_true_iff in Hev.
    destruct (step s ev) as [[s1 e1]|] eqn:H1; [|discriminate].
    destruct (run s1 evs) as [[s2 e2]|] eqn:H2; [|discriminate].
    intros [= <- <-].
    destruct (step_without_heartbeat _ _ _ _ Hh Hev H1) as [Hh1 Hp1].
    destruct (IH _ _ _ Hh1 Hevs H2) as [Hh2 Hp2].
    split; [assumption|]. now rewrite filter_app, Hp1, Hp2.
Qed.

(** X21 (the message loop of [_connect_and_listen]): a frame that is not a
    JSON object, or not JSON at all, costs the connection: nothing is
    dispatched, the heartbeat is stopped, the connection is closed and the
    five seconds' sleep before the next attempt begins. *)
Theorem malformed_frame_reconnects (s : Connection.state)
  (parsed : result json) :
  Connection.main s = Connection.Listening ->
  match parsed with Ok v => Json.is_dict v = false | Raise _ => True end ->
  exists s' effs,
    step s (Connection.Received parsed) = Some (s', effs)
    /\ Connection.main s' = Connection.Reconnecting
    /\ Connection.hb_running s' = false
    /\ filter is_dispatch effs = []
    /\ In Connection.Close effs
    /\ In (Connection.Sleep 5) effs.
Proof.
  intros Hm Hbad. unfold Connection.step. rewrite Hm.
  assert (E : Connection.on_message s parsed
              = (fst (Connection.teardown s),
                 Connection.Say Handler.DEBUG "WS RAW >>> %s"
                   :: snd (Connection.teardown s))).
  { unfold Connection.on_message.
    destruct parsed as [v|x]; [destruct v; try discriminate Hbad|];
      cbn [rbind Json.get]; now destruct (Connection.teardown s). }
  exists (fst (Connection.teardown s)),
    (Connection.Say Handler.DEBUG "WS RAW >>> %s" :: snd (Connection.teardown s)).
  split; [destruct (Connection.hb s); now rewrite E|].
  unfold Connection.teardown, Connection.hb_running.
  cbn [fst snd Connection.main Connection.hb].
  repeat split.
  - destruct (Connection.hb s); reflexivity.
  - destruct (Connection.hb s); reflexivity.
  - right. apply in_or_app. right. now left.
  - right. apply in_or_app. right. cbn. tauto.
Qed.

(** X22 (the message loop of [_connect_and_listen]): a frame that is an
    object without [params] is passed over and the loop goes on.  For a
    frame with the objects [params], [result] and [value] nested in it, the
    loop goes on as well, and the handler is started exactly when [value]
    holds a signature that is truthy; it gets that signature and the [logs]
    of [value], or the empty list without them. *)
Theorem notification_is_dispatched (s : Connection.state)
  (msg : list (string * json)) :
  Connection.main s = Connection.Listening ->
  (Json.lookup "params" msg = None ->
   step s (Connection.Received (Ok (JObj msg)))
   = Some (s, [Connection.Say Handler.DEBUG "WS RAW >>> %s"]))
  /\ (forall params res value,
        Json.lookup "params" msg = Some (JObj params) ->
        Json.lookup "result" params = Some (JObj res) ->
        Json.lookup "value" res = Some (JObj value) ->
        step s (Connection.Received (Ok (JObj msg)))
        = Some (s, Connection.Say Handler.DEBUG "WS RAW >>> %s"
                     :: if Json.truthy (field "signature" value)
                        then [Connection.Say Handler.INFO
                                "Received signature: %s";
                              Connection.Dispatch (field "signature" value)
                                (match Json.lookup "logs" value with
                                 | Some logs_list => logs_list
                                 | None => JArr []
                                 end)]
                        else [])).
Proof.
  intros Hm. unfold Connection.step. rewrite Hm. split.
  - intros Hp. unfold Connection.on_message. cbn [rbind Json.get].
    rewrite Hp. cbn. destruct (Connection.hb s); reflexivity.
  - intros params res value Hp Hr Hv.
    unfold Connection.on_message, field. cbn [rbind Json.get].
    rewrite Hp. cbn [rbind Json.get]. rewrite Hr. cbn [rbind Json.get].
    rewrite Hv. cbn [rbind Json.get].
    destruct (Json.lookup "signature" value) as [sig|]; cbn [rbind];
      destruct (Json.lookup "logs" value) as [logs_list|]; cbn [rbind];
      destruct (Connection.hb s); reflexivity.
Qed.

(** X23 ([start] around [_connect_and_listen]): whichever [await] of the
    main task fails (the handshake, the subscription request, a receive),
    the listener ends in the five seconds' sleep, and when the sleep is over
    it connects again. *)
Theorem failure_leads_to_reconnect (s : Connection.state) :
  Connection.main s <> Connection.Reconnecting ->
  exists s1 effs1 s2,
    step s (failure_at (Connection.main s)) = Some (s1, effs1)
    /\ Connection.main s1 = Connection.Reconnecting
    /\ last effs1 Connection.Connect = Connection.Sleep 5
    /\ step s1 Connection.BackoffElapsed
       = Some (s2, Connection.connect_effects)
    /\ Connection.main s2 = Connection.Connecting.
Proof.
  destruct s as [m h lp]. cbn [Connection.main]. intros Hm.
  unfold Connection.step, Connection.teardown, Connection.hb_running.
  cbn [Connection.main Connection.hb Connection.last_pong].
  destruct m; try congruence; destruct h; cbn;
    eexists _, _, _; repeat split.
Qed.

Lemma heartbeat_step_leaves_main (s s' : Connection.state)
  (ev : Connection.event) (effs : list Connection.effect) :
  is_heartbeat_event ev = true ->
  step s ev = Some (s', effs) ->
  Connection.main s' = Connection.main s
  /\ filter ends_or_begins effs = [].
Proof.
  destruct s as [m h lp].
  unfold Connection.step, Connection.heartbeat_failed.
  cbn [Connection.main Connection.hb Connection.last_pong].
  destruct ev; intros Hev; try discriminate Hev;
    destruct m, h; intros H; try discriminate H;
    repeat match type of H with
      | context [if ?b then _ else _] => destruct b
      end;
    inversion H; subst; clear H; split; reflexivity.
Qed.

(** X24 ([heartbeat]): nothing that happens in the heartbeat task reaches
    the main task: whatever the probes do (answered, timed out, failed, the
    connection reported closed), the main task stays at the [await] it was
    at, and the connection is neither closed nor made anew by it. *)
Theorem heartbeat_never_ends_connection (evs : list Connection.event)
  (s s' : Connection.state) (effs : list Connection.effect) :
  forallb is_heartbeat_event evs = true ->
  run s evs = Some (s', effs) ->
  Connection.main s' = Connection.main s
  /\ filter ends_or_begins effs = [].
Proof.
  revert s s' effs. induction evs as [|ev evs IH]; intros s s' effs Hevs;
    cbn [Connection.run].
  - intros [= <- <-]. now split.
  - cbn [forallb] in Hevs. apply andb_true_iff in Hevs as [Hev Hevs].
    destruct (step s ev) as [[s1 e1]|] eqn:H1; [|discriminate].
    destruct (run s1 evs) as [[s2 e2]|] eqn:H2; [|discriminate].
    intros [= <- <-].
    destruct (heartbeat_step_leaves_main _ _ _ _ Hev H1) as [Hm1 Hf1].
    destruct (IH _ _ _ Hevs H2) as [Hm2 Hf2].
    split; [congruence|]. now rewrite filter_app, Hf1, Hf2.
Qed.

End ConnectionInvariants.

Lemma heartbeat_never_ends_connection_witness :
  exists s effs,
    Connection.run DEFAULT_HEARTBEAT_INTERVAL DEFAULT_PING_TIMEOUT listening
      [Connection.IntervalElapsed (Float64.of_Z 30); Connection.PingSent;
       Connection.PongReceived;
       Connection.IntervalElapsed (Float64.of_Z 60);
       Connection.PingFailed true]
    = Some (s, effs)
    /\ Connection.main s = Connection.main listening
    /\ filter ends_or_begins effs = [].
Proof.
  eexists _, _.
  refine ((fun H => conj H
             (heartbeat_never_ends_connection DEFAULT_HEARTBEAT_INTERVAL
                DEFAULT_PING_TIMEOUT
                [Connection.IntervalElapsed (Float64.of_Z 30);
                 Connection.PingSent; Connection.PongReceived;
                 Connection.IntervalElapsed (Float64.of_Z 60);
                 Connection.PingFailed true]
                listening _ _ eq_refl H)) _).
  vm_compute. reflexivity.
Defined.

Lemma heartbeat_inside_connection_witness :
  Connection.ws_open
    {| Connection.main := Connection.Listening;
       Connection.hb := Connection.Pinging (Float64.of_Z 30);
       Connection.last_pong := Float64.of_Z 0 |} = true.
Proof.
  refine (heartbeat_inside_connection DEFAULT_HEARTBEAT_INTERVAL
            DEFAULT_PING_TIMEOUT (Float64.of_Z 0) (firstn 4 silent_peer)
            _ _ _ _).
  - vm_compute. reflexivity.
  - reflexivity.
Defined.

Lemma reconnects_follow_backoff_witness :
  exists s effs,
    Connection.run DEFAULT_HEARTBEAT_INTERVAL DEFAULT_PING_TIMEOUT
      (fst (Connection.start (Float64.of_Z 0)))
      (failed_handshakes 2 ++ [Connection.ConnectFailed]) = Some (s, effs)
    /\ (Connection.connects (snd (Connection.start (Float64.of_Z 0)) ++ effs)
        + sleeping s = backoffs effs + 1)%nat.
Proof.
  eexists _, _.
  refine ((fun H => conj H
             (reconnects_follow_backoff DEFAULT_HEARTBEAT_INTERVAL
                DEFAULT_PING_TIMEOUT (Float64.of_Z 0)
                (failed_handshakes 2 ++ [Connection.ConnectFailed])
                _ _ _ H)) _).
  - discriminate.
  - vm_compute. reflexivity.
Defined.

Lemma heartbeat_stays_ended_witness :
  exists s effs,
    Connection.run DEFAULT_HEARTBEAT_INTERVAL DEFAULT_PING_TIMEOUT
      {| Connection.main := Connection.Listening;
         Connection.hb := Connection.Finished;
         Connection.last_pong := Float64.of_Z 0 |}
      [Connection.Received (Ok (notification (JStr "Sig") (JArr [])));
       Connection.RecvFailed; Connection.BackoffElapsed]
    = Some (s, effs)
    /\ Connection.hb_running s = false /\ filter is_ping effs = [].
Proof.
  eexists _, _.
  refine ((fun H => conj H
             (heartbeat_stays_ended DEFAULT_HEARTBEAT_INTERVAL
                DEFAULT_PING_TIMEOUT
                [Connection.Received
                   (Ok (notification (JStr "Sig") (JArr [])));
                 Connection.RecvFailed; Connection.BackoffElapsed]
                {| Connection.main := Connection.Listening;
                   Connection.hb := Connection.Finished;
                   Connection.last_pong := Float64.of_Z 0 |}
                _ _ eq_refl eq_refl H)) _).
  vm_compute. reflexivity.
Defined.

Lemma malformed_frame_reconnects_witness :
  exists s' effs,
    Connection.step DEFAULT_HEARTBEAT_INTERVAL DEFAULT_PING_TIMEOUT listening
      (Connection.Received (Ok (JArr []))) = Some (s', effs)
    /\ Connection.main s' = Connection.Reconnecting
    /\ Connection.hb_running s' = false
    /\ filter is_dispatch effs = []
    /\ In Connection.Close effs
    /\ In (Connection.Sleep 5) effs.
Proof.
  exact (malformed_frame_reconnects DEFAULT_HEARTBEAT_INTERVAL
           DEFAULT_PING_TIMEOUT listening (Ok (JArr [])) eq_refl eq_refl).
Defined.

Lemma notification_is_dispatched_witness :
  Connection.step DEFAULT_HEARTBEAT_INTERVAL DEFAULT_PING_TIMEOUT listening
    (Connection.Received
       (Ok (notification (JStr "Sig") (JArr [JStr (memo_line "ud:3 pl30")]))))
  = Some (listening,
          [Connection.Say Handler.DEBUG "WS RAW >>> %s";
           Connection.Say Handler.INFO "Received signature: %s";
           Connection.Dispatch (JStr "Sig")
             (JArr [JStr (memo_line "ud:3 pl30")])]).
Proof.
  exact (proj2 (notification_is_dispatched DEFAULT_HEARTBEAT_INTERVAL
                  DEFAULT_PING_TIMEOUT listening
                  (notification_fields (JStr "Sig")
                     (JArr [JStr (memo_line "ud:3 pl30")]))
                  eq_refl)
           (notification_params (JStr "Sig")
              (JArr [JStr (memo_line "ud:3 pl30")]))
           (notification_result (JStr "Sig")
              (JArr [JStr (memo_line "ud:3 pl30")]))
           (notification_value (JStr "Sig")
              (JArr [JStr (memo_line "ud:3 pl30")]))
           eq_refl eq_refl eq_refl).
Defined.

Lemma failure_leads_to_reconnect_witness :
  exists s1 effs1 s2,
    Connection.step DEFAULT_HEARTBEAT_INTERVAL DEFAULT_PING_TIMEOUT listening
      (failure_at (Connection.main listening)) = Some (s1, effs1)
    /\ Connection.main s1 = Connection.Reconnecting
    /\ last effs1 Connection.Connect = Connection.Sleep 5
    /\ Connection.step DEFAULT_HEARTBEAT_INTERVAL DEFAULT_PING_TIMEOUT s1
         Connection.BackoffElapsed
       = Some (s2, Connection.connect_effects)
    /\ Connection.main s2 = Connection.Connecting.
Proof.
  refine (failure_leads_to_reconnect DEFAULT_HEARTBEAT_INTERVAL
            DEFAULT_PING_TIMEOUT listening _).
  discriminate.
Defined.
